(** * font-indexer: a shallow embedding of [font-indexer.py] and
    [font-renderer.py], and the properties of the index builder, the
    quality checkers and the text rasterizer.

    Font parsing (fontTools) and text layout / rasterization (Pillow) are
    external libraries.  They are not re-implemented: what the two scripts
    ask of them is collected in the records [TTFont], [FreeTypeFont] and
    [Env], and every call that can raise returns a [result].  The code of
    the scripts themselves (the checks, the main loop, the HTML writes) is
    translated function by function, with the names of the source. *)

From Stdlib Require Import Ascii SpecFloat.
From stdpp Require Import base option list gmap strings pretty sorting.

Local Open Scope string_scope.
Local Open Scope list_scope.
Local Open Scope Z_scope.

(** ** Strings *)

(** The double quote and the line feed, which the HTML templates use. *)
Definition dq : string := String (Ascii.ascii_of_nat 34) EmptyString.
Definition nl : string := String (Ascii.ascii_of_nat 10) EmptyString.
Definition sq : string := "'".

(** [ord(char)] *)
Definition ord (c : Ascii.ascii) : Z := Z.of_nat (Ascii.nat_of_ascii c).

(** A one-character string: a character inside an f-string. *)
Definition str_char (c : Ascii.ascii) : string := String c EmptyString.

(** ** Exceptions

    The scripts only tell [TypeError] from the rest ([except TypeError]
    inside [except Exception]); [KeyError] is what a dict lookup raises.
    [str_exn e] is the text that an f-string prints for [e]. *)

Inductive exn : Type :=
  | TypeError (msg : string)
  | KeyError (key : string)
  | Exception (msg : string).

Definition str_exn (e : exn) : string :=
  match e with
  | TypeError msg => msg
  | KeyError key => sq +:+ key +:+ sq
  | Exception msg => msg
  end.

Inductive result (A : Type) : Type :=
  | Ok (a : A)
  | Raise (e : exn).
Arguments Ok {A} a.
Arguments Raise {A} e.

#[global] Instance result_ret : MRet result := λ A a, Ok a.
#[global] Instance result_bind : MBind result := λ A B f r,
  match r with
  | Ok a => f a
  | Raise e => Raise e
  end.

(** ** fontTools: what [TTFont(font_path)] answers *)

Record NameRecord := {
  nameID : Z;
  toUnicode : result string;
}.

Record TTFont := {
  (** [font.getBestCmap()]: [None] or a dict from code points to glyph names *)
  getBestCmap : result (option (gmap Z string));
  (** [font['hmtx']]: glyph name to (advance width, left side bearing) *)
  hmtx : result (gmap string (Z * Z));
  (** [font['head'].unitsPerEm] *)
  unitsPerEm : result Z;
  (** [font['name'].names] *)
  names : result (list NameRecord);
}.

(** [d[key]] on a dict with string keys. *)
Definition getitem {V} (d : gmap string V) (key : string) : result V :=
  match d !! key with
  | Some v => Ok v
  | None => Raise (KeyError key)
  end.

(** ** Pillow: what [ImageFont.truetype(font_path, size)] and the drawing
    calls answer *)

Record FreeTypeFont := {
  (** [font.getmetrics()] = (ascent, descent) *)
  getmetrics : Z * Z;
  (** [draw.textbbox((0, 0), text, font=font)] = (left, top, right, bottom) *)
  textbbox : string → result (Z * Z * Z * Z);
  (** [draw.textsize(text, font=font)] = (width, height), older Pillow *)
  textsize : string → result (Z * Z);
  (** whether [draw.text(xy, text, font=font, fill=...)] raises *)
  text_check : string → result unit;
}.

Record DrawOp := {
  op_xy : Z * Z;
  op_text : string;
  op_fill : string;
}.

Record Image := {
  mode : string;
  width : Z;
  height : Z;
  background : Z * Z * Z * Z;
  drawn : list DrawOp;
}.

(** ** The environment of a run: the libraries, the file system as the
    scripts read it, the terminal *)

Record Env := {
  (** [TTFont(font_path)] *)
  open_font : string → result TTFont;
  (** [ImageFont.truetype(font_path, size)] *)
  truetype : string → Z → result FreeTypeFont;
  (** whether [Image.new(mode, size, color)] raises *)
  new_check : string → Z * Z → result unit;
  (** whether [img.save(image_path, 'PNG')] raises *)
  save_check : string → result unit;
  (** [os.walk(directory)]: (root, files) in the order of the walk *)
  walk : string → list (string * list string);
  (** [os.path.relpath(path)] *)
  relpath : string → string;
  (** [sys.stdout.isatty()] *)
  isatty : bool;
  (** [os.path.exists(path)] *)
  exists_ : string → bool;
  (** whether [os.makedirs(path)] raises *)
  makedirs_check : string → result unit;
  (** whether [open(path, 'w')] raises *)
  open_check : string → result unit;
  (** [open(path, 'r').read()] *)
  read_text : string → result string;
  (** [markdown.markdown(text)] *)
  markdown : string → string;
}.

(** ** What a run changes: the console and the files written *)

Inductive FileData : Type :=
  | ImageFile (fmt : string) (img : Image)
  | TextFile (content : string).

Record Sys := {
  console : list string;
  files : gmap string FileData;
}.

Definition M (A : Type) : Type := Sys → A * Sys.

#[global] Instance M_ret : MRet M := λ A a s, (a, s).
#[global] Instance M_bind : MBind M := λ A B f m s,
  let '(a, s') := m s in f a s'.

(** [print(line)] and [tqdm.write(line)] *)
Definition print (line : string) : M unit := λ s,
  (tt, {| console := console s ++ [line]; files := files s |}).

(** Writing a file: the path now holds the new content. *)
Definition write_file (path : string) (data : FileData) : M unit := λ s,
  (tt, {| console := console s; files := <[path := data]> (files s) |}).

(** ** binary64, for the one float computation of the metric checker

    [sum(ws) / len(ws)] is Python's true division of two ints and
    [average_width * 3] a float product; both are correctly rounded
    binary64 operations.  Widths are the 16-bit fields of the [hmtx]
    table, far below 2^53, so the conversions from int are exact. *)

Definition prec : Z := 53.
Definition emax : Z := 1024.

Definition float_of_int (z : Z) : spec_float :=
  binary_normalize prec emax z 0 false.

Definition truediv (a b : Z) : spec_float :=
  SFdiv prec emax (float_of_int a) (float_of_int b).

Definition fmul (x y : spec_float) : spec_float := SFmul prec emax x y.

(** [n > x] for an int [n] and a float [x] *)
Definition int_gt_float (n : Z) (x : spec_float) : bool :=
  SFltb x (float_of_int n).

(** [sum(ws)] *)
Definition sum (ws : list Z) : Z := foldr Z.add 0 ws.

(** ** Paths ([posixpath]) and the string methods used on them *)

Definition is_slash (c : Ascii.ascii) : bool := Ascii.eqb c "/"%char.

Fixpoint has_slash (p : string) : bool :=
  match p with
  | EmptyString => false
  | String c rest => is_slash c || has_slash rest
  end.

(** [os.path.basename(p)]: what follows the last slash *)
Fixpoint basename (p : string) : string :=
  match p with
  | EmptyString => EmptyString
  | String c rest =>
      if has_slash rest then basename rest
      else if is_slash c then rest
      else p
  end.

(** [s.endswith(suffix)] *)
Definition endswith (s suffix : string) : bool :=
  let n := String.length s in
  let k := String.length suffix in
  if (n <? k)%nat then false
  else String.eqb (String.substring (n - k) k s) suffix.

(** [s.startswith(prefix)] *)
Definition startswith (s prefix : string) : bool := String.prefix prefix s.

(** [os.path.join(a, b)] *)
Definition path_join (a b : string) : string :=
  if startswith b "/" then b
  else if String.eqb a EmptyString || endswith a "/" then a +:+ b
  else a +:+ "/" +:+ b.

(** [c.lower()] on the ASCII letters; no other character lowers to one of
    the four characters that [find_fonts] compares with. *)
Definition lower_char (c : Ascii.ascii) : Ascii.ascii :=
  let n := Ascii.nat_of_ascii c in
  if ((65 <=? n) && (n <=? 90))%nat then Ascii.ascii_of_nat (n + 32) else c.

Fixpoint lower (s : string) : string :=
  match s with
  | EmptyString => EmptyString
  | String c rest => String (lower_char c) (lower rest)
  end.

(** [fonts[:number]] for a Python int [number]: a negative bound counts
    from the end of the list. *)
Definition slice_to {A} (l : list A) (number : Z) : list A :=
  if 0 <=? number then take (Z.to_nat number) l
  else take (length l - Z.to_nat (- number)) l.

(** [sorted(fonts)]: strings compare character by character. *)
Definition sorted (l : list string) : list string := merge_sort String.le l.

(** ** The Pillow calls that build and save an image *)

(** [Image.new(mode, size, color)] *)
Definition Image_new (env : Env) (mode : string) (size : Z * Z)
    (color : Z * Z * Z * Z) : result Image :=
  _ ← new_check env mode size;
  Ok {| mode := mode; width := size.1; height := size.2;
        background := color; drawn := [] |}.

(** [ImageDraw.Draw(img).text(xy, text, font=font, fill=fill)] *)
Definition draw_text (img : Image) (xy : Z * Z) (text : string)
    (font : FreeTypeFont) (fill : string) : result Image :=
  _ ← text_check font text;
  Ok {| mode := mode img; width := width img; height := height img;
        background := background img;
        drawn := drawn img ++ [{| op_xy := xy; op_text := text; op_fill := fill |}] |}.

(** [img.save(image_path, fmt)] *)
Definition save (env : Env) (img : Image) (image_path fmt : string) : M (result unit) :=
  match save_check env image_path with
  | Ok _ => write_file image_path (ImageFile fmt img);; mret (Ok tt)
  | Raise e => mret (Raise e)
  end.

(** ** The results of the checks *)

(** A [QualityResult]: pass or fail, and the reason of a failure. *)
Definition QualityResult : Type := bool * string.

Record FontInfo := {
  family : string;
  style : string;
  full_name : string;
  version : string;
  copyright : string;
}.

(** [names.get(key, 'N/A')] *)
Definition names_get (names : gmap Z string) (key : Z) : string :=
  default "N/A" (names !! key).

(** A [try] block that has no effect of its own before it returns:
    [try_except body handler] is the value of the body, or the handler's
    when the body raised. *)
Definition try_except {A} (body : result A) (handler : exn → M A) : M A :=
  match body with
  | Ok a => mret a
  | Raise e => handler e
  end.

(** * font-indexer.py *)

Module FontIndexer.

Definition required_chars : string :=
  "ABCDEFGHIJKLMNOPQRSTUVWXYZabcdefghijklmnopqrstuvwxyz0123456789".

(** *** get_font_info *)

(** [for record in font['name'].names: names[record.nameID] = record.toUnicode()] *)
Fixpoint collect_names (records : list NameRecord) (names : gmap Z string)
  : result (gmap Z string) :=
  match records with
  | [] => Ok names
  | record :: rest =>
      s ← toUnicode record;
      collect_names rest (<[nameID record := s]> names)
  end.

Definition get_font_info_body (env : Env) (font_path : string) : result (option FontInfo) :=
  font ← open_font env font_path;
  records ← names font;
  names ← collect_names records ∅;
  Ok (Some {| family := names_get names 1;
              style := names_get names 2;
              full_name := names_get names 4;
              version := names_get names 5;
              copyright := names_get names 0 |}).

Definition get_font_info (env : Env) (font_path : string) : M (option FontInfo) :=
  try_except (get_font_info_body env font_path)
    (λ e, print ("Error reading " +:+ font_path +:+ ": " +:+ str_exn e);; mret None).

(** *** find_fonts *)

(** [for file in files: if file.lower().endswith('.ttf'): fonts.append(os.path.join(root, file))] *)
Fixpoint find_in_dir (root : string) (files : list string) (fonts : list string)
  : list string :=
  match files with
  | [] => fonts
  | file :: rest =>
      if endswith (lower file) ".ttf"
      then find_in_dir root rest (fonts ++ [path_join root file])
      else find_in_dir root rest fonts
  end.

Fixpoint find_in_walk (dirs : list (string * list string)) (fonts : list string)
  : list string :=
  match dirs with
  | [] => fonts
  | (root, files) :: rest => find_in_walk rest (find_in_dir root files fonts)
  end.

Definition find_fonts (env : Env) (directory : string) : list string :=
  find_in_walk (walk env directory) [].

(** *** has_required_chars *)

(** [for char in required_chars: if ord(char) not in cmap: return False] and
    [return True] after the loop *)
Fixpoint all_in_cmap (cmap : gmap Z string) (chars : string) : bool :=
  match chars with
  | EmptyString => true
  | String char rest =>
      match cmap !! ord char with
      | None => false
      | Some _ => all_in_cmap cmap rest
      end
  end.

Definition has_required_chars_body (env : Env) (font_path : string) : result bool :=
  font ← open_font env font_path;
  cmap ← getBestCmap font;
  match cmap with
  | None => Ok false
  | Some cmap =>
      if decide (cmap = ∅) then Ok false
      else Ok (all_in_cmap cmap required_chars)
  end.

Definition has_required_chars (env : Env) (font_path : string) : M bool :=
  try_except (has_required_chars_body env font_path)
    (λ e, print ("Could not check characters for " +:+ font_path +:+ ": " +:+ str_exn e);;
          mret false).

(** *** check_font_metrics *)

(** The loop over [required_chars]: either one of its two [return]s is
    taken ([inl]), or it ends with the widths collected ([inr]). *)
Fixpoint scan_widths (cmap : gmap Z string) (hmtx : gmap string (Z * Z))
    (units_per_em : Z) (chars : string) (alphanumeric_widths : list Z)
  : result (QualityResult + list Z) :=
  match chars with
  | EmptyString => Ok (inr alphanumeric_widths)
  | String char rest =>
      match cmap !! ord char with
      | None => scan_widths cmap hmtx units_per_em rest alphanumeric_widths
      | Some glyph_name =>
          '(advance_width, _) ← getitem hmtx glyph_name;
          let alphanumeric_widths := alphanumeric_widths ++ [advance_width] in
          if advance_width =? 0 then
            Ok (inl (false, "Character '" +:+ str_char char +:+ "' has zero width"))
          else if advance_width >? units_per_em * 10 then
            Ok (inl (false, "Character '" +:+ str_char char +:+ "' has excessively large width"))
          else scan_widths cmap hmtx units_per_em rest alphanumeric_widths
      end
  end.

Definition check_font_metrics_body (env : Env) (font_path : string) : result QualityResult :=
  font ← open_font env font_path;
  cmap ← getBestCmap font;
  match cmap with
  | None => Ok (false, "No cmap table found")
  | Some cmap =>
      if decide (cmap = ∅) then Ok (false, "No cmap table found") else
      hmtx ← hmtx font;
      units_per_em ← unitsPerEm font;
      scanned ← scan_widths cmap hmtx units_per_em required_chars [];
      match scanned with
      | inl early => Ok early
      | inr alphanumeric_widths =>
          match alphanumeric_widths with
          | [] => Ok (false, "No alphanumeric characters found")
          | _ :: _ =>
              match cmap !! ord " " with
              | None => Ok (false, "No space character")
              | Some space_glyph_name =>
                  let average_width :=
                    truediv (sum alphanumeric_widths)
                            (Z.of_nat (length alphanumeric_widths)) in
                  '(space_advance_width, _) ← getitem hmtx space_glyph_name;
                  if int_gt_float space_advance_width
                       (fmul average_width (float_of_int 3))
                  then Ok (false, "Space character is excessively wide")
                  else Ok (true, EmptyString)
              end
          end
      end
  end.

Definition check_font_metrics (env : Env) (font_path : string) : QualityResult :=
  match check_font_metrics_body env font_path with
  | Ok r => r
  | Raise e => (false, "Could not check metrics: " +:+ str_exn e)
  end.

(** *** slow_check_font *)

(** The three measurements, [textbbox(...)[2]] each; a [TypeError] from
    any of them sends all three to [textsize(...)[0]]. *)
Definition measure_probes (font : FreeTypeFont) : result (Z * Z * Z) :=
  let test_string_with_spaces := "A B C D E" in
  let test_string_no_spaces := "ABCDE" in
  let attempt :=
    '(_, _, width_with_spaces, _) ← textbbox font test_string_with_spaces;
    '(_, _, width_no_spaces, _) ← textbbox font test_string_no_spaces;
    '(_, _, space_width, _) ← textbbox font " ";
    Ok (width_with_spaces, width_no_spaces, space_width) in
  match attempt with
  | Raise (TypeError _) =>
      '(width_with_spaces, _) ← textsize font test_string_with_spaces;
      '(width_no_spaces, _) ← textsize font test_string_no_spaces;
      '(space_width, _) ← textsize font " ";
      Ok (width_with_spaces, width_no_spaces, space_width)
  | r => r
  end.

Definition slow_check_font_body (env : Env) (font_path : string) (size : Z)
  : result QualityResult :=
  font ← truetype env font_path size;
  _ ← new_check env "RGB" (1, 1);
  '(width_with_spaces, width_no_spaces, space_width) ← measure_probes font;
  if width_with_spaces - width_no_spaces >? space_width * 4
  then Ok (false, "Potential kerning issue")
  else Ok (true, EmptyString).

Definition slow_check_font (env : Env) (font_path : string) (size : Z) : QualityResult :=
  match slow_check_font_body env font_path size with
  | Ok r => r
  | Raise e => (false, "Could not perform slow check: " +:+ str_exn e)
  end.

(** *** render_text *)

(** The width of the text: the inner [try] of [render_text]. *)
Definition measure_width (font : FreeTypeFont) (text : string) : result Z :=
  match textbbox font text with
  | Ok bbox => let '(x0, _, x1, _) := bbox in Ok (x1 - x0)
  | Raise (TypeError _) => '(text_width, _) ← textsize font text; Ok text_width
  | Raise e => Raise e
  end.

(** Everything in the [try] before [img.save]: the image to be saved. *)
Definition render_image (env : Env) (text font_path : string) (size : Z)
  : result Image :=
  font ← truetype env font_path size;
  let '(ascent, descent) := getmetrics font in
  _ ← new_check env "RGB" (1, 1);
  text_width ← measure_width font text;
  let padding := 10 in
  let img_width := text_width + 2 * padding in
  let img_height := ascent + Z.abs descent + 2 * padding in
  img ← Image_new env "RGBA" (img_width, img_height) (255, 255, 255, 0);
  draw_text img (padding, padding) text font "black".

Definition render_text (env : Env) (text font_path image_path : string) (size : Z)
  : M bool :=
  let failed e :=
    print ("Error rendering text with " +:+ font_path +:+ ": " +:+ str_exn e);;
    mret false in
  match render_image env text font_path size with
  | Ok img =>
      saved ← save env img image_path "PNG";
      match saved with
      | Ok _ => mret true
      | Raise e => failed e
      end
  | Raise e => failed e
  end.

(** *** main *)

Record Args := {
  text : string;
  output_dir : string;
  html_file : string;
  font_size : Z;
  slow_check : bool;
  font_dir : string;
  number : option Z;
}.

(** The variables that the loop of [main] updates. *)
Record Locals := {
  total_processed_fonts : nat;
  fonts_with_issues : nat;
  table_rows : list string;
}.

Definition initial : Locals :=
  {| total_processed_fonts := 0; fonts_with_issues := 0; table_rows := [] |}.

(** The eight [table_rows.append] of one font. *)
Definition row_cells (info : FontInfo) (font_path title_attr quality_icon
    image_path relative_font_path : string) : list string :=
  [ "<tr>";
    "<td class=" +:+ dq +:+ "font-name-col" +:+ dq +:+ ">" +:+ full_name info +:+ "</td>";
    "<td class=" +:+ dq +:+ "filename-col" +:+ dq +:+ ">" +:+ basename font_path +:+ "</td>";
    "<td>" +:+ style info +:+ "</td>";
    "<td " +:+ title_attr +:+ ">" +:+ quality_icon +:+ "</td>";
    "<td class=" +:+ dq +:+ "render-col" +:+ dq +:+ "><img src=" +:+ dq +:+ image_path +:+ dq +:+ " alt=" +:+ dq +:+ "Render of " +:+ full_name info +:+ dq +:+ "></td>";
    "<td><a href=" +:+ dq +:+ relative_font_path +:+ dq +:+ "><i class='bx bx-download'></i></a></td>";
    "</tr>" ].

(** [check_font_metrics], then [slow_check_font] when asked for and the
    metrics passed; the reason of the second replaces the first only when
    the second fails. *)
Definition quality (env : Env) (args : Args) (font_path : string) : QualityResult :=
  let '(metrics_ok, quality_reason) := check_font_metrics env font_path in
  if slow_check args && metrics_ok then
    let '(metrics_ok, reason) := slow_check_font env font_path (font_size args) in
    if negb metrics_ok then (metrics_ok, reason) else (metrics_ok, quality_reason)
  else (metrics_ok, quality_reason).

(** One iteration of [for font_path in font_iterator]. *)
Definition loop_body (env : Env) (args : Args) (st : Locals) (font_path : string)
  : M Locals :=
  covered ← has_required_chars env font_path;
  if negb covered then
    (if isatty env
     then print ("Skipping " +:+ basename font_path +:+ " (missing required characters)")
     else mret tt);;
    mret st
  else
    info ← get_font_info env font_path;
    match info with
    | None => mret st
    | Some info =>
        let '(metrics_ok, quality_reason) := quality env args font_path in
        let quality_icon := if metrics_ok then "&#9989;" else "&#10060;" in
        let title_attr :=
          if negb metrics_ok then "title=" +:+ dq +:+ quality_reason +:+ dq
          else EmptyString in
        let relative_font_path := relpath env font_path in
        let image_name := basename font_path +:+ ".png" in
        let image_path := path_join (output_dir args) image_name in
        rendered ← render_text env (text args) font_path image_path (font_size args);
        if (rendered : bool) then
          mret {| total_processed_fonts := S (total_processed_fonts st);
                  fonts_with_issues :=
                    (if negb metrics_ok then S (fonts_with_issues st)
                     else fonts_with_issues st);
                  table_rows :=
                    table_rows st ++
                    row_cells info font_path title_attr quality_icon
                      image_path relative_font_path |}
        else mret st
    end.

(** The whole loop, over the fonts in the order of iteration. *)
Fixpoint loop (env : Env) (args : Args) (st : Locals) (font_iterator : list string)
  : M Locals :=
  match font_iterator with
  | [] => mret st
  | font_path :: rest =>
      st' ← loop_body env args st font_path;
      loop env args st' rest
  end.

(** [fonts = find_fonts(args.font_dir)], the cut to [args.number], and
    [sorted(fonts)]: the list the loop runs over.  (On a terminal the list
    is wrapped in a [tqdm] progress bar, which yields the same elements.) *)
Definition capped (args : Args) (fonts : list string) : list string :=
  match number args with
  | Some n => slice_to fonts n
  | None => fonts
  end.

Definition font_iterator (env : Env) (args : Args) : list string :=
  sorted (capped args (find_fonts env (font_dir args))).

(** The [f.write] calls, in order, up to the test for README.md ... *)
Definition html_head (st : Locals) : list string :=
  [ "<html><head><title>Font Index</title>";
    "<link href=" +:+ dq +:+ "https://unpkg.com/boxicons@2.1.4/css/boxicons.min.css" +:+ dq +:+ " rel=" +:+ dq +:+ "stylesheet" +:+ dq +:+ ">";
    "<style>";
    "body { font-family: sans-serif; margin: 2em; }";
    "table { border-collapse: collapse; width: 100%; }";
    "th, td { border: 1px solid #ddd; padding: 8px; text-align: left; }";
    "th { background-color: #f2f2f2; cursor: pointer; }";
    "img { max-width: 100%; height: auto; }";
    "#readme { background-color: #f9f9f9; border: 1px solid #eee; padding: 1em; margin-bottom: 2em; }";
    ".font-name-col, .filename-col { max-width: 150px; overflow: hidden; text-overflow: ellipsis; white-space: nowrap; }";
    ".render-col { width: auto; }";
    "</style>";
    "</head><body>";
    "<h1>Font Index</h1>";
    "<p>Total fonts processed: " +:+ pretty (total_processed_fonts st) +:+ "</p>";
    "<p>Fonts with quality issues (&#10060;): " +:+ pretty (fonts_with_issues st) +:+ "</p>" ].

(** ... the one for the README ... *)
Definition html_readme (html_content : string) : string :=
  "<div id=" +:+ dq +:+ "readme" +:+ dq +:+ ">" +:+ html_content +:+ "</div>".

(** ... and the rest. *)
Definition sort_script : string :=
  String.concat nl
    [ EmptyString;
      "<script>";
      "const sortDirections = {};";
      EmptyString;
      "function sortTable(n) {";
      "    const table = document.getElementById(" +:+ dq +:+ "fontTable" +:+ dq +:+ ");";
      "    const tbody = table.tBodies[0];";
      "    const rows = Array.from(tbody.rows);";
      "    ";
      "    const dir = sortDirections[n] === 'asc' ? 'desc' : 'asc';";
      "    sortDirections[n] = dir;";
      EmptyString;
      "    rows.sort((a, b) => {";
      "        const x = a.cells[n].innerText.toLowerCase();";
      "        const y = b.cells[n].innerText.toLowerCase();";
      "        ";
      "        if (x < y) {";
      "            return dir === 'asc' ? -1 : 1;";
      "        }";
      "        if (x > y) {";
      "            return dir === 'asc' ? 1 : -1;";
      "        }";
      "        return 0;";
      "    });";
      EmptyString;
      "    rows.forEach(row => tbody.appendChild(row));";
      "}";
      "</script>";
      "        " ].

Definition html_tail (args : Args) (st : Locals) : list string :=
  [ "<p>The <b>Quality</b> column indicates whether a font has passed a series of quality checks. A green checkmark (&#9989;) indicates that the font has passed all checks. A red 'x' (&#10060;) indicates that the font may have issues, such as missing characters or inconsistent kerning, which can cause problems when rendering text.</p>";
    "<p>Rendering the text: " +:+ dq +:+ text args +:+ dq +:+ "</p>";
    "<table id=" +:+ dq +:+ "fontTable" +:+ dq +:+ ">";
    "<thead><tr><th class=" +:+ dq +:+ "font-name-col" +:+ dq +:+ " onclick=" +:+ dq +:+ "sortTable(0)" +:+ dq +:+ ">Font Name</th><th class=" +:+ dq +:+ "filename-col" +:+ dq +:+ " onclick=" +:+ dq +:+ "sortTable(1)" +:+ dq +:+ ">Filename</th><th onclick=" +:+ dq +:+ "sortTable(2)" +:+ dq +:+ ">Style</th><th onclick=" +:+ dq +:+ "sortTable(3)" +:+ dq +:+ ">Quality</th><th class=" +:+ dq +:+ "render-col" +:+ dq +:+ ">Render</th><th></th></tr></thead>";
    "<tbody>";
    String.concat nl (table_rows st);
    "</tbody>";
    "</table>";
    sort_script;
    "</body></html>" ].

(** What the file holds after the given writes. *)
Definition written (writes : list string) : FileData :=
  TextFile (String.concat EmptyString writes).

(** [with open(args.html_file, 'w') as f: ...].  Nothing in the block is
    caught: when reading README.md raises, the file is closed with what
    was written so far and the exception leaves [main]. *)
Definition write_html (env : Env) (args : Args) (st : Locals) : M (result unit) :=
  match open_check env (html_file args) with
  | Raise e => mret (Raise e)
  | Ok _ =>
      if exists_ env "README.md" then
        match read_text env "README.md" with
        | Raise e =>
            write_file (html_file args) (written (html_head st));;
            mret (Raise e)
        | Ok markdown_content =>
            let html_content := markdown env markdown_content in
            write_file (html_file args)
              (written (html_head st ++ [html_readme html_content] ++ html_tail args st));;
            mret (Ok tt)
        end
      else
        write_file (html_file args) (written (html_head st ++ html_tail args st));;
        mret (Ok tt)
  end.

Definition main (env : Env) (args : Args) : M (result unit) :=
  match (if negb (exists_ env (output_dir args))
         then makedirs_check env (output_dir args) else Ok tt) with
  | Raise e => mret (Raise e)
  | Ok _ =>
      st ← loop env args initial (font_iterator env args);
      write_html env args st
  end.

End FontIndexer.

(** * font-renderer.py *)

Module FontRenderer.

(** The size of the text: the inner [try] of [render_text]. *)
Definition measure_size (font : FreeTypeFont) (text : string) : result (Z * Z) :=
  match textbbox font text with
  | Ok bbox => let '(x0, y0, x1, y1) := bbox in Ok (x1 - x0, y1 - y0)
  | Raise (TypeError _) => textsize font text
  | Raise e => Raise e
  end.

Definition render_image (env : Env) (text font_path : string) (size : Z)
  : result Image :=
  font ← truetype env font_path size;
  _ ← new_check env "RGB" (1, 1);
  '(text_width, text_height) ← measure_size font text;
  img ← Image_new env "RGBA" (text_width + 20, text_height + 20)
          (255, 255, 255, 0);
  draw_text img (10, 10) text font "black".

Definition render_text (env : Env) (text font_path image_path : string) (size : Z)
  : M bool :=
  let failed e :=
    print ("Error rendering text with " +:+ font_path +:+ ": " +:+ str_exn e);;
    mret false in
  match render_image env text font_path size with
  | Ok img =>
      saved ← save env img image_path "PNG";
      match saved with
      | Ok _ => mret true
      | Raise e => failed e
      end
  | Raise e => failed e
  end.

End FontRenderer.

(** * Sample fonts and a sample run, for the concrete statements below *)

Module Sample.

(** A font table in which every glyph is named after its character. *)
Fixpoint cmap_of (chars : string) : gmap Z string :=
  match chars with
  | EmptyString => ∅
  | String c rest => <[ord c := str_char c]> (cmap_of rest)
  end.

Fixpoint hmtx_of (chars : string) (advance : ascii → Z) : gmap string (Z * Z) :=
  match chars with
  | EmptyString => ∅
  | String c rest => <[str_char c := (advance c, 0)]> (hmtx_of rest advance)
  end.

Definition make_font (chars : string) (advance : ascii → Z) (name : string) : TTFont :=
  {| getBestCmap := Ok (Some (cmap_of chars));
     hmtx := Ok (hmtx_of chars advance);
     unitsPerEm := Ok 1000;
     names := Ok [ {| nameID := 1; toUnicode := Ok name |};
                   {| nameID := 2; toUnicode := Ok "Regular" |};
                   {| nameID := 4; toUnicode := Ok (name +:+ " Regular") |} ] |}.

Definition alnum_and_space : string := FontIndexer.required_chars +:+ " ".

(** 600 units for every glyph, 300 for the space. *)
Definition regular (c : ascii) : Z := if Ascii.eqb c " " then 300 else 600.

Definition with_width (c0 : ascii) (w : Z) (advance : ascii → Z) (c : ascii) : Z :=
  if Ascii.eqb c c0 then w else advance c.

Definition good : TTFont := make_font alnum_and_space regular "Good".
Definition zeroC : TTFont :=
  make_font alnum_and_space (with_width "C" 0 regular) "ZeroC".
Definition wideA_zeroB : TTFont :=
  make_font alnum_and_space (with_width "A" 20000 (with_width "B" 0 regular)) "WideA".
Definition nospace : TTFont := make_font FontIndexer.required_chars regular "NoSpace".
Definition zeroA_nospace : TTFont :=
  make_font FontIndexer.required_chars (with_width "A" 0 regular) "ZeroA".

(** A face that lays every character out 12 pixels wide, between the
    lines 5 and 23, with ascent 22 and descent 6 ... *)
Definition monospace : FreeTypeFont :=
  {| getmetrics := (22, 6);
     textbbox := λ text, Ok (0, 5, 12 * Z.of_nat (String.length text), 23);
     textsize := λ text, Ok (12 * Z.of_nat (String.length text), 18);
     text_check := λ _, Ok tt |}.

(** ... and one whose spaces between letters come out 40 pixels wide while
    a lone space measures 8. *)
Definition loose : FreeTypeFont :=
  {| getmetrics := (22, 6);
     textbbox := λ text,
       if String.eqb text "A B C D E" then Ok (0, 5, 220, 23)
       else if String.eqb text " " then Ok (0, 5, 8, 23)
       else Ok (0, 5, 12 * Z.of_nat (String.length text), 23);
     textsize := λ text, Ok (12 * Z.of_nat (String.length text), 18);
     text_check := λ _, Ok tt |}.

Definition env : Env :=
  {| open_font := λ path,
       if String.eqb path "fonts/good.ttf" then Ok good
       else if String.eqb path "fonts/loose.ttf" then Ok good
       else if String.eqb path "fonts/unloadable.ttf" then Ok good
       else if String.eqb path "fonts/zeroC.ttf" then Ok zeroC
       else if String.eqb path "fonts/wideA_zeroB.ttf" then Ok wideA_zeroB
       else if String.eqb path "fonts/nospace.ttf" then Ok nospace
       else if String.eqb path "fonts/zeroA_nospace.ttf" then Ok zeroA_nospace
       else Raise (Exception "Not a TrueType or OpenType font (bad sfntVersion)");
     truetype := λ path size,
       if String.eqb path "fonts/loose.ttf" then Ok loose
       else if String.eqb path "fonts/unloadable.ttf"
         then Raise (Exception "unknown file format")
       else Ok monospace;
     new_check := λ _ _, Ok tt;
     save_check := λ _, Ok tt;
     walk := λ directory,
       [ (directory, ["zeroC.ttf"; "notes.txt"; "good.ttf"; "corrupt.TTF"]) ];
     relpath := λ path, path;
     isatty := false;
     exists_ := λ _, false;
     makedirs_check := λ _, Ok tt;
     open_check := λ _, Ok tt;
     read_text := λ _, Raise (Exception "No such file or directory");
     markdown := λ text, text |}.

Definition args : FontIndexer.Args :=
  {| FontIndexer.text := "Hi";
     FontIndexer.output_dir := "renders";
     FontIndexer.html_file := "index.html";
     FontIndexer.font_size := 24;
     FontIndexer.slow_check := true;
     FontIndexer.font_dir := "fonts";
     FontIndexer.number := Some 2 |}.

(** The same run without [-n] and without the slow check. *)
Definition all_args : FontIndexer.Args :=
  {| FontIndexer.text := "Hi";
     FontIndexer.output_dir := "renders";
     FontIndexer.html_file := "index.html";
     FontIndexer.font_size := 24;
     FontIndexer.slow_check := false;
     FontIndexer.font_dir := "fonts";
     FontIndexer.number := None |}.

Definition start : Sys := {| console := []; files := ∅ |}.

End Sample.

(** * The vocabulary of the properties *)

Import FontIndexer.

(** The ASCII letters and digits. *)
Definition is_alnum (c : ascii) : bool :=
  let n := nat_of_ascii c in
  ((65 <=? n) && (n <=? 90) || (97 <=? n) && (n <=? 122)
   || (48 <=? n) && (n <=? 57))%nat.

(** [c] is one of the characters of [required_chars]. *)
Definition required (c : ascii) : Prop :=
  In c (String.list_ascii_of_string required_chars).

(** The ways in which a font lacks coverage: it cannot be opened or its
    character map cannot be read, the best character map is absent, or
    one of the required characters is not a key of it. *)
Inductive lacks_coverage (env : Env) (font_path : string) : Prop :=
  | opening_raises e :
      open_font env font_path = Raise e → lacks_coverage env font_path
  | cmap_raises font e :
      open_font env font_path = Ok font → getBestCmap font = Raise e →
      lacks_coverage env font_path
  | cmap_absent font :
      open_font env font_path = Ok font → getBestCmap font = Ok None →
      lacks_coverage env font_path
  | char_missing font cmap c :
      open_font env font_path = Ok font → getBestCmap font = Ok (Some cmap) →
      required c → cmap !! ord c = None →
      lacks_coverage env font_path.

(** The characters of a string, as the [for] loops visit them. *)
Abbreviation chars_of s := (String.list_ascii_of_string s).

(** [c] passes the two width tests of the loop: when it is in the
    character map, its glyph has an advance width, which is neither zero
    nor above ten times the units per em. *)
Definition passes_widths (cmap : gmap Z string) (hmtx : gmap string (Z * Z))
    (units_per_em : Z) (c : ascii) : Prop :=
  ∀ glyph_name, cmap !! ord c = Some glyph_name →
    ∃ w lsb, hmtx !! glyph_name = Some (w, lsb) ∧ w ≠ 0 ∧ w ≤ units_per_em * 10.

(** The reason that cites a zero-width character. *)
Definition zero_width_reason (c : ascii) : string :=
  "Character '" +:+ str_char c +:+ "' has zero width".

(** The widths measured for a font at a size, as [slow_check_font] does. *)
Definition probes_measured (env : Env) (font_path : string) (size : Z)
    (ws wn sp : Z) : Prop :=
  ∃ font, truetype env font_path size = Ok font ∧
          new_check env "RGB" (1, 1) = Ok tt ∧
          measure_probes font = Ok (ws, wn, sp).

(** Where the thumbnail of a font goes. *)
Definition thumbnail_path (args : Args) (font_path : string) : string :=
  path_join (output_dir args) (basename font_path +:+ ".png").

(** The locals after an iteration that appends a row, for a font with
    the given metadata and quality result. *)
Definition emitted (env : Env) (args : Args) (st : Locals) (font_path : string)
    (info : FontInfo) (q : QualityResult) : Locals :=
  {| total_processed_fonts := S (total_processed_fonts st);
     fonts_with_issues :=
       (if negb q.1 then S (fonts_with_issues st) else fonts_with_issues st);
     table_rows :=
       table_rows st ++
       row_cells info font_path
         (if negb q.1 then "title=" +:+ dq +:+ q.2 +:+ dq else EmptyString)
         (if q.1 then "&#9989;" else "&#10060;")
         (thumbnail_path args font_path) (relpath env font_path) |}.

(** The number of rows opened in a list of cells. *)
Definition rows_opened (cells : list string) : nat :=
  count_occ String.string_dec cells "<tr>".

(** What holds of the locals between two iterations. *)
Record loop_invariant (st : Locals) : Prop := {
  issues_le_total : (fonts_with_issues st ≤ total_processed_fonts st)%nat;
  rows_eq_total : rows_opened (table_rows st) = total_processed_fonts st;
  cells_eq_total : length (table_rows st) = (8 * total_processed_fonts st)%nat;
}.

(** Nothing in the scripts reads the console back, nor the files written:
    the value of a computation does not depend on the state it starts
    from, and the files it leaves depend on the files it found only. *)
Definition oblivious {A} (m : M A) : Prop :=
  ∀ s s', files s = files s' →
    (m s).1 = (m s').1 ∧ files (m s).2 = files (m s').2.

(** The image that [draw.text] leaves: the canvas, with the text on it. *)
Definition canvas (w h : Z) (text : string) : Image :=
  {| mode := "RGBA"; width := w; height := h;
     background := (255, 255, 255, 0);
     drawn := [ {| op_xy := (10, 10); op_text := text; op_fill := "black" |} ] |}.

(** Two renders in a row of "Hi" with the sample face. *)
Definition first_render : bool * Sys :=
  FontIndexer.render_text Sample.env "Hi" "fonts/good.ttf" "a.png" 24 Sample.start.
Definition second_render : bool * Sys :=
  FontIndexer.render_text Sample.env "Hi" "fonts/good.ttf" "b.png" 24
    first_render.2.

(** * font-renderer.py: the inspection commands and [main] *)

(** A Python [str] given on the command line: how it prints, and its
    code points. *)
Record Str := {
  shown : string;
  points : list Z;
}.

(** [ord(char)]: the code point of a one-character string, a [TypeError]
    for any other length. *)
Definition ord_str (char : Str) : result Z :=
  match points char with
  | [point] => Ok point
  | _ =>
      Raise (TypeError ("ord() expected a character, but string of length "
                          +:+ pretty (length (points char)) +:+ " found"))
  end.

(** A glyph of the [glyf] table: [glyph.recalcBounds(...)] and the four
    attributes read after it. *)
Record Glyph := {
  recalcBounds : result unit;
  xMin : result Z;
  yMin : result Z;
  xMax : result Z;
  yMax : result Z;
}.

(** What [subprocess.run(['eog', path])] does. *)
Inductive Spawn : Type :=
  | Ran
  | FileNotFoundError
  | SpawnError (e : exn).

(** What the renderer asks beyond [Env]: the [glyf] table of
    [TTFont(font_path)], and the launching of a command. *)
Record ViewerEnv := {
  glyf : string → result (gmap string Glyph);
  subprocess_run : list string → Spawn;
}.

Module RendererCLI.

Record Args := {
  font_size : Z;
  text : string;
  font : string;
  output : string;
  preview : bool;
  inspect : option Str;
  inspect_glyph_bbox_ : option Str;
}.

(** [print] of each line in turn. *)
Fixpoint print_lines (lines : list string) : M unit :=
  match lines with
  | [] => mret tt
  | line :: rest => print line;; print_lines rest
  end.

Definition not_found (char : Str) : string :=
  "Character '" +:+ shown char +:+ "' not found in font.".

(** [cmap[ord(char)]] behind the guard
    [if not cmap or ord(char) not in cmap], which both commands share:
    [None] when the guard prints that the character is not found. *)
Definition lookup_char (font : TTFont) (char : Str) : result (option string) :=
  cmap ← getBestCmap font;
  match cmap with
  | None => Ok None
  | Some cmap =>
      if decide (cmap = ∅) then Ok None
      else point ← ord_str char; Ok (cmap !! point)
  end.

(** *** inspect_char_metrics *)

(** The lines printed inside the [try]; every call that can raise comes
    before the first [print]. *)
Definition inspect_char_metrics_body (env : Env) (font_path : string) (char : Str)
  : result (list string) :=
  font ← open_font env font_path;
  glyph_name ← lookup_char font char;
  match glyph_name with
  | None => Ok [not_found char]
  | Some glyph_name =>
      hmtx ← hmtx font;
      '(advance_width, _) ← getitem hmtx glyph_name;
      units_per_em ← unitsPerEm font;
      Ok [ "Metrics for character '" +:+ shown char +:+ "' in "
             +:+ basename font_path +:+ ":";
           "  Advance Width: " +:+ pretty advance_width;
           "  Units Per Em: " +:+ pretty units_per_em ]
  end.

Definition inspect_char_metrics (env : Env) (font_path : string) (char : Str)
  : M unit :=
  match inspect_char_metrics_body env font_path char with
  | Ok lines => print_lines lines
  | Raise e =>
      print ("Could not inspect metrics for " +:+ font_path +:+ ": " +:+ str_exn e)
  end.

(** *** inspect_glyph_bbox *)

(** [print(f"  {label}: {glyph.attr}")]: the attribute is read first. *)
Definition print_attr (label : string) (attr : result Z) : M (result unit) :=
  match attr with
  | Ok v => print ("  " +:+ label +:+ ": " +:+ pretty v);; mret (Ok tt)
  | Raise e => mret (Raise e)
  end.

(** Sequencing inside a [try]: the rest runs only if nothing was raised. *)
Definition and_then (m : M (result unit)) (k : M (result unit)) : M (result unit) :=
  r ← m;
  match r with
  | Ok _ => k
  | Raise e => mret (Raise e)
  end.

(** The glyph, or [None] when the guard printed that the character is not
    found: all of the [try] that comes before the first [print]. *)
Definition find_glyph (env : Env) (venv : ViewerEnv) (font_path : string)
    (char : Str) : result (option Glyph) :=
  font ← open_font env font_path;
  glyph_name ← lookup_char font char;
  match glyph_name with
  | None => Ok None
  | Some glyph_name =>
      table ← glyf venv font_path;
      glyph ← getitem table glyph_name;
      _ ← recalcBounds glyph;
      Ok (Some glyph)
  end.

Definition inspect_glyph_bbox (env : Env) (venv : ViewerEnv) (font_path : string)
    (char : Str) : M unit :=
  let failed e :=
    print ("Could not inspect glyph bounding box for " +:+ font_path +:+ ": "
             +:+ str_exn e) in
  match find_glyph env venv font_path char with
  | Raise e => failed e
  | Ok None => print (not_found char)
  | Ok (Some glyph) =>
      r ← and_then
            (print ("Glyph bounding box for character '" +:+ shown char +:+ "' in "
                      +:+ basename font_path +:+ ":");; mret (Ok tt))
            (and_then (print_attr "xMin" (xMin glyph))
               (and_then (print_attr "yMin" (yMin glyph))
                  (and_then (print_attr "xMax" (xMax glyph))
                     (print_attr "yMax" (yMax glyph)))));
      match r with
      | Ok _ => mret tt
      | Raise e => failed e
      end
  end.

(** *** main *)

(** [if args.inspect:] on an argument that is [None] or a string. *)
Definition given (arg : option Str) : option Str :=
  match arg with
  | Some char => if decide (points char = []) then None else Some char
  | None => None
  end.

(** [main] returns the commands it launched, or the exception of
    [subprocess.run] that it does not catch. *)
Definition main (env : Env) (venv : ViewerEnv) (args : Args)
  : M (result (list (list string))) :=
  match given (inspect args) with
  | Some char => inspect_char_metrics env (font args) char;; mret (Ok [])
  | None =>
      match given (inspect_glyph_bbox_ args) with
      | Some char => inspect_glyph_bbox env venv (font args) char;; mret (Ok [])
      | None =>
          if negb (exists_ env (font args)) then
            print ("Error: Font file not found at " +:+ font args);; mret (Ok [])
          else
            rendered ← FontRenderer.render_text env (text args) (font args)
                         (output args) (font_size args);
            if (rendered : bool) then
              print ("Successfully rendered text to " +:+ output args);;
              if preview args then
                match subprocess_run venv ["eog"; output args] with
                | Ran => mret (Ok [["eog"; output args]])
                | FileNotFoundError =>
                    print ("eog not found. Please install it to use the "
                             +:+ "--preview feature.");;
                    mret (Ok [])
                | SpawnError e => mret (Raise e)
                end
              else mret (Ok [])
            else mret (Ok [])
      end
  end.

End RendererCLI.

(** * More vocabulary *)

(** The test of [find_fonts] on a file name. *)
Definition is_ttf (file : string) : bool := endswith (lower file) ".ttf".

(** A name table whose records all decode. *)
Definition name_records (texts : list (Z * string)) : list NameRecord :=
  map (λ kv, {| nameID := kv.1; toUnicode := Ok kv.2 |}) texts.

(** The widths that the metric checker collects: the advance widths of
    the characters that are in the character map, in order. *)
Fixpoint present_widths (cmap : gmap Z string) (hmtx : gmap string (Z * Z))
    (chars : string) : list Z :=
  match chars with
  | EmptyString => []
  | String c rest =>
      match cmap !! ord c with
      | Some glyph_name =>
          match hmtx !! glyph_name with
          | Some (w, _) => w :: present_widths cmap hmtx rest
          | None => present_widths cmap hmtx rest
          end
      | None => present_widths cmap hmtx rest
      end
  end.

(** The text of the last record with the given name ID. *)
Fixpoint last_name (key : Z) (texts : list (Z * string)) : option string :=
  match texts with
  | [] => None
  | (k, t) :: rest =>
      match last_name key rest with
      | Some t' => Some t'
      | None => if decide (k = key) then Some t else None
      end
  end.

(** [names.get(key, 'N/A')] read off the records. *)
Definition name_or_na (key : Z) (texts : list (Z * string)) : string :=
  default "N/A" (last_name key texts).

(** More samples. *)
Module Sample2.

(** A font one of whose name records does not decode. *)
Definition undecodable : TTFont :=
  {| getBestCmap := getBestCmap Sample.good;
     hmtx := hmtx Sample.good;
     unitsPerEm := Ok 1000;
     names := Ok [ {| nameID := 4; toUnicode := Ok "Any" |};
                   {| nameID := 16;
                      toUnicode := Raise (Exception "bad encoding") |} ] |}.

(** A font of two punctuation marks, and one with an empty character map. *)
Definition symbols : TTFont := Sample.make_font "!?" Sample.regular "Symbols".
Definition empty : TTFont := Sample.make_font EmptyString Sample.regular "Empty".

(** A font whose space is 2000 units wide, its letters and digits 600. *)
Definition widespace : TTFont :=
  Sample.make_font Sample.alnum_and_space
    (Sample.with_width " " 2000 Sample.regular) "WideSpace".

(** A face as an older Pillow presents it: no [textbbox], [textsize]
    only; its spaces between letters are wide. *)
Definition old_loose : FreeTypeFont :=
  {| getmetrics := (22, 6);
     textbbox := λ _,
       Raise (TypeError "textbbox() got an unexpected keyword argument 'font'");
     textsize := λ text,
       if String.eqb text "A B C D E" then Ok (220, 18)
       else if String.eqb text " " then Ok (8, 18)
       else Ok (12 * Z.of_nat (String.length text), 18);
     text_check := λ _, Ok tt |}.

(** [Sample.env] with these fonts, a terminal, a README.md that cannot be
    read, and a directory that cannot be written to. *)
Definition env : Env :=
  {| open_font := λ path,
       if String.eqb path "fonts/any.ttf" then Ok undecodable
       else if String.eqb path "fonts/symbols.ttf" then Ok symbols
       else if String.eqb path "fonts/empty.ttf" then Ok empty
       else if String.eqb path "fonts/widespace.ttf" then Ok widespace
       else if String.eqb path "a/good.ttf" then Ok Sample.good
       else if String.eqb path "b/good.ttf" then Ok Sample.good
       else if String.eqb path "fonts/old.ttf" then Ok Sample.good
       else open_font Sample.env path;
     truetype := λ path size,
       if String.eqb path "fonts/old.ttf" then Ok old_loose
       else truetype Sample.env path size;
     new_check := new_check Sample.env;
     save_check := λ path,
       if startswith path "/readonly/" then Raise (Exception "Permission denied")
       else Ok tt;
     walk := walk Sample.env;
     relpath := relpath Sample.env;
     isatty := true;
     exists_ := λ path,
       String.eqb path "fonts/good.ttf" || String.eqb path "README.md";
     makedirs_check := makedirs_check Sample.env;
     open_check := open_check Sample.env;
     read_text := λ _, Raise (Exception "Permission denied");
     markdown := markdown Sample.env |}.

(** The same with an output directory that cannot be made ... *)
Definition locked : Env :=
  {| open_font := open_font env; truetype := truetype env;
     new_check := new_check env; save_check := save_check env;
     walk := walk env; relpath := relpath env; isatty := isatty env;
     exists_ := exists_ env;
     makedirs_check := λ _, Raise (Exception "Permission denied");
     open_check := open_check env; read_text := read_text env;
     markdown := markdown env |}.

(** ... and with an HTML file that cannot be opened. *)
Definition unwritable : Env :=
  {| open_font := open_font env; truetype := truetype env;
     new_check := new_check env; save_check := save_check env;
     walk := walk env; relpath := relpath env; isatty := isatty env;
     exists_ := exists_ env; makedirs_check := makedirs_check env;
     open_check := λ _, Raise (Exception "Is a directory");
     read_text := read_text env; markdown := markdown env |}.

(** A [glyf] table with the outline of "A", and no [eog] installed. *)
Definition venv : ViewerEnv :=
  {| glyf := λ _,
       Ok {[ "A" := {| recalcBounds := Ok tt; xMin := Ok 10; yMin := Ok 0;
                       xMax := Ok 590; yMax := Ok 700 |} ]};
     subprocess_run := λ _, FileNotFoundError |}.

(** [eog] installed. *)
Definition venv_eog : ViewerEnv :=
  {| glyf := glyf venv; subprocess_run := λ _, Ran |}.

Definition cli (inspect bbox : option Str) (font output : string) (preview : bool)
  : RendererCLI.Args :=
  {| RendererCLI.font_size := 24;
     RendererCLI.text := "Hi";
     RendererCLI.font := font;
     RendererCLI.output := output;
     RendererCLI.preview := preview;
     RendererCLI.inspect := inspect;
     RendererCLI.inspect_glyph_bbox_ := bbox |}.

Definition letter_A : Str := {| shown := "A"; points := [65] |}.

End Sample2.

(** The error line of [render_text]. *)
Definition render_error (font_path : string) (e : exn) : string :=
  "Error rendering text with " +:+ font_path +:+ ": " +:+ str_exn e.

(** A computation that writes no file. *)
Definition keeps_files {A} (m : M A) : Prop := ∀ s, files (m s).2 = files s.

(** * The calls that can fail outside a handler

    The definitions above take every write to the console and to the HTML
    file as done, and [os.path.relpath] as returning.  In Python each of
    them can raise: [print] and [f.write] encode their string and raise a
    [UnicodeEncodeError] when they cannot (a file name whose bytes are not
    valid UTF-8, printed on a strict standard output), [os.path.relpath]
    raises a [ValueError] for a path on another drive, and the flush that
    closes the HTML file can fail.  [Faults] says which of these calls
    raise, and [Checked] has the functions of font-indexer.py that make
    them, with that raise: an exception raised by the [print] of an
    [except] handler leaves the function, and [main] has no handler for
    any of them.  The progress bar of tqdm goes to the standard error and
    is left out, as above. *)

Record Faults := {
  (** whether [print(line)] and [tqdm.write(line)] raise *)
  stdout_check : string → result unit;
  (** whether [os.path.relpath(font_path)] raises *)
  relpath_check : string → result unit;
  (** whether [f.write(text)] on the HTML file raises *)
  write_check : string → result unit;
  (** whether closing the file at the end of [with open(path, 'w')]
      raises *)
  close_check : string → result unit;
}.

Module Checked.

(** [print(line)] and [tqdm.write(line)] *)
Definition print (fl : Faults) (line : string) : M (result unit) :=
  match stdout_check fl line with
  | Ok _ => print line;; mret (Ok tt)
  | Raise e => mret (Raise e)
  end.

(** An [except] handler that prints a line and returns a value: the
    value, or the exception of the [print]. *)
Definition print_then {A} (fl : Faults) (line : string) (a : A)
  : M (result A) :=
  r ← print fl line;
  mret (match r with Ok _ => Ok a | Raise e => Raise e end).

Definition get_font_info (fl : Faults) (env : Env) (font_path : string)
  : M (result (option FontInfo)) :=
  match get_font_info_body env font_path with
  | Ok info => mret (Ok info)
  | Raise e =>
      print_then fl ("Error reading " +:+ font_path +:+ ": " +:+ str_exn e) None
  end.

Definition has_required_chars (fl : Faults) (env : Env) (font_path : string)
  : M (result bool) :=
  match has_required_chars_body env font_path with
  | Ok covered => mret (Ok covered)
  | Raise e =>
      print_then fl
        ("Could not check characters for " +:+ font_path +:+ ": " +:+ str_exn e)
        false
  end.

Definition render_text (fl : Faults) (env : Env)
    (text font_path image_path : string) (size : Z) : M (result bool) :=
  let failed e :=
    print_then fl
      ("Error rendering text with " +:+ font_path +:+ ": " +:+ str_exn e) false in
  match FontIndexer.render_image env text font_path size with
  | Ok img =>
      saved ← save env img image_path "PNG";
      match saved with
      | Ok _ => mret (Ok true)
      | Raise e => failed e
      end
  | Raise e => failed e
  end.

(** One iteration of [for font_path in font_iterator]. *)
Definition loop_body (fl : Faults) (env : Env) (args : Args) (st : Locals)
    (font_path : string) : M (result Locals) :=
  covered ← has_required_chars fl env font_path;
  match covered with
  | Raise e => mret (Raise e)
  | Ok false =>
      if isatty env
      then print_then fl
             ("Skipping " +:+ basename font_path +:+ " (missing required characters)")
             st
      else mret (Ok st)
  | Ok true =>
      info ← get_font_info fl env font_path;
      match info with
      | Raise e => mret (Raise e)
      | Ok None => mret (Ok st)
      | Ok (Some info) =>
          let '(metrics_ok, quality_reason) := quality env args font_path in
          let quality_icon := if metrics_ok then "&#9989;" else "&#10060;" in
          let title_attr :=
            if negb metrics_ok then "title=" +:+ dq +:+ quality_reason +:+ dq
            else EmptyString in
          match relpath_check fl font_path with
          | Raise e => mret (Raise e)
          | Ok _ =>
              let relative_font_path := relpath env font_path in
              let image_name := basename font_path +:+ ".png" in
              let image_path := path_join (output_dir args) image_name in
              rendered ← render_text fl env (text args) font_path image_path
                           (font_size args);
              match rendered with
              | Raise e => mret (Raise e)
              | Ok true =>
                  mret (Ok {| total_processed_fonts :=
                                S (total_processed_fonts st);
                              fonts_with_issues :=
                                (if negb metrics_ok then S (fonts_with_issues st)
                                 else fonts_with_issues st);
                              table_rows :=
                                table_rows st ++
                                row_cells info font_path title_attr quality_icon
                                  image_path relative_font_path |})
              | Ok false => mret (Ok st)
              end
          end
      end
  end.

(** The loop: an exception that leaves an iteration leaves the loop. *)
Fixpoint loop (fl : Faults) (env : Env) (args : Args) (st : Locals)
    (font_iterator : list string) : M (result Locals) :=
  match font_iterator with
  | [] => mret (Ok st)
  | font_path :: rest =>
      r ← loop_body fl env args st font_path;
      match r with
      | Ok st' => loop fl env args st' rest
      | Raise e => mret (Raise e)
      end
  end.

(** [f.write(chunk)] for each chunk in turn: the chunks written, and the
    exception that stopped the writes, if any. *)
Fixpoint write_chunks (fl : Faults) (chunks : list string)
  : list string * option exn :=
  match chunks with
  | [] => ([], None)
  | chunk :: rest =>
      match write_check fl chunk with
      | Ok _ =>
          let '(done, stopped) := write_chunks fl rest in (chunk :: done, stopped)
      | Raise e => ([], Some e)
      end
  end.

(** Leaving the [with] block: the file holds the chunks written, and an
    exception raised by the close replaces the one that left the block. *)
Definition leave (fl : Faults) (path : string) (done : list string)
    (stopped : option exn) : M (result unit) :=
  write_file path (written done);;
  mret (match close_check fl path with
        | Raise e => Raise e
        | Ok _ => match stopped with None => Ok tt | Some e => Raise e end
        end).

Definition write_to (fl : Faults) (path : string) (chunks : list string)
  : M (result unit) :=
  let '(done, stopped) := write_chunks fl chunks in leave fl path done stopped.

Definition write_html (fl : Faults) (env : Env) (args : Args) (st : Locals)
  : M (result unit) :=
  match open_check env (html_file args) with
  | Raise e => mret (Raise e)
  | Ok _ =>
      if exists_ env "README.md" then
        match write_chunks fl (html_head st) with
        | (done, Some e) => leave fl (html_file args) done (Some e)
        | (_, None) =>
            match read_text env "README.md" with
            | Raise e => leave fl (html_file args) (html_head st) (Some e)
            | Ok markdown_content =>
                let html_content := markdown env markdown_content in
                write_to fl (html_file args)
                  (html_head st ++ [html_readme html_content] ++ html_tail args st)
            end
        end
      else write_to fl (html_file args) (html_head st ++ html_tail args st)
  end.

Definition main (fl : Faults) (env : Env) (args : Args) : M (result unit) :=
  match (if negb (exists_ env (output_dir args))
         then makedirs_check env (output_dir args) else Ok tt) with
  | Raise e => mret (Raise e)
  | Ok _ =>
      r ← loop fl env args initial (font_iterator env args);
      match r with
      | Ok st => write_html fl env args st
      | Raise e => mret (Raise e)
      end
  end.

End Checked.

(** Every line on the console can be encoded. *)
Definition encodes (fl : Faults) (s : Sys) : Prop :=
  ∀ line, In line (console s) → stdout_check fl line = Ok tt.

(** The strings that [main] writes to the HTML file when nothing raises. *)
Definition html_chunks (env : Env) (args : Args) (st : Locals) : list string :=
  html_head st ++
  (if exists_ env "README.md" then
     match read_text env "README.md" with
     | Ok markdown_content => [html_readme (markdown env markdown_content)]
     | Raise _ => []
     end
   else []) ++
  html_tail args st.

(** A run over a corrupt font whose name has a byte that is not UTF-8, on
    a standard output that encodes ASCII lines only; nothing else fails. *)
Module Sample3.

Definition bad : string :=
  "fonts/bad" +:+ String (Ascii.ascii_of_nat 255) ".ttf".

Fixpoint is_ascii (line : string) : bool :=
  match line with
  | EmptyString => true
  | String c rest => (Ascii.nat_of_ascii c <? 128)%nat && is_ascii rest
  end.

Definition encode_error : exn :=
  Exception "'utf-8' codec can't encode character: surrogates not allowed".

Definition strict : Faults :=
  {| stdout_check := λ line, if is_ascii line then Ok tt else Raise encode_error;
     relpath_check := λ _, Ok tt;
     write_check := λ text, if is_ascii text then Ok tt else Raise encode_error;
     close_check := λ _, Ok tt |}.

Definition env : Env :=
  {| open_font := open_font Sample.env;
     truetype := truetype Sample.env;
     new_check := new_check Sample.env;
     save_check := save_check Sample.env;
     walk := λ directory,
       [ (directory, ["good.ttf"; "bad" +:+ String (Ascii.ascii_of_nat 255) ".ttf"]) ];
     relpath := relpath Sample.env;
     isatty := false;
     exists_ := exists_ Sample.env;
     makedirs_check := makedirs_check Sample.env;
     open_check := open_check Sample.env;
     read_text := read_text Sample.env;
     markdown := markdown Sample.env |}.

End Sample3.

(** A computation that only adds lines to the console. *)
Definition grows {A} (m : M A) : Prop :=
  ∀ s, ∃ extra, console (m s).2 = console s ++ extra.

(** The two lines printed for a font that cannot be opened. *)
Definition cannot_check_line (font_path : string) (e : exn) : string :=
  "Could not check characters for " +:+ font_path +:+ ": " +:+ str_exn e.

Definition skipping_line (font_path : string) : string :=
  "Skipping " +:+ basename font_path +:+ " (missing required characters)".

(** * Properties *)

(** Unfolding the two monads down to pairs and matches. *)
Ltac run :=
  unfold mbind, mret, M_bind, M_ret, result_bind, result_ret,
    try_except, print, write_file; cbn [fst snd console files].

(** ** The definitions at work *)

Example basename_nested : basename "fonts/sub/a.ttf" = "a.ttf".
Proof. reflexivity. Qed.

Example path_join_cases :
  path_join "renders" "a.ttf.png" = "renders/a.ttf.png" ∧
  path_join "renders/" "a.ttf.png" = "renders/a.ttf.png" ∧
  path_join "renders" "/tmp/a.png" = "/tmp/a.png".
Proof. repeat split. Qed.

Example slice_to_cases :
  slice_to [1; 2; 3; 4; 5] 3 = [1; 2; 3] ∧
  slice_to [1; 2; 3; 4; 5] 7 = [1; 2; 3; 4; 5] ∧
  slice_to [1; 2; 3; 4; 5] (-2) = [1; 2; 3] ∧
  slice_to [1; 2; 3; 4; 5] (-9) = [].
Proof. repeat split. Qed.

Example find_fonts_sample :
  find_fonts Sample.env "fonts"
  = ["fonts/zeroC.ttf"; "fonts/good.ttf"; "fonts/corrupt.TTF"].
Proof. reflexivity. Qed.

Example sorted_sample :
  font_iterator Sample.env Sample.all_args
  = ["fonts/corrupt.TTF"; "fonts/good.ttf"; "fonts/zeroC.ttf"].
Proof. vm_compute. reflexivity. Qed.

Example good_font_passes :
  check_font_metrics Sample.env "fonts/good.ttf" = (true, EmptyString).
Proof. vm_compute. reflexivity. Qed.

(** One third times three is one in binary64, as in Python. *)
Example third_times_three :
  int_gt_float 1 (fmul (truediv 1 3) (float_of_int 3)) = false ∧
  int_gt_float 2 (fmul (truediv 1 3) (float_of_int 3)) = true.
Proof. split; vm_compute; reflexivity. Qed.

(** The sample run: three fonts found, one that cannot be opened, one
    with a zero-width glyph, one without fault. *)
Example sample_run :
  (main Sample.env Sample.all_args Sample.start).1 = Ok tt ∧
  console (main Sample.env Sample.all_args Sample.start).2
  = ["Could not check characters for fonts/corrupt.TTF: "
       +:+ "Not a TrueType or OpenType font (bad sfntVersion)"] ∧
  (let st := (loop Sample.env Sample.all_args initial
                (font_iterator Sample.env Sample.all_args) Sample.start).1 in
   total_processed_fonts st = 2%nat ∧ fonts_with_issues st = 1%nat ∧
   length (table_rows st) = 16%nat).
Proof. repeat split; vm_compute; reflexivity. Qed.

(** ** The required characters *)

Lemma required_chars_length : String.length required_chars = 62%nat.
Proof. reflexivity. Qed.

Lemma required_chars_NoDup : NoDup (String.list_ascii_of_string required_chars).
Proof. apply (bool_decide_unpack _). vm_compute. reflexivity. Qed.

Lemma required_alnum c : required c ↔ is_alnum c = true.
Proof.
  unfold required.
  destruct c as [[] [] [] [] [] [] [] []]; vm_compute; split; intros H;
    try reflexivity; try discriminate; intuition discriminate.
Qed.

(** ** The coverage check *)

Lemma all_in_cmap_false cmap chars :
  all_in_cmap cmap chars = false ↔
  ∃ c, In c (String.list_ascii_of_string chars) ∧ cmap !! ord c = None.
Proof.
  induction chars as [|char rest IH]; simpl.
  - split; [discriminate | intros (c & [] & _)].
  - destruct (cmap !! ord char) eqn:Hc.
    + rewrite IH. split.
      * intros (c & Hin & Hnone). eauto.
      * intros (c & [<- | Hin] & Hnone); [congruence | eauto].
    + split; [eauto | reflexivity].
Qed.

Lemma has_required_chars_body_false env font_path :
  lacks_coverage env font_path ↔
  has_required_chars_body env font_path = Ok false ∨
  ∃ e, has_required_chars_body env font_path = Raise e.
Proof.
  unfold has_required_chars_body. run. split.
  - intros [e He | font e Hf He | font Hf Hc | font cmap c Hf Hc Hreq Hnone];
      rewrite ?Hf, ?He, ?Hc; eauto.
    destruct (decide (cmap = ∅)); [by left|]. left. f_equal.
    apply all_in_cmap_false. eauto.
  - destruct (open_font env font_path) as [font|e] eqn:Hf;
      [|intros _; by eapply opening_raises].
    destruct (getBestCmap font) as [[cmap|]|e] eqn:Hc;
      [|intros _; by eapply cmap_absent|intros _; by eapply cmap_raises].
    destruct (decide (cmap = ∅)) as [->|Hne].
    + intros _. eapply (char_missing _ _ font ∅ "A"); eauto.
      unfold required. simpl. auto.
    + intros [H | [e H]]; [|discriminate].
      assert (Hall : all_in_cmap cmap required_chars = false) by congruence.
      apply all_in_cmap_false in Hall as (c & Hin & Hnone).
      by eapply char_missing.
Qed.

(** The check answers [False] exactly on the fonts that lack coverage,
    and writes no file. *)
Lemma has_required_chars_false env font_path s :
  lacks_coverage env font_path ↔ (has_required_chars env font_path s).1 = false.
Proof.
  rewrite has_required_chars_body_false. unfold has_required_chars.
  destruct (has_required_chars_body env font_path) as [[]|e]; run;
    split; intros H; eauto; try discriminate.
  - destruct H as [H | [e H]]; discriminate.
Qed.

Lemma has_required_chars_files env font_path s :
  files (has_required_chars env font_path s).2 = files s.
Proof.
  unfold has_required_chars.
  destruct (has_required_chars_body env font_path) as [b|e]; run; reflexivity.
Qed.

(** ** One iteration of the loop *)

(** An iteration whose coverage check answers [False] changes neither the
    counters nor the rows, and writes no file. *)
Lemma loop_body_uncovered env args st font_path s :
  (has_required_chars env font_path s).1 = false →
  (loop_body env args st font_path s).1 = st ∧
  files (loop_body env args st font_path s).2 = files s.
Proof.
  intros Hfalse. pose proof (has_required_chars_files env font_path s) as Hfiles.
  unfold loop_body. run.
  destruct (has_required_chars env font_path s) as [covered s1].
  simpl in Hfalse, Hfiles. subst covered. cbn [negb].
  destruct (isatty env); run; auto.
Qed.

(** C1. A font that lacks coverage (it cannot be opened, its best character
    map is absent, or one of the 62 required characters A-Z, a-z, 0-9 is
    not a key of that map) gets no report row and increments neither
    counter: the iteration leaves the counters and the rows as they were,
    and no thumbnail is written. *)
Theorem uncovered_font_gets_no_row env args st font_path s :
  lacks_coverage env font_path →
  (loop_body env args st font_path s).1 = st ∧
  files (loop_body env args st font_path s).2 = files s.
Proof.
  intros Hlacks. apply loop_body_uncovered.
  by apply has_required_chars_false.
Qed.

Lemma uncovered_font_gets_no_row_witness :
  (loop_body Sample.env Sample.args initial "fonts/corrupt.TTF" Sample.start).1
    = initial ∧
  files (loop_body Sample.env Sample.args initial "fonts/corrupt.TTF" Sample.start).2
    = files Sample.start.
Proof.
  apply (uncovered_font_gets_no_row Sample.env Sample.args initial
           "fonts/corrupt.TTF" Sample.start).
  eapply opening_raises. vm_compute. reflexivity.
Defined.

(** ** The metric checker *)

Lemma scan_widths_cons cmap hm upm char rest acc :
  scan_widths cmap hm upm (String char rest) acc =
  match cmap !! ord char with
  | None => scan_widths cmap hm upm rest acc
  | Some glyph_name =>
      '(advance_width, _) ← getitem hm glyph_name;
      if advance_width =? 0 then Ok (inl (false, zero_width_reason char))
      else if advance_width >? upm * 10 then
        Ok (inl (false, "Character '" +:+ str_char char
                          +:+ "' has excessively large width"))
      else scan_widths cmap hm upm rest (acc ++ [advance_width])
  end.
Proof. reflexivity. Qed.

(** Over characters that pass, the loop only collects widths. *)
Lemma scan_widths_passes cmap hm upm pre rest acc :
  (∀ c, In c (chars_of pre) → passes_widths cmap hm upm c) →
  ∃ ws, scan_widths cmap hm upm (pre +:+ rest) acc
        = scan_widths cmap hm upm rest (acc ++ ws) ∧
        ((∃ c, In c (chars_of pre) ∧ is_Some (cmap !! ord c)) → ws ≠ []).
Proof.
  revert acc. induction pre as [|char pre IH]; intros acc Hpass.
  - exists []. rewrite app_nil_r. split; [reflexivity|]. intros (c & [] & _).
  - change (String char pre +:+ rest) with (String char (pre +:+ rest)).
    rewrite scan_widths_cons.
    assert (Hpre : ∀ c, In c (chars_of pre) → passes_widths cmap hm upm c).
    { intros c Hc. apply Hpass. simpl. auto. }
    destruct (cmap !! ord char) as [glyph_name|] eqn:Hchar.
    + destruct (Hpass char (or_introl eq_refl) glyph_name Hchar)
        as (w & lsb & Hw & Hnz & Hle).
      unfold getitem. rewrite Hw. run.
      destruct (Z.eqb_spec w 0) as [|_]; [contradiction|].
      destruct (Z.gtb_spec w (upm * 10)) as [|_]; [lia|].
      destruct (IH (acc ++ [w]) Hpre) as (ws & -> & _).
      exists (w :: ws). rewrite <- app_assoc. split; [reflexivity | discriminate].
    + destruct (IH acc Hpre) as (ws & -> & Hws). exists ws.
      split; [reflexivity|]. intros (c & [<- | Hin] & Hsome).
      * rewrite Hchar in Hsome. by destruct Hsome.
      * eauto.
Qed.

(** Every [return] inside the loop is a failure. *)
Lemma scan_widths_early cmap hm upm chars acc r :
  scan_widths cmap hm upm chars acc = Ok (inl r) → r.1 = false.
Proof.
  revert acc. induction chars as [|char rest IH]; intros acc; [discriminate|].
  rewrite scan_widths_cons. destruct (cmap !! ord char) as [glyph_name|]; [|apply IH].
  destruct (getitem hm glyph_name) as [[w lsb]|e]; run; [|discriminate].
  destruct (w =? 0); [intros [= <-]; reflexivity|].
  destruct (w >? upm * 10); [intros [= <-]; reflexivity|apply IH].
Qed.

(** With a zero-width character among those visited, the loop does not
    run to its end. *)
Lemma scan_widths_zero cmap hm upm chars acc c glyph_name lsb ws :
  In c (chars_of chars) → cmap !! ord c = Some glyph_name →
  hm !! glyph_name = Some (0, lsb) →
  scan_widths cmap hm upm chars acc ≠ Ok (inr ws).
Proof.
  intros Hin Hc Hzero. revert acc.
  induction chars as [|char rest IH]; intros acc; [destruct Hin|].
  rewrite scan_widths_cons. destruct Hin as [-> | Hin].
  - rewrite Hc. unfold getitem. rewrite Hzero. run. discriminate.
  - destruct (cmap !! ord char) as [g|]; [|by apply IH].
    destruct (getitem hm g) as [[w l]|e]; run; [|discriminate].
    destruct (w =? 0); [discriminate|].
    destruct (w >? upm * 10); [discriminate|by apply IH].
Qed.

Lemma check_font_metrics_value env font_path :
  check_font_metrics env font_path =
  match check_font_metrics_body env font_path with
  | Ok r => r
  | Raise e => (false, "Could not check metrics: " +:+ str_exn e)
  end.
Proof. reflexivity. Qed.

(** C2 (as amended).  When a required character that is in the character
    map has advance width 0, the metric checker fails.  The reason cites
    that character, [Character '<c>' has zero width], when the units per em
    can be read and every required character before it passes the width
    tests; otherwise an earlier character decides the reason. *)
Theorem zero_width_fails env font_path font cmap hm c glyph_name lsb :
  open_font env font_path = Ok font →
  getBestCmap font = Ok (Some cmap) →
  hmtx font = Ok hm →
  required c → cmap !! ord c = Some glyph_name →
  hm !! glyph_name = Some (0, lsb) →
  (check_font_metrics env font_path).1 = false ∧
  (∀ upm pre post,
     unitsPerEm font = Ok upm →
     required_chars = pre +:+ String c post →
     (∀ c', In c' (chars_of pre) → passes_widths cmap hm upm c') →
     check_font_metrics env font_path = (false, zero_width_reason c)).
Proof.
  intros Hopen Hcmap Hhmtx Hreq Hc Hzero.
  assert (Hne : cmap ≠ ∅).
  { intros ->. by rewrite lookup_empty in Hc. }
  rewrite check_font_metrics_value. unfold check_font_metrics_body. run.
  rewrite Hopen, Hcmap. destruct (decide (cmap = ∅)); [done|].
  rewrite Hhmtx. split.
  - destruct (unitsPerEm font) as [upm|e]; [|reflexivity].
    destruct (scan_widths cmap hm upm required_chars []) as [[r|ws]|e] eqn:Hscan;
      [by eapply scan_widths_early|by eapply scan_widths_zero in Hscan|reflexivity].
  - intros upm pre post -> Hsplit Hpre. rewrite Hsplit.
    destruct (scan_widths_passes cmap hm upm pre (String c post) [] Hpre)
      as (ws & -> & _).
    rewrite scan_widths_cons, Hc. unfold getitem. rewrite Hzero. reflexivity.
Qed.

Lemma zero_width_fails_witness :
  (check_font_metrics Sample.env "fonts/zeroC.ttf").1 = false ∧
  check_font_metrics Sample.env "fonts/zeroC.ttf" = (false, zero_width_reason "C").
Proof.
  pose proof (zero_width_fails Sample.env "fonts/zeroC.ttf" Sample.zeroC
    (Sample.cmap_of Sample.alnum_and_space)
    (Sample.hmtx_of Sample.alnum_and_space (Sample.with_width "C" 0 Sample.regular))
    "C" "C" 0) as H.
  destruct H as [Hfail Hreason]; try (vm_compute; reflexivity).
  { unfold required. simpl. auto. }
  split; [exact Hfail|].
  apply (Hreason 1000 "AB"
    "DEFGHIJKLMNOPQRSTUVWXYZabcdefghijklmnopqrstuvwxyz0123456789");
    try reflexivity.
  intros c' [<- | [<- | []]] glyph_name Hg; vm_compute in Hg;
    injection Hg as <-; exists 600, 0; (split; [vm_compute; reflexivity | lia]).
Defined.

(** C2 as stated fails on a font whose "A" is too wide and whose "B" has
    zero width: the reason cites "A", and no zero width. *)
Lemma zero_width_not_cited :
  open_font Sample.env "fonts/wideA_zeroB.ttf" = Ok Sample.wideA_zeroB ∧
  (∃ cmap hm,
     getBestCmap Sample.wideA_zeroB = Ok (Some cmap) ∧
     hmtx Sample.wideA_zeroB = Ok hm ∧
     required "B" ∧ cmap !! ord "B" = Some "B" ∧ hm !! "B" = Some (0, 0)) ∧
  check_font_metrics Sample.env "fonts/wideA_zeroB.ttf"
    = (false, "Character 'A' has excessively large width") ∧
  ∀ c, check_font_metrics Sample.env "fonts/wideA_zeroB.ttf"
       ≠ (false, zero_width_reason c).
Proof.
  assert (Hval : check_font_metrics Sample.env "fonts/wideA_zeroB.ttf"
                 = (false, "Character 'A' has excessively large width"))
    by (vm_compute; reflexivity).
  split; [reflexivity|]. split; [|split; [exact Hval|]].
  - eexists _, _. split; [reflexivity|]. split; [reflexivity|].
    split; [unfold required; simpl; auto|]. split; vm_compute; reflexivity.
  - intros c. rewrite Hval. unfold zero_width_reason, str_char. simpl.
    intros H. discriminate H.
Qed.

(** C3 (as amended).  A font whose character map lacks the space fails the
    metric checker.  The reason is [No space character] when the tables
    can be read, every required character passes the width tests, and one
    of them at least is in the character map; otherwise an earlier test
    decides the reason. *)
Theorem missing_space_fails env font_path font cmap :
  open_font env font_path = Ok font →
  getBestCmap font = Ok (Some cmap) →
  cmap !! ord " " = None →
  (check_font_metrics env font_path).1 = false ∧
  (∀ hm upm,
     hmtx font = Ok hm → unitsPerEm font = Ok upm →
     (∀ c, required c → passes_widths cmap hm upm c) →
     (∃ c, required c ∧ is_Some (cmap !! ord c)) →
     check_font_metrics env font_path = (false, "No space character")).
Proof.
  intros Hopen Hcmap Hspace.
  rewrite check_font_metrics_value. unfold check_font_metrics_body. run.
  rewrite Hopen, Hcmap. destruct (decide (cmap = ∅)) as [->|Hne].
  { split; [reflexivity|]. intros hm upm _ _ _ (c & _ & Hsome).
    rewrite lookup_empty in Hsome. by destruct Hsome. }
  split.
  - destruct (hmtx font) as [hm|e]; [|reflexivity].
    destruct (unitsPerEm font) as [upm|e]; [|reflexivity].
    destruct (scan_widths cmap hm upm required_chars []) as [[r|[|w ws]]|e] eqn:Hscan;
      [by eapply scan_widths_early|reflexivity| |reflexivity].
    by rewrite Hspace.
  - intros hm upm -> -> Hpass Hsome.
    destruct (scan_widths_passes cmap hm upm required_chars EmptyString []
                Hpass) as (ws & Hscan & Hws).
    change (required_chars +:+ EmptyString) with required_chars in Hscan.
    rewrite Hscan. simpl. destruct ws as [|w ws]; [by destruct (Hws Hsome)|].
    by rewrite Hspace.
Qed.

Lemma missing_space_fails_witness :
  (check_font_metrics Sample.env "fonts/nospace.ttf").1 = false ∧
  check_font_metrics Sample.env "fonts/nospace.ttf" = (false, "No space character").
Proof.
  pose proof (missing_space_fails Sample.env "fonts/nospace.ttf" Sample.nospace
    (Sample.cmap_of required_chars)) as H.
  destruct H as [Hfail Hreason]; try (vm_compute; reflexivity).
  split; [exact Hfail|].
  apply (Hreason (Sample.hmtx_of required_chars Sample.regular) 1000);
    try reflexivity.
  - intros c Hc glyph_name Hg. exists 600, 0.
    unfold required in Hc. simpl in Hc.
    repeat (destruct Hc as [<- | Hc];
            [vm_compute in Hg; injection Hg as <-;
             (split; [vm_compute; reflexivity | lia])|]).
    destruct Hc.
  - exists "A"%char. split; [unfold required; simpl; auto|].
    vm_compute. eauto.
Defined.

(** C3 as stated fails on a font that lacks the space and whose "A" has
    zero width: the zero width is found first. *)
Lemma missing_space_not_cited :
  open_font Sample.env "fonts/zeroA_nospace.ttf" = Ok Sample.zeroA_nospace ∧
  (∃ cmap, getBestCmap Sample.zeroA_nospace = Ok (Some cmap) ∧
           cmap !! ord " " = None) ∧
  check_font_metrics Sample.env "fonts/zeroA_nospace.ttf"
    = (false, "Character 'A' has zero width") ∧
  check_font_metrics Sample.env "fonts/zeroA_nospace.ttf"
    ≠ (false, "No space character").
Proof.
  split; [reflexivity|]. split; [|split].
  - eexists. split; [reflexivity|]. vm_compute. reflexivity.
  - vm_compute. reflexivity.
  - vm_compute. intros H. discriminate H.
Qed.

(** ** The kerning checker *)

(** The metric checker passes with an empty reason only. *)
Lemma check_font_metrics_pass env font_path :
  (check_font_metrics env font_path).1 = true →
  check_font_metrics env font_path = (true, EmptyString).
Proof.
  rewrite check_font_metrics_value. unfold check_font_metrics_body. run.
  destruct (open_font env font_path) as [font|e]; [|discriminate].
  destruct (getBestCmap font) as [[cmap|]|e]; [|discriminate..].
  destruct (decide (cmap = ∅)); [discriminate|].
  destruct (hmtx font) as [hm|e]; [|discriminate].
  destruct (unitsPerEm font) as [upm|e]; [|discriminate].
  destruct (scan_widths cmap hm upm required_chars []) as [[r|[|w ws]]|e] eqn:Hscan;
    [|discriminate| |discriminate].
  - apply scan_widths_early in Hscan. congruence.
  - destruct (cmap !! ord " ") as [space_glyph_name|]; [|discriminate].
    destruct (getitem hm space_glyph_name) as [[sw lsb]|e]; run; [|discriminate].
    destruct (int_gt_float sw _); [discriminate|reflexivity].
Qed.

(** What the three measurements are, with [textbbox] ... *)
Lemma measure_probes_textbbox font l1 t1 r1 b1 l2 t2 r2 b2 l3 t3 r3 b3 :
  textbbox font "A B C D E" = Ok (l1, t1, r1, b1) →
  textbbox font "ABCDE" = Ok (l2, t2, r2, b2) →
  textbbox font " " = Ok (l3, t3, r3, b3) →
  measure_probes font = Ok (r1, r2, r3).
Proof. unfold measure_probes. run. by intros -> -> ->. Qed.

(** ... and with [textsize], when the first [textbbox] is a [TypeError]. *)
Lemma measure_probes_textsize font msg w1 h1 w2 h2 w3 h3 :
  textbbox font "A B C D E" = Raise (TypeError msg) →
  textsize font "A B C D E" = Ok (w1, h1) →
  textsize font "ABCDE" = Ok (w2, h2) →
  textsize font " " = Ok (w3, h3) →
  measure_probes font = Ok (w1, w2, w3).
Proof. unfold measure_probes. run. by intros -> -> -> ->. Qed.

Lemma slow_check_font_value env font_path size :
  slow_check_font env font_path size =
  match slow_check_font_body env font_path size with
  | Ok r => r
  | Raise e => (false, "Could not perform slow check: " +:+ str_exn e)
  end.
Proof. reflexivity. Qed.

(** The body of the kerning checker, once the font is loaded and the
    three widths are measured. *)
Lemma slow_check_font_body_measured env font_path size font ws wn sp :
  truetype env font_path size = Ok font →
  new_check env "RGB" (1, 1) = Ok tt →
  measure_probes font = Ok (ws, wn, sp) →
  slow_check_font_body env font_path size =
  Ok (if ws - wn >? sp * 4 then (false, "Potential kerning issue")
      else (true, EmptyString)).
Proof.
  intros Hfont Hnew Hprobes. unfold slow_check_font_body. run.
  rewrite Hfont, Hnew, Hprobes. by destruct (ws - wn >? sp * 4).
Qed.

(** Conversely the body returns only after the three measurements. *)
Lemma slow_check_font_body_ok env font_path size r :
  slow_check_font_body env font_path size = Ok r →
  ∃ font ws wn sp,
    truetype env font_path size = Ok font ∧
    new_check env "RGB" (1, 1) = Ok tt ∧
    measure_probes font = Ok (ws, wn, sp) ∧
    r = (if ws - wn >? sp * 4 then (false, "Potential kerning issue")
         else (true, EmptyString)).
Proof.
  unfold slow_check_font_body. run.
  destruct (truetype env font_path size) as [font|e]; [|discriminate].
  destruct (new_check env "RGB" (1, 1)) as [[]|e]; [|discriminate].
  destruct (measure_probes font) as [[[ws wn] sp]|e] eqn:Hprobes; [|discriminate].
  cbn beta iota. intros H. exists font, ws, wn, sp.
  repeat split; [done|]. destruct (ws - wn >? sp * 4); congruence.
Qed.

(** C4 (as amended).  The kerning checker has a say only when the slow
    flag is set and the metric checker passed.  Then the font is failed
    with [Potential kerning issue] exactly when the measured width of
    "A B C D E" minus that of "ABCDE" is above four times that of " ";
    and it is failed as well, with [Could not perform slow check: ...],
    when loading the font or measuring raises.  It passes otherwise. *)
Theorem kerning_gate env args font_path :
  (slow_check args = false ∨ (check_font_metrics env font_path).1 = false →
   quality env args font_path = check_font_metrics env font_path) ∧
  (slow_check args = true → (check_font_metrics env font_path).1 = true →
   (quality env args font_path = (false, "Potential kerning issue") ↔
    ∃ ws wn sp, probes_measured env font_path (font_size args) ws wn sp ∧
                ws - wn > sp * 4) ∧
   (∀ e, slow_check_font_body env font_path (font_size args) = Raise e →
      quality env args font_path
      = (false, "Could not perform slow check: " +:+ str_exn e)) ∧
   (∀ ws wn sp, probes_measured env font_path (font_size args) ws wn sp →
      ws - wn ≤ sp * 4 → quality env args font_path = (true, EmptyString))).
Proof.
  unfold quality. split.
  - intros [Hflag | Hfail].
    + rewrite Hflag. by destruct (check_font_metrics env font_path).
    + destruct (check_font_metrics env font_path) as [ok reason].
      simpl in Hfail. subst ok. by rewrite andb_false_r.
  - intros Hflag Hpass. rewrite (check_font_metrics_pass _ _ Hpass), Hflag.
    cbn [andb]. rewrite slow_check_font_value.
    destruct (slow_check_font_body env font_path (font_size args))
      as [r|e] eqn:Hbody.
    + apply slow_check_font_body_ok in Hbody
        as (font & ws & wn & sp & Hfont & Hnew & Hprobes & ->).
      assert (Hsame : ∀ ws' wn' sp',
                probes_measured env font_path (font_size args) ws' wn' sp' →
                ws' = ws ∧ wn' = wn ∧ sp' = sp).
      { intros ws' wn' sp' (font' & Hfont' & _ & Hprobes').
        rewrite Hfont in Hfont'. injection Hfont' as <-.
        rewrite Hprobes in Hprobes'. by injection Hprobes' as <- <- <-. }
      destruct (Z.gtb_spec (ws - wn) (sp * 4)) as [Hgt | Hle]; cbn [negb].
      * split; [|split].
        -- split; [|reflexivity]. intros _. exists ws, wn, sp.
           split; [by exists font | lia].
        -- discriminate.
        -- intros ws' wn' sp' Hm Hle.
           apply Hsame in Hm as (-> & -> & ->). lia.
      * split; [|split].
        -- split; [discriminate|]. intros (ws' & wn' & sp' & Hm & Hgt).
           apply Hsame in Hm as (-> & -> & ->). lia.
        -- discriminate.
        -- reflexivity.
    + cbn [negb]. split; [|split].
      * split; [intros H; discriminate H|].
        intros (ws & wn & sp & (font & Hfont & Hnew & Hprobes) & _).
        rewrite (slow_check_font_body_measured _ _ _ _ _ _ _ Hfont Hnew Hprobes)
          in Hbody. discriminate.
      * by intros e' [= <-].
      * intros ws wn sp (font & Hfont & Hnew & Hprobes) _.
        rewrite (slow_check_font_body_measured _ _ _ _ _ _ _ Hfont Hnew Hprobes)
          in Hbody. discriminate.
Qed.

Lemma kerning_gate_witness :
  quality Sample.env Sample.args "fonts/loose.ttf"
  = (false, "Potential kerning issue").
Proof.
  destruct (kerning_gate Sample.env Sample.args "fonts/loose.ttf") as [_ H].
  assert (Hflag : slow_check Sample.args = true) by reflexivity.
  assert (Hpass : (check_font_metrics Sample.env "fonts/loose.ttf").1 = true)
    by (vm_compute; reflexivity).
  destruct (H Hflag Hpass) as [[_ Hissue] _].
  apply Hissue. exists 220, 60, 8. split; [|lia].
  exists Sample.loose. repeat split; vm_compute; reflexivity.
Defined.

(** C4 as stated fails on a font that passes the metric checker and that
    Pillow cannot load: the kerning checker fails the font and replaces
    the reason although no width was measured. *)
Lemma kerning_failure_without_measure :
  slow_check Sample.args = true ∧
  check_font_metrics Sample.env "fonts/unloadable.ttf" = (true, EmptyString) ∧
  quality Sample.env Sample.args "fonts/unloadable.ttf"
    = (false, "Could not perform slow check: unknown file format") ∧
  ¬ ∃ ws wn sp,
      probes_measured Sample.env "fonts/unloadable.ttf"
        (font_size Sample.args) ws wn sp ∧
      ws - wn > sp * 4.
Proof.
  split; [reflexivity|]. split; [vm_compute; reflexivity|].
  split; [vm_compute; reflexivity|].
  intros (ws & wn & sp & (font & Hfont & _) & _). vm_compute in Hfont.
  discriminate Hfont.
Qed.

(** ** The loop of [main] *)

(** The iteration, step by step. *)
Lemma loop_body_unfold env args st font_path s :
  loop_body env args st font_path s =
  let '(covered, s1) := has_required_chars env font_path s in
  if covered then
    let '(info, s2) := get_font_info env font_path s1 in
    match info with
    | None => (st, s2)
    | Some info =>
        let '(rendered, s3) :=
          render_text env (text args) font_path (thumbnail_path args font_path)
            (font_size args) s2 in
        if rendered
        then (emitted env args st font_path info (quality env args font_path), s3)
        else (st, s3)
    end
  else (st, if isatty env
            then (print ("Skipping " +:+ basename font_path
                           +:+ " (missing required characters)") s1).2
            else s1).
Proof.
  unfold loop_body, emitted, thumbnail_path. run.
  destruct (has_required_chars env font_path s) as [[] s1]; cbn [negb].
  - destruct (get_font_info env font_path s1) as [[info|] s2]; [|reflexivity].
    destruct (quality env args font_path) as [metrics_ok quality_reason].
    cbn [fst snd].
    destruct (render_text env (text args) font_path _ (font_size args) s2)
      as [[] s3]; reflexivity.
  - destruct (isatty env); reflexivity.
Qed.

(** An iteration either leaves the locals alone or appends the row of a
    font whose thumbnail was rendered in that very iteration. *)
Lemma loop_body_cases env args st font_path s :
  (loop_body env args st font_path s).1 = st ∨
  ∃ info s_in,
    render_text env (text args) font_path (thumbnail_path args font_path)
      (font_size args) s_in = (true, (loop_body env args st font_path s).2) ∧
    (loop_body env args st font_path s).1
    = emitted env args st font_path info (quality env args font_path).
Proof.
  rewrite loop_body_unfold.
  destruct (has_required_chars env font_path s) as [[] s1]; [|by left].
  destruct (get_font_info env font_path s1) as [[info|] s2]; [|by left].
  destruct (render_text env (text args) font_path _ (font_size args) s2)
    as [[] s3] eqn:Hrender; [|by left].
  right. exists info, s2. by rewrite Hrender.
Qed.

Lemma loop_cons env args st font_path rest s :
  loop env args st (font_path :: rest) s =
  loop env args (loop_body env args st font_path s).1 rest
    (loop_body env args st font_path s).2.
Proof. simpl. run. by destruct (loop_body env args st font_path s). Qed.

Lemma loop_app env args st before after s :
  loop env args st (before ++ after) s =
  loop env args (loop env args st before s).1 after (loop env args st before s).2.
Proof.
  revert st s. induction before as [|font_path before IH]; intros st s.
  - reflexivity.
  - rewrite <- app_comm_cons, !loop_cons. apply IH.
Qed.

(** C8. A font that fails the metric (or kerning) check is still listed
    when its thumbnail is rendered: with the coverage check passed, the
    metadata read, a failing quality result and a successful rendering,
    the iteration adds one to both counters and appends the eight cells
    of the font's row, among them the failing icon with the reason as
    its tooltip. *)
Theorem failing_font_still_listed env args st font_path s s1 info s2 reason s3 :
  has_required_chars env font_path s = (true, s1) →
  get_font_info env font_path s1 = (Some info, s2) →
  quality env args font_path = (false, reason) →
  render_text env (text args) font_path (thumbnail_path args font_path)
    (font_size args) s2 = (true, s3) →
  loop_body env args st font_path s =
    ({| total_processed_fonts := S (total_processed_fonts st);
        fonts_with_issues := S (fonts_with_issues st);
        table_rows :=
          table_rows st ++
          [ "<tr>";
            "<td class=" +:+ dq +:+ "font-name-col" +:+ dq +:+ ">"
              +:+ full_name info +:+ "</td>";
            "<td class=" +:+ dq +:+ "filename-col" +:+ dq +:+ ">"
              +:+ basename font_path +:+ "</td>";
            "<td>" +:+ style info +:+ "</td>";
            "<td " +:+ ("title=" +:+ dq +:+ reason +:+ dq) +:+ ">"
              +:+ "&#10060;" +:+ "</td>";
            "<td class=" +:+ dq +:+ "render-col" +:+ dq +:+ "><img src=" +:+ dq
              +:+ thumbnail_path args font_path +:+ dq +:+ " alt=" +:+ dq
              +:+ "Render of " +:+ full_name info +:+ dq +:+ "></td>";
            "<td><a href=" +:+ dq +:+ relpath env font_path +:+ dq
              +:+ "><i class='bx bx-download'></i></a></td>";
            "</tr>" ] |}, s3).
Proof.
  intros Hcovered Hinfo Hquality Hrender.
  rewrite loop_body_unfold, Hcovered, Hinfo, Hrender, Hquality. reflexivity.
Qed.

(** ** The invariant of the loop *)

Lemma row_cells_opened info font_path title_attr quality_icon image_path rel :
  rows_opened (row_cells info font_path title_attr quality_icon image_path rel)
  = 1%nat.
Proof.
  unfold rows_opened, row_cells.
  rewrite count_occ_cons_eq by reflexivity.
  repeat (rewrite count_occ_cons_neq by (simpl; discriminate)).
  reflexivity.
Qed.

Lemma rows_opened_app cells cells' :
  rows_opened (cells ++ cells') = (rows_opened cells + rows_opened cells')%nat.
Proof. apply count_occ_app. Qed.

Lemma initial_invariant : loop_invariant initial.
Proof. by split. Qed.

Lemma emitted_invariant env args st font_path info q :
  loop_invariant st → loop_invariant (emitted env args st font_path info q).
Proof.
  intros [Hle Hrows Hcells]. split; unfold emitted; cbn [total_processed_fonts
    fonts_with_issues table_rows].
  - destruct (negb q.1); lia.
  - rewrite rows_opened_app, row_cells_opened. lia.
  - rewrite length_app. unfold row_cells. cbn [length]. lia.
Qed.

Lemma loop_body_invariant env args st font_path s :
  loop_invariant st → loop_invariant (loop_body env args st font_path s).1.
Proof.
  intros Hinv.
  destruct (loop_body_cases env args st font_path s) as [-> | (info & _ & _ & ->)];
    [done | by apply emitted_invariant].
Qed.

Lemma loop_invariant_holds env args st fonts s :
  loop_invariant st → loop_invariant (loop env args st fonts s).1.
Proof.
  revert st s. induction fonts as [|font_path rest IH]; intros st s Hinv; [done|].
  rewrite loop_cons. by apply IH, loop_body_invariant.
Qed.

(** Each iteration adds at most one to the total. *)
Lemma loop_total_bound env args st fonts s :
  (total_processed_fonts (loop env args st fonts s).1
   ≤ total_processed_fonts st + length fonts)%nat.
Proof.
  revert st s. induction fonts as [|font_path rest IH]; intros st s.
  - simpl. lia.
  - rewrite loop_cons. etrans; [apply IH|]. cbn [length].
    destruct (loop_body_cases env args st font_path s)
      as [-> | (info & _ & _ & ->)]; simpl; lia.
Qed.

Lemma failing_font_still_listed_witness :
  (loop_body Sample.env Sample.args initial "fonts/zeroC.ttf" Sample.start).1
  = {| total_processed_fonts := 1;
       fonts_with_issues := 1;
       table_rows :=
         [ "<tr>";
           "<td class=" +:+ dq +:+ "font-name-col" +:+ dq +:+ ">ZeroC Regular</td>";
           "<td class=" +:+ dq +:+ "filename-col" +:+ dq +:+ ">zeroC.ttf</td>";
           "<td>Regular</td>";
           "<td title=" +:+ dq +:+ "Character 'C' has zero width" +:+ dq
             +:+ ">&#10060;</td>";
           "<td class=" +:+ dq +:+ "render-col" +:+ dq +:+ "><img src=" +:+ dq
             +:+ "renders/zeroC.ttf.png" +:+ dq +:+ " alt=" +:+ dq
             +:+ "Render of ZeroC Regular" +:+ dq +:+ "></td>";
           "<td><a href=" +:+ dq +:+ "fonts/zeroC.ttf" +:+ dq
             +:+ "><i class='bx bx-download'></i></a></td>";
           "</tr>" ] |}.
Proof.
  erewrite (failing_font_still_listed Sample.env Sample.args initial
              "fonts/zeroC.ttf" Sample.start);
    [|vm_compute; reflexivity ..].
  vm_compute. reflexivity.
Defined.

(** ** The HTML file *)

(** When [main] returns, the file holds the header lines computed from
    the locals that the loop ended with. *)
Lemma main_writes_head env args s :
  (main env args s).1 = Ok tt →
  ∃ rest,
    files (main env args s).2 !! html_file args
    = Some (written (html_head (loop env args initial (font_iterator env args) s).1
                       ++ rest)).
Proof.
  unfold main.
  destruct (if negb (exists_ env (output_dir args)) then _ else _) as [[]|e];
    [|discriminate].
  run. destruct (loop env args initial (font_iterator env args) s) as [st s1].
  unfold write_html. cbn [fst].
  destruct (open_check env (html_file args)) as [[]|e]; [|discriminate].
  destruct (exists_ env "README.md").
  - destruct (read_text env "README.md") as [markdown_content|e]; run;
      [|discriminate].
    intros _. eexists. by rewrite lookup_insert_eq.
  - run. intros _. eexists. by rewrite lookup_insert_eq.
Qed.

(** [main] returns whenever the output directory can be made, the HTML
    file opened and README.md, if there is one, read: no font makes it
    raise. *)
Lemma main_returns env args s :
  (exists_ env (output_dir args) = true ∨
   makedirs_check env (output_dir args) = Ok tt) →
  open_check env (html_file args) = Ok tt →
  (exists_ env "README.md" = false ∨ ∃ md, read_text env "README.md" = Ok md) →
  (main env args s).1 = Ok tt.
Proof.
  intros Hdir Hopen Hreadme. unfold main.
  assert ((if negb (exists_ env (output_dir args))
           then makedirs_check env (output_dir args) else Ok tt) = Ok tt) as ->.
  { destruct Hdir as [-> | Hmk]; [reflexivity|].
    by destruct (exists_ env (output_dir args)). }
  run. destruct (loop env args initial (font_iterator env args) s) as [st s1].
  unfold write_html. rewrite Hopen.
  destruct Hreadme as [-> | [md Hmd]]; [reflexivity|].
  destruct (exists_ env "README.md"); [|reflexivity]. by rewrite Hmd.
Qed.

(** C10. After any list of fonts the loop has gone through, starting from
    the initial locals: the fonts with issues are at most the fonts
    processed, the rows opened are as many as the fonts processed (eight
    cells each).  A counter changes only in an iteration that rendered the
    thumbnail.  The two counts in the header of the HTML file are those
    the loop ended with. *)
Theorem loop_counters_invariant env args :
  (∀ fonts s, loop_invariant (loop env args initial fonts s).1) ∧
  (∀ st font_path s,
     total_processed_fonts (loop_body env args st font_path s).1
       ≠ total_processed_fonts st ∨
     fonts_with_issues (loop_body env args st font_path s).1
       ≠ fonts_with_issues st →
     ∃ s_in,
       render_text env (text args) font_path (thumbnail_path args font_path)
         (font_size args) s_in
       = (true, (loop_body env args st font_path s).2)) ∧
  (∀ s, (main env args s).1 = Ok tt →
     let st := (loop env args initial (font_iterator env args) s).1 in
     ∃ rest,
       files (main env args s).2 !! html_file args
         = Some (written (html_head st ++ rest)) ∧
       In ("<p>Total fonts processed: " +:+ pretty (total_processed_fonts st)
             +:+ "</p>") (html_head st) ∧
       In ("<p>Fonts with quality issues (&#10060;): "
             +:+ pretty (fonts_with_issues st) +:+ "</p>") (html_head st)).
Proof.
  split; [|split].
  - intros fonts s. apply loop_invariant_holds, initial_invariant.
  - intros st font_path s Hchanged.
    destruct (loop_body_cases env args st font_path s)
      as [Hsame | (info & s_in & Hrender & _)]; [|by exists s_in].
    rewrite Hsame in Hchanged. by destruct Hchanged.
  - intros s Hok st. destruct (main_writes_head env args s Hok) as [rest Hfile].
    exists rest. split; [exact Hfile|]. unfold html_head. simpl. tauto.
Qed.

Lemma loop_counters_invariant_witness :
  loop_invariant
    (loop Sample.env Sample.args initial
       (font_iterator Sample.env Sample.args) Sample.start).1 ∧
  ∃ rest,
    files (main Sample.env Sample.args Sample.start).2 !! html_file Sample.args
    = Some (written
              (html_head
                 (loop Sample.env Sample.args initial
                    (font_iterator Sample.env Sample.args) Sample.start).1
               ++ rest)).
Proof.
  destruct (loop_counters_invariant Sample.env Sample.args) as (Hinv & _ & Hhtml).
  split; [apply Hinv|].
  destruct (Hhtml Sample.start) as (rest & Hfile & _); [vm_compute; reflexivity|].
  by exists rest.
Defined.

(** ** The cap on the number of fonts *)

Lemma slice_to_nonneg {A} (l : list A) n :
  0 ≤ n → slice_to l n = take (Z.to_nat n) l.
Proof. intros Hn. unfold slice_to. by destruct (Z.leb_spec 0 n); [|lia]. Qed.

Lemma sorted_Permutation l : sorted l ≡ₚ l.
Proof. apply merge_sort_Permutation. Qed.

(** C5. With [-n N], N not negative, the discovery-order list is cut to
    its first N entries before it is sorted: the loop runs over the
    sorted first N discovered fonts, hence over at most N fonts, and
    counts at most N.  These need not be the first N fonts in sorted
    order. *)
Theorem number_caps_discovery_order env args n :
  number args = Some n → 0 ≤ n →
  font_iterator env args
    = sorted (take (Z.to_nat n) (find_fonts env (font_dir args))) ∧
  font_iterator env args ≡ₚ take (Z.to_nat n) (find_fonts env (font_dir args)) ∧
  Z.of_nat (length (font_iterator env args)) ≤ n ∧
  (∀ s, Z.of_nat (total_processed_fonts
                    (loop env args initial (font_iterator env args) s).1) ≤ n) ∧
  (∃ env' args',
     number args' = Some 2 ∧
     font_iterator env' args'
       ≠ take 2 (sorted (find_fonts env' (font_dir args')))).
Proof.
  intros Hnumber Hn.
  assert (Hiter : font_iterator env args
                  = sorted (take (Z.to_nat n) (find_fonts env (font_dir args)))).
  { unfold font_iterator, capped. by rewrite Hnumber, slice_to_nonneg. }
  assert (Hlen : Z.of_nat (length (font_iterator env args)) ≤ n).
  { rewrite Hiter, sorted_Permutation, length_take. lia. }
  split; [exact Hiter|]. split; [rewrite Hiter; apply sorted_Permutation|].
  split; [exact Hlen|]. split.
  - intros s.
    pose proof (loop_total_bound env args initial (font_iterator env args) s) as Hb.
    simpl in Hb. lia.
  - exists Sample.env, Sample.args. split; [reflexivity|].
    vm_compute. intros H. discriminate H.
Qed.

Lemma number_caps_discovery_order_witness :
  font_iterator Sample.env Sample.args = ["fonts/good.ttf"; "fonts/zeroC.ttf"] ∧
  Z.of_nat (length (font_iterator Sample.env Sample.args)) ≤ 2.
Proof.
  destruct (number_caps_discovery_order Sample.env Sample.args 2)
    as (Hiter & _ & Hlen & _); [reflexivity | lia |].
  split; [|exact Hlen]. rewrite Hiter. vm_compute. reflexivity.
Defined.

(** A negative [-n] is a Python slice from the end: it drops the last
    fonts discovered instead of keeping the first. *)
Lemma slice_to_negative {A} (l : list A) n :
  n < 0 → slice_to l n = take (length l - Z.to_nat (- n)) l.
Proof. intros Hn. unfold slice_to. by destruct (Z.leb_spec 0 n); [lia|]. Qed.

(** ** The calls that can fail outside a handler *)

Lemma grows_ret {A} (a : A) : grows (mret a : M A).
Proof. intros s. exists []. by rewrite app_nil_r. Qed.

Lemma grows_print line : grows (print line).
Proof. intros s. by exists [line]. Qed.

Lemma grows_write_file path data : grows (write_file path data).
Proof. intros s. exists []. by rewrite app_nil_r. Qed.

Lemma grows_bind {A B} (m : M A) (f : A → M B) :
  grows m → (∀ a, grows (f a)) → grows (m ≫= f).
Proof.
  intros Hm Hf s. run. destruct (Hm s) as [extra1 H1].
  destruct (m s) as [a s1]. cbn [snd] in H1.
  destruct (Hf a s1) as [extra2 H2]. exists (extra1 ++ extra2).
  by rewrite H2, H1, app_assoc.
Qed.

Lemma grows_try_except {A} (body : result A) handler :
  (∀ e, grows (handler e)) → grows (try_except body handler).
Proof. intros Hh. destruct body; [apply grows_ret | apply Hh]. Qed.

Ltac grows_step :=
  first [ apply grows_ret | apply grows_print | apply grows_write_file
        | apply grows_bind; [|intros ?]
        | apply grows_try_except; intros ? ].

Lemma grows_has_required_chars env font_path :
  grows (has_required_chars env font_path).
Proof. unfold has_required_chars. repeat grows_step. Qed.

Lemma grows_get_font_info env font_path : grows (get_font_info env font_path).
Proof. unfold get_font_info. repeat grows_step. Qed.

Lemma grows_render_text env text font_path image_path size :
  grows (render_text env text font_path image_path size).
Proof.
  unfold render_text, save.
  destruct (FontIndexer.render_image env text font_path size) as [img|e];
    [|repeat grows_step].
  destruct (save_check env image_path) as [[]|e]; repeat grows_step.
Qed.

Lemma grows_loop_body env args st font_path :
  grows (loop_body env args st font_path).
Proof.
  unfold loop_body. apply grows_bind; [apply grows_has_required_chars|].
  intros []; cbn [negb].
  - apply grows_bind; [apply grows_get_font_info|].
    intros [info|]; [|apply grows_ret].
    destruct (quality env args font_path) as [metrics_ok quality_reason].
    apply grows_bind; [apply grows_render_text|]. intros []; apply grows_ret.
  - destruct (isatty env); repeat grows_step.
Qed.

Lemma grows_loop env args st fonts : grows (loop env args st fonts).
Proof.
  revert st. induction fonts as [|font_path rest IH]; intros st; simpl.
  - apply grows_ret.
  - apply grows_bind; [apply grows_loop_body | intros st'; apply IH].
Qed.

Lemma encodes_earlier fl s s' extra :
  console s' = console s ++ extra → encodes fl s' → encodes fl s.
Proof.
  intros Hgrown Hs' line Hline. apply Hs'. rewrite Hgrown.
  apply in_or_app. by left.
Qed.

(** The checked [print] and the handlers that print, when the line can be
    encoded. *)
Lemma checked_print fl line s :
  stdout_check fl line = Ok tt →
  Checked.print fl line s = (Ok tt, (print line s).2).
Proof. intros Hline. unfold Checked.print. by rewrite Hline. Qed.

Lemma checked_print_then {A} fl line (a : A) s :
  stdout_check fl line = Ok tt →
  Checked.print_then fl line a s = (Ok a, (print line s).2).
Proof.
  intros Hline. unfold Checked.print_then. run. by rewrite checked_print.
Qed.

Lemma checked_print_then_raises {A} fl line (a : A) e s :
  stdout_check fl line = Raise e →
  Checked.print_then fl line a s = (Raise e, s).
Proof.
  intros Hline. unfold Checked.print_then, Checked.print. run. by rewrite Hline.
Qed.

Lemma encodes_printed fl line s :
  encodes fl (print line s).2 → stdout_check fl line = Ok tt.
Proof. intros Henc. apply Henc. cbn. apply in_or_app. right. by left. Qed.

(** Each checked function does what the function above does, when every
    line that the latter prints can be encoded. *)
Lemma checked_has_required_chars fl env font_path s :
  encodes fl (has_required_chars env font_path s).2 →
  Checked.has_required_chars fl env font_path s
  = (Ok (has_required_chars env font_path s).1,
     (has_required_chars env font_path s).2).
Proof.
  unfold Checked.has_required_chars, has_required_chars.
  destruct (has_required_chars_body env font_path) as [covered|e]; run;
    [reflexivity|].
  intros Henc. by rewrite checked_print_then by exact (encodes_printed fl _ s Henc).
Qed.

Lemma checked_get_font_info fl env font_path s :
  encodes fl (get_font_info env font_path s).2 →
  Checked.get_font_info fl env font_path s
  = (Ok (get_font_info env font_path s).1, (get_font_info env font_path s).2).
Proof.
  unfold Checked.get_font_info, get_font_info.
  destruct (get_font_info_body env font_path) as [info|e]; run; [reflexivity|].
  intros Henc. by rewrite checked_print_then by exact (encodes_printed fl _ s Henc).
Qed.

Lemma checked_render_text fl env text font_path image_path size s :
  encodes fl (render_text env text font_path image_path size s).2 →
  Checked.render_text fl env text font_path image_path size s
  = (Ok (render_text env text font_path image_path size s).1,
     (render_text env text font_path image_path size s).2).
Proof.
  unfold Checked.render_text, render_text, save.
  destruct (FontIndexer.render_image env text font_path size) as [img|e]; run.
  - destruct (save_check env image_path) as [[]|e]; run; [reflexivity|].
    intros Henc. by rewrite checked_print_then by exact (encodes_printed fl _ s Henc).
  - intros Henc. by rewrite checked_print_then by exact (encodes_printed fl _ s Henc).
Qed.

Lemma checked_loop_body fl env args st font_path s :
  relpath_check fl font_path = Ok tt →
  encodes fl (loop_body env args st font_path s).2 →
  Checked.loop_body fl env args st font_path s
  = (Ok (loop_body env args st font_path s).1,
     (loop_body env args st font_path s).2).
Proof.
  intros Hrel. unfold Checked.loop_body, loop_body. run. rewrite Hrel.
  pose proof (checked_has_required_chars fl env font_path s) as Hcovered.
  destruct (has_required_chars env font_path s) as [covered s1].
  cbn [fst snd] in Hcovered. destruct covered; cbn [negb].
  - pose proof (checked_get_font_info fl env font_path s1) as Hinfo.
    destruct (get_font_info env font_path s1) as [info s2] eqn:Hget.
    cbn [fst snd] in Hinfo. destruct info as [info|].
    + destruct (quality env args font_path) as [metrics_ok quality_reason].
      pose proof (checked_render_text fl env (text args) font_path
                    (path_join (output_dir args) (basename font_path +:+ ".png"))
                    (font_size args) s2) as Hrender.
      pose proof (grows_render_text env (text args) font_path
                    (path_join (output_dir args) (basename font_path +:+ ".png"))
                    (font_size args) s2) as [extra3 Hgrow3].
      destruct (render_text env (text args) font_path _ (font_size args) s2)
        as [rendered s3]. cbn [fst snd] in Hrender, Hgrow3.
      intros Henc.
      assert (Henc3 : encodes fl s3) by (by destruct rendered).
      pose proof (encodes_earlier fl s2 s3 extra3 Hgrow3 Henc3) as Henc2.
      pose proof (grows_get_font_info env font_path s1) as [extra2 Hgrow2].
      rewrite Hget in Hgrow2. cbn [snd] in Hgrow2.
      pose proof (encodes_earlier fl s1 s2 extra2 Hgrow2 Henc2) as Henc1.
      rewrite (Hcovered Henc1), (Hinfo Henc2), (Hrender Henc3).
      by destruct rendered.
    + intros Henc2. cbn [snd] in Henc2.
      pose proof (grows_get_font_info env font_path s1) as [extra2 Hgrow2].
      rewrite Hget in Hgrow2. cbn [snd] in Hgrow2.
      pose proof (encodes_earlier fl s1 s2 extra2 Hgrow2 Henc2) as Henc1.
      by rewrite (Hcovered Henc1), (Hinfo Henc2).
  - destruct (isatty env); run; intros Henc.
    + assert (Henc1 : encodes fl s1).
      { eapply (encodes_earlier fl s1 _ [_]); [|exact Henc]. reflexivity. }
      rewrite (Hcovered Henc1).
      by rewrite checked_print_then by (apply Henc; cbn; apply in_or_app; right;
                                         by left).
    + by rewrite (Hcovered Henc).
Qed.

Lemma checked_loop fl env args st fonts s :
  (∀ font_path, In font_path fonts → relpath_check fl font_path = Ok tt) →
  encodes fl (loop env args st fonts s).2 →
  Checked.loop fl env args st fonts s
  = (Ok (loop env args st fonts s).1, (loop env args st fonts s).2).
Proof.
  revert st s. induction fonts as [|font_path rest IH]; intros st s Hrel;
    [reflexivity|].
  rewrite loop_cons. cbn [Checked.loop]. run. intros Henc.
  destruct (grows_loop env args (loop_body env args st font_path s).1 rest
              (loop_body env args st font_path s).2) as [extra Hgrow].
  rewrite (checked_loop_body fl env args st font_path s
             (Hrel font_path (or_introl eq_refl))
             (encodes_earlier fl _ _ extra Hgrow Henc)).
  apply IH; [|exact Henc]. intros p Hp. apply Hrel. by right.
Qed.

Lemma write_chunks_all fl chunks :
  (∀ chunk, In chunk chunks → write_check fl chunk = Ok tt) →
  Checked.write_chunks fl chunks = (chunks, None).
Proof.
  induction chunks as [|chunk rest IH]; intros Hok; [reflexivity|].
  cbn [Checked.write_chunks]. rewrite (Hok chunk (or_introl eq_refl)).
  rewrite IH; [reflexivity|]. intros c Hc. apply Hok. by right.
Qed.

Lemma checked_write_html fl env args st s :
  (∀ chunk, In chunk (html_chunks env args st) → write_check fl chunk = Ok tt) →
  close_check fl (html_file args) = Ok tt →
  Checked.write_html fl env args st s = write_html env args st s.
Proof.
  unfold html_chunks, Checked.write_html, write_html, Checked.write_to,
    Checked.leave.
  intros Hok Hclose. rewrite Hclose.
  destruct (open_check env (html_file args)) as [[]|e]; [|reflexivity].
  destruct (exists_ env "README.md").
  - rewrite (write_chunks_all fl (html_head st))
      by (intros c Hc; apply Hok, in_or_app; by left).
    destruct (read_text env "README.md") as [markdown_content|e]; [|reflexivity].
    by rewrite (write_chunks_all fl _ Hok).
  - by rewrite (write_chunks_all fl (html_head st ++ html_tail args st) Hok).
Qed.

(** The checked [main] is the [main] above when none of the four calls
    raises: the console can encode every line printed, [os.path.relpath]
    returns for every font, and the HTML file takes every string written
    and closes. *)
Lemma checked_main fl env args s :
  encodes fl (loop env args initial (font_iterator env args) s).2 →
  (∀ font_path,
     In font_path (font_iterator env args) → relpath_check fl font_path = Ok tt) →
  (∀ chunk,
     In chunk (html_chunks env args
                 (loop env args initial (font_iterator env args) s).1) →
     write_check fl chunk = Ok tt) →
  close_check fl (html_file args) = Ok tt →
  Checked.main fl env args s = main env args s.
Proof.
  intros Henc Hrel Hok Hclose. unfold Checked.main, main.
  destruct (if negb (exists_ env (output_dir args)) then _ else _) as [[]|e];
    [|reflexivity].
  run.
  rewrite (checked_loop fl env args initial (font_iterator env args) s Hrel Henc).
  destruct (loop env args initial (font_iterator env args) s) as [st s1].
  cbn [fst snd] in *. by apply checked_write_html.
Qed.

(** ** A font that cannot be opened *)

Lemma oblivious_ret {A} (a : A) : oblivious (mret a : M A).
Proof. by intros s s' Hfiles. Qed.

Lemma oblivious_bind {A B} (m : M A) (f : A → M B) :
  oblivious m → (∀ a, oblivious (f a)) → oblivious (m ≫= f).
Proof.
  intros Hm Hf s s' Hfiles. run. destruct (Hm s s' Hfiles) as [Hval Hnext].
  destruct (m s) as [a s1], (m s') as [a' s1']. simpl in Hval, Hnext. subst a'.
  by apply Hf.
Qed.

Lemma oblivious_print line : oblivious (print line).
Proof. by intros s s' Hfiles. Qed.

Lemma oblivious_write_file path data : oblivious (write_file path data).
Proof. intros s s' Hfiles. run. by rewrite Hfiles. Qed.

Lemma oblivious_try_except {A} (body : result A) handler :
  (∀ e, oblivious (handler e)) → oblivious (try_except body handler).
Proof. intros Hh. destruct body; [apply oblivious_ret | apply Hh]. Qed.

Create HintDb oblivious.
#[local] Hint Resolve oblivious_ret oblivious_print oblivious_write_file
  : oblivious.

Ltac oblivious_step :=
  first [ apply oblivious_bind; [|intros ?]
        | apply oblivious_try_except; intros ?
        | solve [auto with oblivious] ].

Lemma oblivious_save env img image_path fmt :
  oblivious (save env img image_path fmt).
Proof.
  unfold save. destruct (save_check env image_path); repeat oblivious_step.
Qed.

Lemma oblivious_checked_print fl line : oblivious (Checked.print fl line).
Proof.
  unfold Checked.print. destruct (stdout_check fl line) as [[]|e];
    [|apply oblivious_ret].
  apply oblivious_bind; [apply oblivious_print | intros ?; apply oblivious_ret].
Qed.

Lemma oblivious_checked_print_then {A} fl line (a : A) :
  oblivious (Checked.print_then fl line a).
Proof.
  unfold Checked.print_then.
  apply oblivious_bind; [apply oblivious_checked_print | intros r; apply oblivious_ret].
Qed.

Lemma oblivious_checked_has_required_chars fl env font_path :
  oblivious (Checked.has_required_chars fl env font_path).
Proof.
  unfold Checked.has_required_chars.
  destruct (has_required_chars_body env font_path);
    [apply oblivious_ret | apply oblivious_checked_print_then].
Qed.

Lemma oblivious_checked_get_font_info fl env font_path :
  oblivious (Checked.get_font_info fl env font_path).
Proof.
  unfold Checked.get_font_info.
  destruct (get_font_info_body env font_path);
    [apply oblivious_ret | apply oblivious_checked_print_then].
Qed.

Lemma oblivious_checked_render_text fl env text font_path image_path size :
  oblivious (Checked.render_text fl env text font_path image_path size).
Proof.
  unfold Checked.render_text.
  destruct (FontIndexer.render_image env text font_path size) as [img|e];
    [|apply oblivious_checked_print_then].
  apply oblivious_bind; [apply oblivious_save|].
  intros [[]|e]; [apply oblivious_ret | apply oblivious_checked_print_then].
Qed.

Lemma oblivious_checked_loop_body fl env args st font_path :
  oblivious (Checked.loop_body fl env args st font_path).
Proof.
  unfold Checked.loop_body.
  apply oblivious_bind; [apply oblivious_checked_has_required_chars|].
  intros [[]|e]; [| |apply oblivious_ret].
  - apply oblivious_bind; [apply oblivious_checked_get_font_info|].
    intros [[info|]|e]; [|apply oblivious_ret..].
    destruct (quality env args font_path) as [metrics_ok quality_reason].
    destruct (relpath_check fl font_path); [|apply oblivious_ret].
    apply oblivious_bind; [apply oblivious_checked_render_text|].
    intros [[]|e]; apply oblivious_ret.
  - destruct (isatty env);
      [apply oblivious_checked_print_then | apply oblivious_ret].
Qed.

Lemma oblivious_checked_loop fl env args st fonts :
  oblivious (Checked.loop fl env args st fonts).
Proof.
  revert st. induction fonts as [|font_path rest IH]; intros st;
    cbn [Checked.loop].
  - apply oblivious_ret.
  - apply oblivious_bind; [apply oblivious_checked_loop_body|].
    intros [st'|e]; [apply IH | apply oblivious_ret].
Qed.

Lemma checked_loop_cons fl env args st font_path rest s :
  Checked.loop fl env args st (font_path :: rest) s =
  match (Checked.loop_body fl env args st font_path s).1 with
  | Ok st' =>
      Checked.loop fl env args st' rest
        (Checked.loop_body fl env args st font_path s).2
  | Raise e => (Raise e, (Checked.loop_body fl env args st font_path s).2)
  end.
Proof.
  cbn [Checked.loop]. run.
  by destruct (Checked.loop_body fl env args st font_path s) as [[st'|e] s1].
Qed.

Lemma checked_loop_app fl env args st before after s :
  Checked.loop fl env args st (before ++ after) s =
  match (Checked.loop fl env args st before s).1 with
  | Ok st' =>
      Checked.loop fl env args st' after (Checked.loop fl env args st before s).2
  | Raise e => (Raise e, (Checked.loop fl env args st before s).2)
  end.
Proof.
  revert st s. induction before as [|font_path before IH]; intros st s.
  - reflexivity.
  - rewrite <- app_comm_cons, !checked_loop_cons.
    destruct (Checked.loop_body fl env args st font_path s).1 as [st'|e];
      [apply IH | reflexivity].
Qed.

(** The iteration over a font that cannot be opened, when its two lines
    can be printed. *)
Lemma checked_loop_body_unreadable fl env args bad e st s :
  open_font env bad = Raise e →
  stdout_check fl (cannot_check_line bad e) = Ok tt →
  (isatty env = true → stdout_check fl (skipping_line bad) = Ok tt) →
  (Checked.loop_body fl env args st bad s).1 = Ok st ∧
  files (Checked.loop_body fl env args st bad s).2 = files s.
Proof.
  intros Hbad Hline Hskip. unfold Checked.loop_body, Checked.has_required_chars.
  assert (has_required_chars_body env bad = Raise e) as ->.
  { unfold has_required_chars_body. run. by rewrite Hbad. }
  run. fold (cannot_check_line bad e). rewrite checked_print_then by exact Hline.
  destruct (isatty env); [|by run].
  fold (skipping_line bad). rewrite checked_print_then by by apply Hskip.
  by run.
Qed.

(** And when the first of them cannot: the exception leaves the
    iteration. *)
Lemma checked_loop_body_raises fl env args bad e e' st s :
  open_font env bad = Raise e →
  stdout_check fl (cannot_check_line bad e) = Raise e' →
  Checked.loop_body fl env args st bad s = (Raise e', s).
Proof.
  intros Hbad Hline. unfold Checked.loop_body, Checked.has_required_chars.
  assert (has_required_chars_body env bad = Raise e) as ->.
  { unfold has_required_chars_body. run. by rewrite Hbad. }
  run. fold (cannot_check_line bad e).
  by rewrite (checked_print_then_raises fl _ false e' s Hline).
Qed.


(** The strict console prints the lines that are ASCII, and the HTML file
    takes the strings that are. *)
Lemma strict_encodes s :
  forallb Sample3.is_ascii (console s) = true → encodes Sample3.strict s.
Proof.
  intros Hall line Hline. rewrite forallb_forall in Hall.
  unfold Sample3.strict. cbn [stdout_check]. by rewrite (Hall line Hline).
Qed.

Lemma strict_writes chunks :
  forallb Sample3.is_ascii chunks = true →
  ∀ chunk, In chunk chunks → write_check Sample3.strict chunk = Ok tt.
Proof.
  intros Hall chunk Hchunk. rewrite forallb_forall in Hall.
  unfold Sample3.strict. cbn [write_check]. by rewrite (Hall chunk Hchunk).
Qed.



(** ** The text rasterizer *)

(** [render_text] answers [True] exactly when the image was built and
    saved, and then the file holds that image, as PNG. *)
Lemma indexer_render_text_true env text font_path image_path size s s' :
  FontIndexer.render_text env text font_path image_path size s = (true, s') →
  ∃ img, FontIndexer.render_image env text font_path size = Ok img ∧
         files s' !! image_path = Some (ImageFile "PNG" img).
Proof.
  unfold FontIndexer.render_text, save.
  destruct (FontIndexer.render_image env text font_path size) as [img|e];
    run; [|discriminate].
  destruct (save_check env image_path) as [[]|e]; run; [|discriminate].
  intros [= <-]. exists img. split; [reflexivity|]. apply lookup_insert_eq.
Qed.

Lemma renderer_render_text_true env text font_path image_path size s s' :
  FontRenderer.render_text env text font_path image_path size s = (true, s') →
  ∃ img, FontRenderer.render_image env text font_path size = Ok img ∧
         files s' !! image_path = Some (ImageFile "PNG" img).
Proof.
  unfold FontRenderer.render_text, save.
  destruct (FontRenderer.render_image env text font_path size) as [img|e];
    run; [|discriminate].
  destruct (save_check env image_path) as [[]|e]; run; [|discriminate].
  intros [= <-]. exists img. split; [reflexivity|]. apply lookup_insert_eq.
Qed.

(** The image of the index builder: as wide as the text plus the padding
    on both sides, as high as ascent and descent plus the padding. *)
Lemma indexer_render_image_ok env text font_path size img :
  FontIndexer.render_image env text font_path size = Ok img →
  ∃ font text_width,
    truetype env font_path size = Ok font ∧
    FontIndexer.measure_width font text = Ok text_width ∧
    img = canvas (text_width + 2 * 10)
            ((getmetrics font).1 + Z.abs (getmetrics font).2 + 2 * 10) text.
Proof.
  unfold FontIndexer.render_image, Image_new, draw_text. run.
  destruct (truetype env font_path size) as [font|e]; [|discriminate].
  destruct (getmetrics font) as [ascent descent] eqn:Hmetrics.
  destruct (new_check env "RGB" (1, 1)) as [[]|e]; [|discriminate].
  destruct (FontIndexer.measure_width font text) as [text_width|e] eqn:Hwidth;
    [|discriminate].
  destruct (new_check env "RGBA" _) as [[]|e]; [|discriminate].
  destruct (text_check font text) as [[]|e]; [|discriminate].
  intros [= <-]. exists font, text_width. by rewrite Hmetrics.
Qed.

(** The image of the renderer: the size of the text plus 20 both ways. *)
Lemma renderer_render_image_ok env text font_path size img :
  FontRenderer.render_image env text font_path size = Ok img →
  ∃ font text_width text_height,
    truetype env font_path size = Ok font ∧
    FontRenderer.measure_size font text = Ok (text_width, text_height) ∧
    img = canvas (text_width + 20) (text_height + 20) text.
Proof.
  unfold FontRenderer.render_image, Image_new, draw_text. run.
  destruct (truetype env font_path size) as [font|e]; [|discriminate].
  destruct (new_check env "RGB" (1, 1)) as [[]|e]; [|discriminate].
  destruct (FontRenderer.measure_size font text) as [[text_width text_height]|e]
    eqn:Hsize; [|discriminate].
  cbn beta iota.
  destruct (new_check env "RGBA" _) as [[]|e]; [|discriminate].
  destruct (text_check font text) as [[]|e]; [|discriminate].
  intros [= <-]. by exists font, text_width, text_height.
Qed.

(** C6. Rendering the same text with the same font at the same size twice
    gives two images of the same width and the same height, whatever the
    output paths and whatever was written before; this holds of the
    rasterizer of the index builder and of that of the renderer. *)
Theorem same_input_same_dimensions env text font_path size :
  (∀ path1 path2 s1 s2 s1' s2',
     FontIndexer.render_text env text font_path path1 size s1 = (true, s1') →
     FontIndexer.render_text env text font_path path2 size s2 = (true, s2') →
     ∃ img1 img2,
       files s1' !! path1 = Some (ImageFile "PNG" img1) ∧
       files s2' !! path2 = Some (ImageFile "PNG" img2) ∧
       width img1 = width img2 ∧ height img1 = height img2) ∧
  (∀ path1 path2 s1 s2 s1' s2',
     FontRenderer.render_text env text font_path path1 size s1 = (true, s1') →
     FontRenderer.render_text env text font_path path2 size s2 = (true, s2') →
     ∃ img1 img2,
       files s1' !! path1 = Some (ImageFile "PNG" img1) ∧
       files s2' !! path2 = Some (ImageFile "PNG" img2) ∧
       width img1 = width img2 ∧ height img1 = height img2).
Proof.
  split; intros path1 path2 s1 s2 s1' s2' H1 H2.
  - apply indexer_render_text_true in H1 as (img1 & Himg1 & Hfile1).
    apply indexer_render_text_true in H2 as (img2 & Himg2 & Hfile2).
    exists img1, img2. rewrite Himg1 in Himg2. injection Himg2 as <-. auto.
  - apply renderer_render_text_true in H1 as (img1 & Himg1 & Hfile1).
    apply renderer_render_text_true in H2 as (img2 & Himg2 & Hfile2).
    exists img1, img2. rewrite Himg1 in Himg2. injection Himg2 as <-. auto.
Qed.

Lemma same_input_same_dimensions_witness :
  ∃ img1 img2,
    files first_render.2 !! "a.png" = Some (ImageFile "PNG" img1) ∧
    files second_render.2 !! "b.png" = Some (ImageFile "PNG" img2) ∧
    width img1 = width img2 ∧ height img1 = height img2.
Proof.
  destruct (same_input_same_dimensions Sample.env "Hi" "fonts/good.ttf" 24)
    as [Hindexer _].
  apply (Hindexer "a.png" "b.png" Sample.start first_render.2);
    vm_compute; reflexivity.
Defined.

(** C7 (as amended).  With the bounding box of the text measured by
    [textbbox], a successful rendering writes a PNG holding an RGBA canvas
    with a transparent background and the text in black at (10, 10).  The
    width is the width of the box plus 2 x 10 in both scripts.  The height
    is the height of the box plus 2 x 10 in font-renderer.py; in
    font-indexer.py it is the font's ascent plus the absolute value of its
    descent plus 2 x 10. *)
Theorem canvas_size env text font_path image_path size font x0 y0 x1 y1 :
  truetype env font_path size = Ok font →
  textbbox font text = Ok (x0, y0, x1, y1) →
  (∀ s s',
     FontRenderer.render_text env text font_path image_path size s = (true, s') →
     files s' !! image_path
     = Some (ImageFile "PNG" (canvas (x1 - x0 + 20) (y1 - y0 + 20) text))) ∧
  (∀ s s',
     FontIndexer.render_text env text font_path image_path size s = (true, s') →
     files s' !! image_path
     = Some (ImageFile "PNG"
               (canvas (x1 - x0 + 2 * 10)
                  ((getmetrics font).1 + Z.abs (getmetrics font).2 + 2 * 10)
                  text))).
Proof.
  intros Hfont Hbbox. split; intros s s' Hrender.
  - apply renderer_render_text_true in Hrender as (img & Himg & ->).
    apply renderer_render_image_ok in Himg
      as (font' & text_width & text_height & Hfont' & Hsize & ->).
    rewrite Hfont in Hfont'. injection Hfont' as <-.
    unfold FontRenderer.measure_size in Hsize. rewrite Hbbox in Hsize.
    by injection Hsize as <- <-.
  - apply indexer_render_text_true in Hrender as (img & Himg & ->).
    apply indexer_render_image_ok in Himg
      as (font' & text_width & Hfont' & Hwidth & ->).
    rewrite Hfont in Hfont'. injection Hfont' as <-.
    unfold FontIndexer.measure_width in Hwidth. rewrite Hbbox in Hwidth.
    by injection Hwidth as <-.
Qed.

Lemma canvas_size_witness :
  files (FontRenderer.render_text Sample.env "Hi" "fonts/good.ttf" "out.png" 24
           Sample.start).2 !! "out.png"
    = Some (ImageFile "PNG" (canvas 44 38 "Hi")) ∧
  files (FontIndexer.render_text Sample.env "Hi" "fonts/good.ttf" "out.png" 24
           Sample.start).2 !! "out.png"
    = Some (ImageFile "PNG" (canvas 44 48 "Hi")).
Proof.
  destruct (canvas_size Sample.env "Hi" "fonts/good.ttf" "out.png" 24
              Sample.monospace 0 5 24 23) as [Hrenderer Hindexer];
    [reflexivity | reflexivity |].
  split.
  - apply (Hrenderer Sample.start). vm_compute. reflexivity.
  - apply (Hindexer Sample.start). vm_compute. reflexivity.
Defined.

(** C7 as stated fails for the height of the index builder's image: the
    box of "Hi" is 18 pixels high, the image 48 = 22 + 6 + 20 and not
    18 + 20. *)
Lemma indexer_height_not_from_bbox :
  truetype Sample.env "fonts/good.ttf" 24 = Ok Sample.monospace ∧
  textbbox Sample.monospace "Hi" = Ok (0, 5, 24, 23) ∧
  (FontIndexer.render_text Sample.env "Hi" "fonts/good.ttf" "out.png" 24
     Sample.start).1 = true ∧
  ∃ img,
    files (FontIndexer.render_text Sample.env "Hi" "fonts/good.ttf" "out.png" 24
             Sample.start).2 !! "out.png" = Some (ImageFile "PNG" img) ∧
    width img = (24 - 0) + 2 * 10 ∧
    height img = 48 ∧
    height img ≠ (23 - 5) + 2 * 10.
Proof.
  split; [reflexivity|]. split; [reflexivity|]. split; [vm_compute; reflexivity|].
  exists (canvas 44 48 "Hi").
  split; [vm_compute; reflexivity|]. split; [reflexivity|].
  split; [reflexivity|]. simpl. lia.
Qed.

(** * Further properties *)

(** ** Strings and paths *)

Lemma append_cons (x : ascii) (a b : string) :
  String x a +:+ b = String x (a +:+ b).
Proof. reflexivity. Qed.

Lemma append_nil_l (b : string) : EmptyString +:+ b = b.
Proof. reflexivity. Qed.

Lemma append_assoc (a b c : string) : (a +:+ b) +:+ c = a +:+ (b +:+ c).
Proof.
  induction a as [|x a IH]; [reflexivity|]. by rewrite !append_cons, IH.
Qed.

Lemma append_nil_r (a : string) : a +:+ EmptyString = a.
Proof. induction a as [|x a IH]; [reflexivity|]. by rewrite append_cons, IH. Qed.

Lemma length_append (a b : string) :
  String.length (a +:+ b) = (String.length a + String.length b)%nat.
Proof.
  induction a as [|x a IH]; [reflexivity|].
  rewrite append_cons. cbn [String.length]. by rewrite IH.
Qed.

Lemma substring_whole (s : string) : String.substring 0 (String.length s) s = s.
Proof.
  induction s as [|x s IH]; [reflexivity|].
  cbn [String.length String.substring]. by rewrite IH.
Qed.

Lemma substring_append_skip (a b : string) (k : nat) :
  String.substring (String.length a) k (a +:+ b) = String.substring 0 k b.
Proof.
  induction a as [|x a IH]; [reflexivity|].
  rewrite append_cons. cbn [String.length String.substring]. exact IH.
Qed.

Lemma substring_split (s : string) (i : nat) :
  (i ≤ String.length s)%nat →
  s = String.substring 0 i s +:+ String.substring i (String.length s - i) s.
Proof.
  revert i. induction s as [|x s IH]; intros i Hi.
  - cbn [String.length] in Hi. assert (i = 0%nat) as -> by lia. reflexivity.
  - destruct i as [|i].
    + rewrite Nat.sub_0_r, substring_whole. reflexivity.
    + cbn [String.length] in Hi.
      cbn [String.substring String.length Nat.sub]. rewrite append_cons.
      f_equal. apply IH. lia.
Qed.

(** [s.endswith(suffix)] holds exactly of the strings that end with the
    suffix. *)
Lemma endswith_spec (s suffix : string) :
  endswith s suffix = true ↔ ∃ pre, s = pre +:+ suffix.
Proof.
  unfold endswith. split.
  - destruct (Nat.ltb_spec (String.length s) (String.length suffix)) as [|Hle];
      [discriminate|].
    intros Heq. apply String.eqb_eq in Heq.
    exists (String.substring 0 (String.length s - String.length suffix) s).
    pose proof (substring_split s (String.length s - String.length suffix)) as H.
    replace (String.length s - (String.length s - String.length suffix))%nat
      with (String.length suffix) in H by lia.
    rewrite Heq in H. apply H. lia.
  - intros [pre ->]. rewrite length_append.
    destruct (Nat.ltb_spec (String.length pre + String.length suffix)
                (String.length suffix)) as [|_]; [lia|].
    replace (String.length pre + String.length suffix - String.length suffix)%nat
      with (String.length pre) by lia.
    rewrite substring_append_skip, substring_whole. apply String.eqb_refl.
Qed.

Lemma lower_append (a b : string) : lower (a +:+ b) = lower a +:+ lower b.
Proof.
  induction a as [|x a IH]; [reflexivity|].
  rewrite append_cons. cbn [lower]. by rewrite append_cons, IH.
Qed.

(** [os.path.join(a, b)] always ends with [b]. *)
Lemma path_join_suffix (a b : string) : ∃ pre, path_join a b = pre +:+ b.
Proof.
  unfold path_join. destruct (startswith b "/"); [by exists EmptyString|].
  destruct (_ || _); [by exists a|].
  exists (a +:+ "/"). by rewrite append_assoc.
Qed.

Lemma has_slash_append (a b : string) :
  has_slash (a +:+ b) = has_slash a || has_slash b.
Proof.
  induction a as [|x a IH]; [reflexivity|].
  rewrite append_cons. cbn [has_slash]. rewrite IH. by destruct (is_slash x).
Qed.

Lemma basename_no_slash (p : string) : has_slash p = false → basename p = p.
Proof.
  destruct p as [|x p]; [reflexivity|]. cbn [has_slash basename].
  destruct (is_slash x); [discriminate|]. cbn [orb]. by intros ->.
Qed.

Lemma basename_after_slash (a file : string) :
  has_slash file = false → basename (a +:+ String "/" file) = file.
Proof.
  intros Hfile. induction a as [|x a IH].
  - rewrite append_nil_l. cbn [basename]. rewrite Hfile. reflexivity.
  - rewrite append_cons. cbn [basename]. rewrite has_slash_append.
    cbn [has_slash]. replace (is_slash "/") with true by reflexivity.
    rewrite orb_true_r. exact IH.
Qed.

(** The base name never has a slash in it. *)
Lemma basename_has_no_slash (p : string) : has_slash (basename p) = false.
Proof.
  induction p as [|x p IH]; [reflexivity|]. cbn [basename].
  destruct (has_slash p) eqn:Hp; [exact IH|].
  destruct (is_slash x) eqn:Hx; [exact Hp|].
  cbn [has_slash]. by rewrite Hx, Hp.
Qed.

Lemma startswith_slash (p : string) :
  startswith p "/" = true → has_slash p = true.
Proof.
  destruct p as [|x p]; [discriminate|]. unfold startswith. cbn [String.prefix].
  destruct (ascii_dec "/" x) as [<-|]; [reflexivity | discriminate].
Qed.

(** The base name of a joined path is the file name joined. *)
Lemma basename_path_join (root file : string) :
  has_slash file = false → basename (path_join root file) = file.
Proof.
  intros Hfile. unfold path_join.
  destruct (startswith file "/") eqn:Hstart.
  { apply startswith_slash in Hstart. congruence. }
  destruct (String.eqb root EmptyString) eqn:Hroot.
  { apply String.eqb_eq in Hroot as ->. cbn [orb]. rewrite append_nil_l.
    by apply basename_no_slash. }
  destruct (endswith root "/") eqn:Hend; cbn [orb].
  - apply endswith_spec in Hend as [pre ->]. rewrite append_assoc.
    by apply basename_after_slash.
  - by apply basename_after_slash.
Qed.

(** ** The directory scan *)

Lemma find_in_dir_spec root files fonts :
  find_in_dir root files fonts
  = fonts ++ map (path_join root) (List.filter is_ttf files).
Proof.
  revert fonts. induction files as [|file rest IH]; intros fonts.
  - by rewrite app_nil_r.
  - cbn [find_in_dir List.filter]. unfold is_ttf at 1.
    destruct (endswith (lower file) ".ttf"); rewrite IH; [|reflexivity].
    by rewrite <- app_assoc.
Qed.

Lemma find_in_walk_spec dirs fonts :
  find_in_walk dirs fonts
  = fonts ++ flat_map (λ dir, map (path_join dir.1) (List.filter is_ttf dir.2)) dirs.
Proof.
  revert fonts. induction dirs as [|[root files] rest IH]; intros fonts.
  - by rewrite app_nil_r.
  - cbn [find_in_walk flat_map fst snd]. rewrite IH, find_in_dir_spec.
    by rewrite <- app_assoc.
Qed.

Lemma find_fonts_flat_map env directory :
  find_fonts env directory
  = flat_map (λ dir, map (path_join dir.1) (List.filter is_ttf dir.2))
      (walk env directory) ∧
  ∀ path, In path (find_fonts env directory) ↔
    ∃ root files file,
      In (root, files) (walk env directory) ∧ In file files ∧
      is_ttf file = true ∧ path = path_join root file.
Proof.
  assert (Heq : find_fonts env directory
                = flat_map (λ dir, map (path_join dir.1) (List.filter is_ttf dir.2))
                    (walk env directory)).
  { unfold find_fonts. by rewrite find_in_walk_spec. }
  split; [exact Heq|]. intros path. rewrite Heq, in_flat_map. split.
  - intros ([root files] & Hdir & Hin). cbn [fst snd] in Hin.
    apply in_map_iff in Hin as (file & <- & Hfile).
    apply filter_In in Hfile as [Hfile Httf]. by exists root, files, file.
  - intros (root & files & file & Hdir & Hfile & Httf & ->).
    exists (root, files). split; [exact Hdir|]. cbn [fst snd].
    apply in_map. by apply filter_In.
Qed.

(** X1. [find_fonts] returns, in the order of the walk, the joined paths
    of exactly the files whose lower-cased name ends with [.ttf]. *)
Theorem find_fonts_spec env directory :
  find_fonts env directory
  = flat_map (λ dir, map (path_join dir.1) (List.filter is_ttf dir.2))
      (walk env directory) ∧
  ∀ path, In path (find_fonts env directory) ↔
    ∃ root files file,
      In (root, files) (walk env directory) ∧ In file files ∧
      is_ttf file = true ∧ path = path_join root file.
Proof. exact (find_fonts_flat_map env directory). Qed.

(** X2. Every path that [find_fonts] returns ends with [.ttf], whatever
    the case of its letters. *)
Theorem find_fonts_ttf env directory path :
  In path (find_fonts env directory) → endswith (lower path) ".ttf" = true.
Proof.
  intros Hin. apply find_fonts_flat_map in Hin
    as (root & files & file & _ & _ & Httf & ->).
  apply endswith_spec in Httf as [pre Hpre].
  destruct (path_join_suffix root file) as [pre' ->].
  apply endswith_spec. exists (lower pre' +:+ pre).
  by rewrite lower_append, Hpre, append_assoc.
Qed.

Lemma find_fonts_ttf_witness :
  endswith (lower "fonts/corrupt.TTF") ".ttf" = true.
Proof.
  apply (find_fonts_ttf Sample.env "fonts"). vm_compute. auto.
Defined.

(** X3. The thumbnail of a font found by the scan depends on the file
    name only, not on the directory: fonts of the same name in two
    directories share one thumbnail path. *)
Theorem thumbnail_ignores_directory args root file :
  has_slash file = false →
  thumbnail_path args (path_join root file)
  = path_join (output_dir args) (file +:+ ".png").
Proof.
  intros Hfile. unfold thumbnail_path. by rewrite basename_path_join.
Qed.

Lemma thumbnail_ignores_directory_witness :
  thumbnail_path Sample.args (path_join "fonts/a" "x.ttf")
  = thumbnail_path Sample.args (path_join "fonts/b" "x.ttf").
Proof.
  rewrite (thumbnail_ignores_directory Sample.args "fonts/a" "x.ttf")
    by reflexivity.
  rewrite (thumbnail_ignores_directory Sample.args "fonts/b" "x.ttf")
    by reflexivity.
  reflexivity.
Defined.

(** ** The order of the loop *)



(** X5. A negative [-n N] does not cap: it drops the last [-N] fonts
    discovered and the loop runs over all the others. *)
Theorem negative_number_drops_last env args n :
  number args = Some n → n < 0 →
  font_iterator env args
    ≡ₚ take (length (find_fonts env (font_dir args)) - Z.to_nat (- n))
         (find_fonts env (font_dir args)) ∧
  length (font_iterator env args)
  = (length (find_fonts env (font_dir args)) - Z.to_nat (- n))%nat.
Proof.
  intros Hnumber Hn.
  assert (Hperm : font_iterator env args
            ≡ₚ take (length (find_fonts env (font_dir args)) - Z.to_nat (- n))
                 (find_fonts env (font_dir args))).
  { unfold font_iterator, capped. rewrite Hnumber, slice_to_negative by done.
    apply sorted_Permutation. }
  split; [exact Hperm|]. rewrite Hperm, length_take. lia.
Qed.

Lemma negative_number_drops_last_witness :
  length (font_iterator Sample.env
            {| text := "Hi"; output_dir := "renders"; html_file := "index.html";
               font_size := 24; slow_check := false; font_dir := "fonts";
               number := Some (-1) |}) = 2%nat.
Proof.
  destruct (negative_number_drops_last Sample.env
              {| text := "Hi"; output_dir := "renders"; html_file := "index.html";
                 font_size := 24; slow_check := false; font_dir := "fonts";
                 number := Some (-1) |} (-1)) as [_ Hlen];
    [reflexivity | lia |].
  rewrite Hlen. reflexivity.
Defined.

(** ** The metadata *)

Lemma collect_names_decoded texts names :
  collect_names (name_records texts) names
  = Ok (foldl (λ m kv, <[kv.1 := kv.2]> m) names texts).
Proof.
  revert names. induction texts as [|[k t] rest IH]; intros names; [reflexivity|].
  cbn [name_records map collect_names toUnicode nameID fst snd foldl]. run.
  apply IH.
Qed.

Lemma foldl_insert_lookup texts (names : gmap Z string) key :
  foldl (λ m kv, <[kv.1 := kv.2]> m) names texts !! key
  = match last_name key texts with
    | Some t => Some t
    | None => names !! key
    end.
Proof.
  revert names. induction texts as [|[k t] rest IH]; intros names; [reflexivity|].
  cbn [foldl last_name fst snd]. rewrite IH.
  destruct (last_name key rest); [reflexivity|].
  destruct (decide (k = key)) as [->|Hne];
    [by rewrite lookup_insert_eq | by rewrite lookup_insert_ne].
Qed.

(** X6. When every name record decodes, [get_font_info] prints nothing
    and each field is the text of the last record with its name ID
    (1 family, 2 style, 4 full name, 5 version, 0 copyright), or "N/A"
    when no record has that ID. *)
Theorem get_font_info_last_record env font_path font texts s :
  open_font env font_path = Ok font →
  names font = Ok (name_records texts) →
  get_font_info env font_path s
  = (Some {| family := name_or_na 1 texts;
             style := name_or_na 2 texts;
             full_name := name_or_na 4 texts;
             version := name_or_na 5 texts;
             copyright := name_or_na 0 texts |}, s).
Proof.
  intros Hopen Hnames. unfold get_font_info, get_font_info_body. run.
  rewrite Hopen, Hnames, collect_names_decoded.
  unfold names_get, name_or_na. rewrite !foldl_insert_lookup.
  rewrite !lookup_empty.
  by destruct (last_name 1 texts), (last_name 2 texts), (last_name 4 texts),
    (last_name 5 texts), (last_name 0 texts).
Qed.

Lemma get_font_info_last_record_witness :
  get_font_info Sample.env "fonts/good.ttf" Sample.start
  = (Some {| family := "Good"; style := "Regular"; full_name := "Good Regular";
             version := "N/A"; copyright := "N/A" |}, Sample.start).
Proof.
  apply (get_font_info_last_record Sample.env "fonts/good.ttf" Sample.good
           [(1, "Good"); (2, "Regular"); (4, "Good Regular")]); reflexivity.
Defined.

Lemma collect_names_raises before record after names e :
  Forall (λ r, ∃ t, toUnicode r = Ok t) before →
  toUnicode record = Raise e →
  collect_names (before ++ record :: after) names = Raise e.
Proof.
  intros Hbefore Hrecord. revert names.
  induction Hbefore as [|r before [t Ht] _ IH]; intros names.
  - cbn [app collect_names]. run. by rewrite Hrecord.
  - cbn [app collect_names]. run. rewrite Ht. apply IH.
Qed.

(** X7. One name record that does not decode, whatever its name ID,
    loses the font: [get_font_info] prints the error and returns [None],
    and the loop leaves the font out of the rows and of the counters. *)
Theorem undecodable_name_skips_font env font_path font before record after e :
  open_font env font_path = Ok font →
  names font = Ok (before ++ record :: after) →
  Forall (λ r, ∃ t, toUnicode r = Ok t) before →
  toUnicode record = Raise e →
  (∀ s, get_font_info env font_path s
        = (None, (print ("Error reading " +:+ font_path +:+ ": " +:+ str_exn e) s).2)) ∧
  (∀ args st s, (loop_body env args st font_path s).1 = st ∧
                files (loop_body env args st font_path s).2 = files s).
Proof.
  intros Hopen Hnames Hbefore Hrecord.
  assert (Hinfo : ∀ s, get_font_info env font_path s
            = (None, (print ("Error reading " +:+ font_path +:+ ": "
                               +:+ str_exn e) s).2)).
  { intros s. unfold get_font_info, get_font_info_body. run.
    rewrite Hopen, Hnames.
    by rewrite (collect_names_raises _ _ _ _ e Hbefore Hrecord). }
  split; [exact Hinfo|]. intros args st s. rewrite loop_body_unfold.
  pose proof (has_required_chars_files env font_path s) as Hfiles.
  destruct (has_required_chars env font_path s) as [[] s1]; cbn [snd] in Hfiles.
  - rewrite Hinfo. by run.
  - split; [reflexivity|]. by destruct (isatty env).
Qed.

Lemma undecodable_name_skips_font_witness :
  (loop_body Sample2.env Sample.all_args initial "fonts/any.ttf" Sample.start).1
  = initial.
Proof.
  eapply (undecodable_name_skips_font Sample2.env "fonts/any.ttf"
            Sample2.undecodable
            [ {| nameID := 4; toUnicode := Ok "Any" |} ]
            {| nameID := 16; toUnicode := Raise (Exception "bad encoding") |} []).
  - reflexivity.
  - reflexivity.
  - repeat constructor. by exists "Any".
  - reflexivity.
Defined.

(** ** Coverage, once more *)

Lemma all_in_cmap_true cmap chars :
  all_in_cmap cmap chars = true ↔
  ∀ c, In c (chars_of chars) → is_Some (cmap !! ord c).
Proof.
  induction chars as [|char rest IH]; cbn [all_in_cmap].
  - split; [intros _ c [] | reflexivity].
  - destruct (cmap !! ord char) eqn:Hchar.
    + rewrite IH. split.
      * intros Hrest c [<- | Hin]; [by rewrite Hchar | by apply Hrest].
      * intros Hall c Hin. apply Hall. by right.
    + split; [discriminate|]. intros Hall.
      destruct (Hall char (or_introl eq_refl)) as [g Hg]. congruence.
Qed.

Lemma has_required_chars_accepts env font_path s :
  (has_required_chars env font_path s).1 = true ↔
  ∃ font cmap,
    open_font env font_path = Ok font ∧
    getBestCmap font = Ok (Some cmap) ∧
    (∀ c, is_alnum c = true → is_Some (cmap !! ord c)) ∧
    has_required_chars env font_path s = (true, s).
Proof.
  unfold has_required_chars, has_required_chars_body. run. split.
  - destruct (open_font env font_path) as [font|e] eqn:Hopen; [|discriminate].
    destruct (getBestCmap font) as [[cmap|]|e] eqn:Hcmap; [|discriminate..].
    destruct (decide (cmap = ∅)); [discriminate|].
    destruct (all_in_cmap cmap required_chars) eqn:Hall; [|discriminate].
    intros _. exists font, cmap.
    split; [reflexivity|]. split; [exact Hcmap|]. split; [|reflexivity].
    intros c Hc. apply required_alnum in Hc.
    by apply (proj1 (all_in_cmap_true cmap required_chars) Hall).
  - intros (font & cmap & -> & -> & Hall & _).
    assert (Hne : cmap ≠ ∅).
    { intros ->. destruct (Hall "A"%char eq_refl) as [g Hg].
      by rewrite lookup_empty in Hg. }
    destruct (decide (cmap = ∅)); [done|].
    assert (all_in_cmap cmap required_chars = true) as ->; [|reflexivity].
    apply all_in_cmap_true. intros c Hc. by apply Hall, required_alnum.
Qed.

Lemma has_required_chars_covered env font_path font cmap s :
  open_font env font_path = Ok font →
  getBestCmap font = Ok (Some cmap) →
  (∀ c, is_alnum c = true → is_Some (cmap !! ord c)) →
  has_required_chars env font_path s = (true, s).
Proof.
  intros Hopen Hcmap Hall.
  unfold has_required_chars, has_required_chars_body. run.
  rewrite Hopen, Hcmap.
  assert (Hne : cmap ≠ ∅).
  { intros ->. destruct (Hall "A"%char eq_refl) as [g Hg].
    by rewrite lookup_empty in Hg. }
  destruct (decide (cmap = ∅)); [done|].
  assert (all_in_cmap cmap required_chars = true) as ->; [|reflexivity].
  apply all_in_cmap_true. intros c Hc. by apply Hall, required_alnum.
Qed.

(** X8. The coverage check answers [True] if and only if the font opens,
    its best character map is present and every ASCII letter and digit is
    a key of it; when it answers [True] it has printed nothing. *)
Theorem has_required_chars_true env font_path s :
  ((has_required_chars env font_path s).1 = true ↔
   ∃ font cmap,
     open_font env font_path = Ok font ∧
     getBestCmap font = Ok (Some cmap) ∧
     (∀ c, is_alnum c = true → is_Some (cmap !! ord c))) ∧
  ((has_required_chars env font_path s).1 = true →
   (has_required_chars env font_path s).2 = s).
Proof.
  split; [split|].
  - intros Htrue.
    apply has_required_chars_accepts in Htrue
      as (font & cmap & Hopen & Hcmap & Hall & _).
    by exists font, cmap.
  - intros (font & cmap & Hopen & Hcmap & Hall).
    by rewrite (has_required_chars_covered env font_path font cmap s).
  - intros Htrue.
    apply has_required_chars_accepts in Htrue
      as (font & cmap & Hopen & Hcmap & Hall & ->).
    reflexivity.
Qed.

Lemma has_required_chars_true_witness :
  (has_required_chars Sample.env "fonts/good.ttf" Sample.start).1 = true ∧
  (has_required_chars Sample.env "fonts/good.ttf" Sample.start).2 = Sample.start.
Proof.
  destruct (has_required_chars_true Sample.env "fonts/good.ttf" Sample.start)
    as [Hiff Hquiet].
  assert (Htrue : (has_required_chars Sample.env "fonts/good.ttf"
                     Sample.start).1 = true).
  { apply Hiff. exists Sample.good, (Sample.cmap_of Sample.alnum_and_space).
    split; [reflexivity|]. split; [reflexivity|].
    intros [[] [] [] [] [] [] [] []] Hc; vm_compute in Hc; try discriminate Hc;
      vm_compute; eexists; reflexivity. }
  split; [exact Htrue | exact (Hquiet Htrue)].
Defined.

(** ** The metric checker, once more *)

(** The loop ends only if every character visited passes, and then it
    has collected one more width per character found. *)
Lemma scan_widths_done cmap hm upm chars acc ws :
  scan_widths cmap hm upm chars acc = Ok (inr ws) →
  (∀ c, In c (chars_of chars) → passes_widths cmap hm upm c) ∧
  ws = acc ++ present_widths cmap hm chars.
Proof.
  revert acc. induction chars as [|char rest IH]; intros acc.
  - cbn [scan_widths present_widths]. intros [= <-].
    split; [intros c [] | by rewrite app_nil_r].
  - rewrite scan_widths_cons. cbn [present_widths].
    destruct (cmap !! ord char) as [glyph_name|] eqn:Hchar.
    + unfold getitem. destruct (hm !! glyph_name) as [[w lsb]|] eqn:Hw; run;
        [|discriminate].
      destruct (Z.eqb_spec w 0) as [|Hnz]; [discriminate|].
      destruct (Z.gtb_spec w (upm * 10)) as [|Hle]; [discriminate|].
      intros Hscan. apply IH in Hscan as [Hrest ->]. split.
      * intros c [<- | Hin]; [|by apply Hrest].
        intros g Hg. rewrite Hchar in Hg. injection Hg as <-. by exists w, lsb.
      * by rewrite <- app_assoc.
    + intros Hscan. apply IH in Hscan as [Hrest ->]. split; [|reflexivity].
      intros c [<- | Hin]; [|by apply Hrest]. intros g Hg. congruence.
Qed.

(** The reasons of the two [return]s inside the loop. *)
Lemma scan_widths_early_reason cmap hm upm chars acc r :
  scan_widths cmap hm upm chars acc = Ok (inl r) →
  ∃ c, r = (false, zero_width_reason c) ∨
       r = (false, "Character '" +:+ str_char c +:+ "' has excessively large width").
Proof.
  revert acc. induction chars as [|char rest IH]; intros acc; [discriminate|].
  rewrite scan_widths_cons. destruct (cmap !! ord char) as [glyph_name|]; [|apply IH].
  destruct (getitem hm glyph_name) as [[w lsb]|e]; run; [|discriminate].
  destruct (w =? 0); [intros [= <-]; eauto|].
  destruct (w >? upm * 10); [intros [= <-]; eauto | apply IH].
Qed.

Lemma present_widths_nonempty cmap hm upm chars c :
  (∀ c, In c (chars_of chars) → passes_widths cmap hm upm c) →
  In c (chars_of chars) → is_Some (cmap !! ord c) →
  present_widths cmap hm chars ≠ [].
Proof.
  intros Hpass Hin Hsome. induction chars as [|char rest IH]; [destruct Hin|].
  cbn [present_widths].
  destruct (cmap !! ord char) as [g|] eqn:Hchar.
  - destruct (Hpass char (or_introl eq_refl) g Hchar) as (w & lsb & -> & _).
    discriminate.
  - destruct Hin as [<- | Hin].
    + rewrite Hchar in Hsome. by destruct Hsome.
    + apply IH; [|exact Hin]. intros c' Hc'. apply Hpass. by right.
Qed.

(** X9. The metric checker passes a font only if its tables can be read,
    every required character that is in the character map has an advance
    width that is neither zero nor above ten times the units per em, one
    such character at least is there, and the space has a glyph with an
    advance width. *)
Theorem metrics_pass_sound env font_path :
  (check_font_metrics env font_path).1 = true →
  ∃ font cmap hm upm,
    open_font env font_path = Ok font ∧
    getBestCmap font = Ok (Some cmap) ∧
    hmtx font = Ok hm ∧ unitsPerEm font = Ok upm ∧
    (∀ c, required c → passes_widths cmap hm upm c) ∧
    present_widths cmap hm required_chars ≠ [] ∧
    (∃ space_glyph_name w lsb,
       cmap !! ord " " = Some space_glyph_name ∧
       hm !! space_glyph_name = Some (w, lsb)).
Proof.
  rewrite check_font_metrics_value. unfold check_font_metrics_body. run.
  destruct (open_font env font_path) as [font|e] eqn:Hopen; [|discriminate].
  destruct (getBestCmap font) as [[cmap|]|e] eqn:Hcmap; [|discriminate..].
  destruct (decide (cmap = ∅)); [discriminate|].
  destruct (hmtx font) as [hm|e] eqn:Hhmtx; [|discriminate].
  destruct (unitsPerEm font) as [upm|e] eqn:Hupm; [|discriminate].
  destruct (scan_widths cmap hm upm required_chars []) as [[r|ws]|e] eqn:Hscan;
    [| |discriminate].
  { intros Hr. apply scan_widths_early in Hscan. congruence. }
  apply scan_widths_done in Hscan as [Hpass Hcollected].
  rewrite app_nil_l in Hcollected. destruct ws as [|w0 ws']; [discriminate|].
  destruct (cmap !! ord " ") as [space_glyph_name|] eqn:Hspace; [|discriminate].
  unfold getitem. destruct (hm !! space_glyph_name) as [[w lsb]|] eqn:Hw; run;
    [|discriminate].
  intros _. exists font, cmap, hm, upm.
  split; [reflexivity|]. split; [exact Hcmap|]. split; [exact Hhmtx|].
  split; [exact Hupm|]. split; [exact Hpass|].
  split; [by rewrite <- Hcollected | by exists space_glyph_name, w, lsb].
Qed.

Lemma metrics_pass_sound_witness :
  ∃ font cmap hm upm,
    open_font Sample.env "fonts/good.ttf" = Ok font ∧
    getBestCmap font = Ok (Some cmap) ∧
    hmtx font = Ok hm ∧ unitsPerEm font = Ok upm ∧
    (∀ c, required c → passes_widths cmap hm upm c) ∧
    present_widths cmap hm required_chars ≠ [] ∧
    (∃ space_glyph_name w lsb,
       cmap !! ord " " = Some space_glyph_name ∧
       hm !! space_glyph_name = Some (w, lsb)).
Proof.
  apply (metrics_pass_sound Sample.env "fonts/good.ttf"). vm_compute. reflexivity.
Defined.

(** X10. Once the coverage check has passed, the metric checker cannot
    answer [No cmap table found] nor [No alphanumeric characters found]:
    in the index builder these two reasons never reach the report. *)
Theorem covered_font_reasons env font_path s :
  (has_required_chars env font_path s).1 = true →
  (check_font_metrics env font_path).2 ≠ "No cmap table found" ∧
  (check_font_metrics env font_path).2 ≠ "No alphanumeric characters found".
Proof.
  intros Hcovered.
  apply has_required_chars_accepts in Hcovered
    as (font & cmap & Hopen & Hcmap & Hall & _).
  assert (HA : is_Some (cmap !! ord "A")) by (by apply Hall).
  assert (Hne : cmap ≠ ∅).
  { intros ->. destruct HA as [g Hg]. by rewrite lookup_empty in Hg. }
  rewrite check_font_metrics_value. unfold check_font_metrics_body. run.
  rewrite Hopen, Hcmap. destruct (decide (cmap = ∅)); [done|].
  destruct (hmtx font) as [hm|e]; [|split; intros H; discriminate H].
  destruct (unitsPerEm font) as [upm|e]; [|split; intros H; discriminate H].
  destruct (scan_widths cmap hm upm required_chars []) as [[r|ws]|e] eqn:Hscan;
    [| |split; intros H; discriminate H].
  - apply scan_widths_early_reason in Hscan as [c [-> | ->]];
      split; intros H; discriminate H.
  - apply scan_widths_done in Hscan as [Hpass Hcollected].
    rewrite app_nil_l in Hcollected.
    assert (Hws : ws ≠ []).
    { rewrite Hcollected.
      apply (present_widths_nonempty cmap hm upm required_chars "A");
        [exact Hpass | | exact HA].
      apply required_alnum. reflexivity. }
    destruct ws as [|w0 ws']; [done|].
    destruct (cmap !! ord " ") as [space_glyph_name|];
      [|split; intros H; discriminate H].
    destruct (getitem hm space_glyph_name) as [[w lsb]|e]; run;
      [|split; intros H; discriminate H].
    destruct (int_gt_float w _); split; intros H; discriminate H.
Qed.

Lemma covered_font_reasons_witness :
  (check_font_metrics Sample.env "fonts/zeroC.ttf").2 ≠ "No cmap table found" ∧
  (check_font_metrics Sample.env "fonts/zeroC.ttf").2
    ≠ "No alphanumeric characters found".
Proof.
  apply (covered_font_reasons Sample.env "fonts/zeroC.ttf" Sample.start).
  vm_compute. reflexivity.
Defined.

(** X11. When a required character in the character map is wider than ten
    times the units per em, and every required character before it
    passes the width tests, the metric checker fails and cites it:
    [Character '<c>' has excessively large width]. *)
Theorem excessive_width_fails env font_path font cmap hm upm c glyph_name w lsb
    pre post :
  open_font env font_path = Ok font →
  getBestCmap font = Ok (Some cmap) →
  hmtx font = Ok hm →
  unitsPerEm font = Ok upm →
  required_chars = pre +:+ String c post →
  (∀ c', In c' (chars_of pre) → passes_widths cmap hm upm c') →
  cmap !! ord c = Some glyph_name →
  hm !! glyph_name = Some (w, lsb) →
  w ≠ 0 → w > upm * 10 →
  check_font_metrics env font_path
  = (false, "Character '" +:+ str_char c +:+ "' has excessively large width").
Proof.
  intros Hopen Hcmap Hhmtx Hupm Hsplit Hpre Hc Hw Hnz Hwide.
  assert (Hne : cmap ≠ ∅).
  { intros ->. by rewrite lookup_empty in Hc. }
  rewrite check_font_metrics_value. unfold check_font_metrics_body. run.
  rewrite Hopen, Hcmap. destruct (decide (cmap = ∅)); [done|].
  rewrite Hhmtx, Hupm, Hsplit.
  destruct (scan_widths_passes cmap hm upm pre (String c post) [] Hpre)
    as (ws & -> & _).
  rewrite scan_widths_cons, Hc. unfold getitem. rewrite Hw. run.
  destruct (Z.eqb_spec w 0) as [|_]; [done|].
  destruct (Z.gtb_spec w (upm * 10)) as [_|]; [reflexivity | lia].
Qed.

Lemma excessive_width_fails_witness :
  check_font_metrics Sample.env "fonts/wideA_zeroB.ttf"
  = (false, "Character 'A' has excessively large width").
Proof.
  apply (excessive_width_fails Sample.env "fonts/wideA_zeroB.ttf"
           Sample.wideA_zeroB
           (Sample.cmap_of Sample.alnum_and_space)
           (Sample.hmtx_of Sample.alnum_and_space
              (Sample.with_width "A" 20000 (Sample.with_width "B" 0 Sample.regular)))
           1000 "A" "A" 20000 0 EmptyString
           "BCDEFGHIJKLMNOPQRSTUVWXYZabcdefghijklmnopqrstuvwxyz0123456789");
    try reflexivity; try lia; try (vm_compute; reflexivity).
  intros c' [].
Defined.

Lemma scan_widths_none_present cmap hm upm chars acc :
  (∀ c, In c (chars_of chars) → cmap !! ord c = None) →
  scan_widths cmap hm upm chars acc = Ok (inr acc).
Proof.
  induction chars as [|char rest IH]; intros Hnone; [reflexivity|].
  rewrite scan_widths_cons, (Hnone char (or_introl eq_refl)).
  apply IH. intros c Hc. apply Hnone. by right.
Qed.

(** X12. The two reasons for a font without usable characters: a
    character map that is missing or empty gives [No cmap table found];
    one that holds none of the required characters, in a font whose
    metrics tables can be read, gives [No alphanumeric characters
    found]. *)
Theorem unusable_cmap_reasons env font_path font :
  open_font env font_path = Ok font →
  (getBestCmap font = Ok None ∨ getBestCmap font = Ok (Some ∅) →
   check_font_metrics env font_path = (false, "No cmap table found")) ∧
  (∀ cmap hm upm,
     getBestCmap font = Ok (Some cmap) → cmap ≠ ∅ →
     hmtx font = Ok hm → unitsPerEm font = Ok upm →
     (∀ c, required c → cmap !! ord c = None) →
     check_font_metrics env font_path
     = (false, "No alphanumeric characters found")).
Proof.
  intros Hopen. rewrite check_font_metrics_value.
  unfold check_font_metrics_body. run. rewrite Hopen. split.
  - intros [-> | ->]; [reflexivity|]. by destruct (decide (∅ = ∅)).
  - intros cmap hm upm -> Hne -> -> Hnone.
    destruct (decide (cmap = ∅)); [done|].
    by rewrite (scan_widths_none_present cmap hm upm required_chars [] Hnone).
Qed.

Lemma unusable_cmap_reasons_witness :
  check_font_metrics Sample2.env "fonts/empty.ttf" = (false, "No cmap table found") ∧
  check_font_metrics Sample2.env "fonts/symbols.ttf"
  = (false, "No alphanumeric characters found").
Proof.
  destruct (unusable_cmap_reasons Sample2.env "fonts/empty.ttf" Sample2.empty
              eq_refl) as [Hempty _].
  destruct (unusable_cmap_reasons Sample2.env "fonts/symbols.ttf" Sample2.symbols
              eq_refl) as [_ Hsymbols].
  split; [apply Hempty; by right|].
  apply (Hsymbols (Sample.cmap_of "!?") (Sample.hmtx_of "!?" Sample.regular) 1000);
    try reflexivity.
  - intros H. apply (f_equal (λ m : gmap Z string, m !! ord "!")) in H.
    vm_compute in H. discriminate H.
  - intros c Hc. unfold required in Hc. simpl in Hc.
    repeat (destruct Hc as [<- | Hc]; [vm_compute; reflexivity|]). destruct Hc.
Defined.

(** ** The quality result *)

Lemma check_font_metrics_fail_reason env font_path :
  (check_font_metrics env font_path).1 = false →
  (check_font_metrics env font_path).2 ≠ EmptyString.
Proof.
  rewrite check_font_metrics_value. unfold check_font_metrics_body. run.
  destruct (open_font env font_path) as [font|e]; [|intros _ H; discriminate H].
  destruct (getBestCmap font) as [[cmap|]|e]; [|intros _ H; discriminate H..].
  destruct (decide (cmap = ∅)); [intros _ H; discriminate H|].
  destruct (hmtx font) as [hm|e]; [|intros _ H; discriminate H].
  destruct (unitsPerEm font) as [upm|e]; [|intros _ H; discriminate H].
  destruct (scan_widths cmap hm upm required_chars []) as [[r|[|w0 ws]]|e] eqn:Hscan;
    [| | |intros _ H; discriminate H].
  - apply scan_widths_early_reason in Hscan as [c [-> | ->]];
      intros _ H; discriminate H.
  - intros _ H; discriminate H.
  - destruct (cmap !! ord " ") as [space_glyph_name|]; [|intros _ H; discriminate H].
    destruct (getitem hm space_glyph_name) as [[w lsb]|e]; run;
      [|intros _ H; discriminate H].
    destruct (int_gt_float w _); [intros _ H; discriminate H | discriminate].
Qed.

Lemma slow_check_font_reason env font_path size :
  ((slow_check_font env font_path size).1 = true ∧
   (slow_check_font env font_path size).2 = EmptyString) ∨
  ((slow_check_font env font_path size).1 = false ∧
   (slow_check_font env font_path size).2 ≠ EmptyString).
Proof.
  rewrite slow_check_font_value.
  destruct (slow_check_font_body env font_path size) as [r|e] eqn:Hbody.
  - apply slow_check_font_body_ok in Hbody as (font & ws & wn & sp & _ & _ & _ & ->).
    destruct (ws - wn >? sp * 4); [right | left]; split; try reflexivity.
    intros H; discriminate H.
  - right. split; [reflexivity|]. intros H; discriminate H.
Qed.

(** X13. The quality result of a font has an empty reason exactly when
    it passes: a row carries a tooltip exactly when it carries the
    failing icon, and the tooltip is never empty. *)
Theorem quality_reason_iff_fail env args font_path :
  (quality env args font_path).1 = true ↔
  (quality env args font_path).2 = EmptyString.
Proof.
  unfold quality.
  destruct (check_font_metrics env font_path) as [metrics_ok quality_reason] eqn:Hm.
  pose proof (check_font_metrics_pass env font_path) as Hpass.
  pose proof (check_font_metrics_fail_reason env font_path) as Hfail.
  rewrite Hm in Hpass, Hfail. cbn [fst snd] in Hpass, Hfail.
  destruct (slow_check args), metrics_ok; cbn [andb fst snd].
  - specialize (Hpass eq_refl). injection Hpass as ->.
    destruct (slow_check_font_reason env font_path (font_size args))
      as [[Hok Hreason] | [Hok Hreason]];
      destruct (slow_check_font env font_path (font_size args)) as [ok2 reason];
      cbn [fst snd] in *; subst ok2; cbn [negb fst snd]; [done|].
    split; [discriminate | intros H; by destruct Hreason].
  - split; [discriminate | intros H; by destruct (Hfail eq_refl)].
  - specialize (Hpass eq_refl). by injection Hpass as ->.
  - split; [discriminate | intros H; by destruct (Hfail eq_refl)].
Qed.

(** ** The kerning checker on an older Pillow *)

(** X14. When [textbbox] raises a [TypeError], the three widths are those
    of [textsize], and the verdict follows from them in the same way. *)
Theorem kerning_textsize_fallback env font_path size font msg w1 h1 w2 h2 w3 h3 :
  truetype env font_path size = Ok font →
  new_check env "RGB" (1, 1) = Ok tt →
  textbbox font "A B C D E" = Raise (TypeError msg) →
  textsize font "A B C D E" = Ok (w1, h1) →
  textsize font "ABCDE" = Ok (w2, h2) →
  textsize font " " = Ok (w3, h3) →
  slow_check_font env font_path size
  = (if w1 - w2 >? w3 * 4 then (false, "Potential kerning issue")
     else (true, EmptyString)).
Proof.
  intros Hfont Hnew Hbbox H1 H2 H3. rewrite slow_check_font_value.
  by rewrite (slow_check_font_body_measured env font_path size font w1 w2 w3 Hfont
                Hnew (measure_probes_textsize font msg w1 h1 w2 h2 w3 h3
                        Hbbox H1 H2 H3)).
Qed.

Lemma kerning_textsize_fallback_witness :
  slow_check_font Sample2.env "fonts/old.ttf" 24
  = (false, "Potential kerning issue").
Proof.
  apply (kerning_textsize_fallback Sample2.env "fonts/old.ttf" 24 Sample2.old_loose
           "textbbox() got an unexpected keyword argument 'font'"
           220 18 60 18 8 18); reflexivity.
Defined.

(** ** What the rasterizer writes and prints *)

Lemma indexer_render_text_frame env text font_path image_path size s :
  (∃ img,
     FontIndexer.render_image env text font_path size = Ok img ∧
     FontIndexer.render_text env text font_path image_path size s
     = (true, {| console := console s;
                 files := <[image_path := ImageFile "PNG" img]> (files s) |})) ∨
  (∃ e,
     FontIndexer.render_text env text font_path image_path size s
     = (false, {| console := console s ++ [render_error font_path e];
                  files := files s |})).
Proof.
  unfold FontIndexer.render_text, save, render_error.
  destruct (FontIndexer.render_image env text font_path size) as [img|e]; run;
    [|right; by exists e].
  destruct (save_check env image_path) as [[]|e]; run;
    [left; by exists img | right; by exists e].
Qed.

Lemma renderer_render_text_frame env text font_path image_path size s :
  (∃ img,
     FontRenderer.render_image env text font_path size = Ok img ∧
     FontRenderer.render_text env text font_path image_path size s
     = (true, {| console := console s;
                 files := <[image_path := ImageFile "PNG" img]> (files s) |})) ∨
  (∃ e,
     FontRenderer.render_text env text font_path image_path size s
     = (false, {| console := console s ++ [render_error font_path e];
                  files := files s |})).
Proof.
  unfold FontRenderer.render_text, save, render_error.
  destruct (FontRenderer.render_image env text font_path size) as [img|e]; run;
    [|right; by exists e].
  destruct (save_check env image_path) as [[]|e]; run;
    [left; by exists img | right; by exists e].
Qed.

(** X15. [render_text], in either script, does one of two things: it
    returns [True], prints nothing and writes the PNG at the output path
    and no other file; or it returns [False], writes no file and prints
    one line, [Error rendering text with <font>: <error>]. *)
Theorem render_text_frame env text font_path image_path size s :
  let outcome (r : bool * Sys) :=
    (r.1 = true ∧ console r.2 = console s ∧
     ∃ img, files r.2 = <[image_path := ImageFile "PNG" img]> (files s)) ∨
    (r.1 = false ∧ files r.2 = files s ∧
     ∃ e, console r.2 = console s ++ [render_error font_path e]) in
  outcome (FontIndexer.render_text env text font_path image_path size s) ∧
  outcome (FontRenderer.render_text env text font_path image_path size s).
Proof.
  cbv zeta. split.
  - destruct (indexer_render_text_frame env text font_path image_path size s)
      as [(img & _ & ->) | (e & ->)]; [left | right]; cbn [fst snd console files];
      eauto.
  - destruct (renderer_render_text_frame env text font_path image_path size s)
      as [(img & _ & ->) | (e & ->)]; [left | right]; cbn [fst snd console files];
      eauto.
Qed.

(** X16. On an older Pillow, where [textbbox] raises a [TypeError], the
    canvas is sized from [textsize]: width plus 20 in both scripts;
    height plus 20 in font-renderer.py, ascent plus the absolute value of
    the descent plus 20 in font-indexer.py. *)
Theorem canvas_size_textsize env text font_path image_path size font msg w h :
  truetype env font_path size = Ok font →
  textbbox font text = Raise (TypeError msg) →
  textsize font text = Ok (w, h) →
  (∀ s s',
     FontRenderer.render_text env text font_path image_path size s = (true, s') →
     files s' !! image_path
     = Some (ImageFile "PNG" (canvas (w + 20) (h + 20) text))) ∧
  (∀ s s',
     FontIndexer.render_text env text font_path image_path size s = (true, s') →
     files s' !! image_path
     = Some (ImageFile "PNG"
               (canvas (w + 2 * 10)
                  ((getmetrics font).1 + Z.abs (getmetrics font).2 + 2 * 10)
                  text))).
Proof.
  intros Hfont Hbbox Hsize. split; intros s s' Hrender.
  - apply renderer_render_text_true in Hrender as (img & Himg & ->).
    apply renderer_render_image_ok in Himg
      as (font' & text_width & text_height & Hfont' & Hmeasure & ->).
    rewrite Hfont in Hfont'. injection Hfont' as <-.
    unfold FontRenderer.measure_size in Hmeasure.
    rewrite Hbbox, Hsize in Hmeasure. by injection Hmeasure as <- <-.
  - apply indexer_render_text_true in Hrender as (img & Himg & ->).
    apply indexer_render_image_ok in Himg
      as (font' & text_width & Hfont' & Hmeasure & ->).
    rewrite Hfont in Hfont'. injection Hfont' as <-.
    unfold FontIndexer.measure_width in Hmeasure.
    rewrite Hbbox, Hsize in Hmeasure.
    by injection Hmeasure as <-.
Qed.

Lemma canvas_size_textsize_witness :
  files (FontRenderer.render_text Sample2.env "Hi" "fonts/old.ttf" "out.png" 24
           Sample.start).2 !! "out.png"
    = Some (ImageFile "PNG" (canvas 44 38 "Hi")) ∧
  files (FontIndexer.render_text Sample2.env "Hi" "fonts/old.ttf" "out.png" 24
           Sample.start).2 !! "out.png"
    = Some (ImageFile "PNG" (canvas 44 48 "Hi")).
Proof.
  destruct (canvas_size_textsize Sample2.env "Hi" "fonts/old.ttf" "out.png" 24
              Sample2.old_loose
              "textbbox() got an unexpected keyword argument 'font'" 24 18)
    as [Hrenderer Hindexer]; [reflexivity..|].
  split.
  - apply (Hrenderer Sample.start). vm_compute. reflexivity.
  - apply (Hindexer Sample.start). vm_compute. reflexivity.
Defined.

(** ** More on one iteration of the loop *)

Lemma get_font_info_files env font_path s :
  files (get_font_info env font_path s).2 = files s.
Proof.
  unfold get_font_info.
  destruct (get_font_info_body env font_path) as [info|e]; run; reflexivity.
Qed.

(** X17. A font whose thumbnail cannot be rendered is left out: with the
    coverage check passed and the metadata read, a failed rendering
    leaves the counters and the rows as they were and writes no file;
    the only trace is the error line on the console. *)
Theorem unrendered_font_skipped env args st font_path s s1 info s2 s3 :
  has_required_chars env font_path s = (true, s1) →
  get_font_info env font_path s1 = (Some info, s2) →
  render_text env (text args) font_path (thumbnail_path args font_path)
    (font_size args) s2 = (false, s3) →
  loop_body env args st font_path s = (st, s3) ∧
  files s3 = files s ∧
  ∃ e, console s3 = console s2 ++ [render_error font_path e].
Proof.
  intros Hcovered Hinfo Hrender.
  split; [by rewrite loop_body_unfold, Hcovered, Hinfo, Hrender|].
  pose proof (has_required_chars_files env font_path s) as Hf1.
  pose proof (get_font_info_files env font_path s1) as Hf2.
  rewrite Hcovered in Hf1. rewrite Hinfo in Hf2. cbn [snd] in Hf1, Hf2.
  destruct (indexer_render_text_frame env (text args) font_path
              (thumbnail_path args font_path) (font_size args) s2)
    as [(img & _ & Hr) | (e & Hr)]; rewrite Hr in Hrender; [discriminate|].
  injection Hrender as <-. cbn [files console].
  split; [congruence | by exists e].
Qed.

Lemma unrendered_font_skipped_witness :
  (loop_body Sample.env Sample.all_args initial "fonts/unloadable.ttf"
     Sample.start).1 = initial.
Proof.
  edestruct (unrendered_font_skipped Sample.env Sample.all_args initial
               "fonts/unloadable.ttf" Sample.start) as (Hbody & _ & _);
    [vm_compute; reflexivity ..|].
  by rewrite Hbody.
Defined.

(** X18. A font that passes the quality checks and whose thumbnail is
    rendered adds one to the total only, and its row carries the passing
    icon in a cell without tooltip. *)
Theorem passing_font_listed env args st font_path s s1 info s2 reason s3 :
  has_required_chars env font_path s = (true, s1) →
  get_font_info env font_path s1 = (Some info, s2) →
  quality env args font_path = (true, reason) →
  render_text env (text args) font_path (thumbnail_path args font_path)
    (font_size args) s2 = (true, s3) →
  loop_body env args st font_path s =
    ({| total_processed_fonts := S (total_processed_fonts st);
        fonts_with_issues := fonts_with_issues st;
        table_rows :=
          table_rows st ++
          [ "<tr>";
            "<td class=" +:+ dq +:+ "font-name-col" +:+ dq +:+ ">"
              +:+ full_name info +:+ "</td>";
            "<td class=" +:+ dq +:+ "filename-col" +:+ dq +:+ ">"
              +:+ basename font_path +:+ "</td>";
            "<td>" +:+ style info +:+ "</td>";
            "<td >&#9989;</td>";
            "<td class=" +:+ dq +:+ "render-col" +:+ dq +:+ "><img src=" +:+ dq
              +:+ thumbnail_path args font_path +:+ dq +:+ " alt=" +:+ dq
              +:+ "Render of " +:+ full_name info +:+ dq +:+ "></td>";
            "<td><a href=" +:+ dq +:+ relpath env font_path +:+ dq
              +:+ "><i class='bx bx-download'></i></a></td>";
            "</tr>" ] |}, s3).
Proof.
  intros Hcovered Hinfo Hquality Hrender.
  rewrite loop_body_unfold, Hcovered, Hinfo, Hrender, Hquality. reflexivity.
Qed.

Lemma passing_font_listed_witness :
  (loop_body Sample.env Sample.all_args initial "fonts/good.ttf" Sample.start).1
  = {| total_processed_fonts := 1;
       fonts_with_issues := 0;
       table_rows :=
         [ "<tr>";
           "<td class=" +:+ dq +:+ "font-name-col" +:+ dq +:+ ">Good Regular</td>";
           "<td class=" +:+ dq +:+ "filename-col" +:+ dq +:+ ">good.ttf</td>";
           "<td>Regular</td>";
           "<td >&#9989;</td>";
           "<td class=" +:+ dq +:+ "render-col" +:+ dq +:+ "><img src=" +:+ dq
             +:+ "renders/good.ttf.png" +:+ dq +:+ " alt=" +:+ dq
             +:+ "Render of Good Regular" +:+ dq +:+ "></td>";
           "<td><a href=" +:+ dq +:+ "fonts/good.ttf" +:+ dq
             +:+ "><i class='bx bx-download'></i></a></td>";
           "</tr>" ] |}.
Proof.
  erewrite (passing_font_listed Sample.env Sample.all_args initial
              "fonts/good.ttf" Sample.start);
    [|vm_compute; reflexivity ..].
  vm_compute. reflexivity.
Defined.

(** An iteration writes at most the thumbnail of its font. *)
Lemma loop_body_files env args st font_path s :
  files (loop_body env args st font_path s).2 = files s ∨
  ∃ img, files (loop_body env args st font_path s).2
         = <[thumbnail_path args font_path := ImageFile "PNG" img]> (files s).
Proof.
  rewrite loop_body_unfold.
  pose proof (has_required_chars_files env font_path s) as Hf1.
  destruct (has_required_chars env font_path s) as [[] s1]; cbn [snd] in Hf1.
  - pose proof (get_font_info_files env font_path s1) as Hf2.
    destruct (get_font_info env font_path s1) as [[info|] s2]; cbn [snd] in Hf2;
      [|left; cbn [snd]; congruence].
    destruct (indexer_render_text_frame env (text args) font_path
                (thumbnail_path args font_path) (font_size args) s2)
      as [(img & _ & ->) | (e & ->)]; cbn [snd files].
    + right. exists img. congruence.
    + left. congruence.
  - left. cbn [snd]. by destruct (isatty env).
Qed.

(** X19. The loop writes thumbnails and nothing else: a path that is the
    thumbnail path of none of the fonts holds after the loop what it held
    before, and a path whose content changed holds a PNG image. *)
Theorem loop_writes_thumbnails_only env args st fonts s path :
  ((∀ font_path, In font_path fonts → thumbnail_path args font_path ≠ path) →
   files (loop env args st fonts s).2 !! path = files s !! path) ∧
  (files (loop env args st fonts s).2 !! path = files s !! path ∨
   ∃ img, files (loop env args st fonts s).2 !! path = Some (ImageFile "PNG" img)).
Proof.
  revert st s. induction fonts as [|font_path rest IH]; intros st s.
  - split; [reflexivity | by left].
  - rewrite loop_cons.
    destruct (IH (loop_body env args st font_path s).1
                 (loop_body env args st font_path s).2) as [IHframe IHpng].
    destruct (loop_body_files env args st font_path s) as [Hsame | [img Hwrote]].
    + rewrite Hsame in IHframe, IHpng. split; [|exact IHpng].
      intros Hother. apply IHframe. intros p Hp. apply Hother. by right.
    + split.
      * intros Hother. rewrite IHframe by (intros p Hp; apply Hother; by right).
        rewrite Hwrote. apply lookup_insert_ne, Hother. by left.
      * destruct IHpng as [Hkept | Hpng]; [|by right].
        rewrite Hkept, Hwrote.
        destruct (decide (thumbnail_path args font_path = path)) as [->|Hne].
        -- right. exists img. apply lookup_insert_eq.
        -- left. by apply lookup_insert_ne.
Qed.

Lemma loop_writes_thumbnails_only_witness :
  files (loop Sample.env Sample.all_args initial
           (font_iterator Sample.env Sample.all_args) Sample.start).2
    !! "fonts/good.ttf" = None.
Proof.
  destruct (loop_writes_thumbnails_only Sample.env Sample.all_args initial
              (font_iterator Sample.env Sample.all_args) Sample.start
              "fonts/good.ttf") as [Hframe _].
  rewrite Hframe; [reflexivity|].
  intros p Hp. vm_compute in Hp.
  repeat (destruct Hp as [<- | Hp]; [vm_compute; intros H; discriminate H|]).
  destruct Hp.
Defined.

(** ** When [main] of the index builder raises *)

(** X20. When README.md is there and cannot be read, [main] raises after
    the loop has run: the HTML file is left with the header and the two
    counts, and without the table. *)
Theorem unreadable_readme_truncates env args s e :
  (exists_ env (output_dir args) = true ∨
   makedirs_check env (output_dir args) = Ok tt) →
  open_check env (html_file args) = Ok tt →
  exists_ env "README.md" = true →
  read_text env "README.md" = Raise e →
  (main env args s).1 = Raise e ∧
  files (main env args s).2 !! html_file args
  = Some (written
            (html_head (loop env args initial (font_iterator env args) s).1)).
Proof.
  intros Hdir Hopen Hexists Hread. unfold main.
  assert ((if negb (exists_ env (output_dir args))
           then makedirs_check env (output_dir args) else Ok tt) = Ok tt) as ->.
  { destruct Hdir as [-> | Hmk]; [reflexivity|].
    by destruct (exists_ env (output_dir args)). }
  run. destruct (loop env args initial (font_iterator env args) s) as [st s1].
  unfold write_html. rewrite Hopen, Hexists, Hread. run.
  split; [reflexivity | apply lookup_insert_eq].
Qed.

Lemma unreadable_readme_truncates_witness :
  (main Sample2.env Sample.all_args Sample.start).1
  = Raise (Exception "Permission denied").
Proof.
  apply (unreadable_readme_truncates Sample2.env Sample.all_args Sample.start);
    try reflexivity.
  right. reflexivity.
Defined.

(** When the output directory is missing and cannot be made, [main]
    raises at once: no font is looked at, nothing is printed, no file is
    written. *)
Theorem makedirs_failure_stops env args s e :
  exists_ env (output_dir args) = false →
  makedirs_check env (output_dir args) = Raise e →
  main env args s = (Raise e, s).
Proof. intros Hexists Hmk. unfold main. by rewrite Hexists, Hmk. Qed.

Lemma makedirs_failure_stops_witness :
  main Sample2.locked Sample.all_args Sample.start
  = (Raise (Exception "Permission denied"), Sample.start).
Proof.
  apply (makedirs_failure_stops Sample2.locked Sample.all_args Sample.start);
    reflexivity.
Defined.

(** X21. When the HTML file cannot be opened, [main] raises only after
    the loop: the thumbnails are written, the HTML file is not. *)
Theorem open_failure_after_loop env args s e :
  (exists_ env (output_dir args) = true ∨
   makedirs_check env (output_dir args) = Ok tt) →
  open_check env (html_file args) = Raise e →
  main env args s
  = (Raise e, (loop env args initial (font_iterator env args) s).2).
Proof.
  intros Hdir Hopen. unfold main.
  assert ((if negb (exists_ env (output_dir args))
           then makedirs_check env (output_dir args) else Ok tt) = Ok tt) as ->.
  { destruct Hdir as [-> | Hmk]; [reflexivity|].
    by destruct (exists_ env (output_dir args)). }
  run. destruct (loop env args initial (font_iterator env args) s) as [st s1].
  unfold write_html. by rewrite Hopen.
Qed.

Lemma open_failure_after_loop_witness :
  (main Sample2.unwritable Sample.all_args Sample.start).1
    = Raise (Exception "Is a directory") ∧
  files (main Sample2.unwritable Sample.all_args Sample.start).2 !! "index.html"
    = None ∧
  is_Some (files (main Sample2.unwritable Sample.all_args Sample.start).2
             !! "renders/good.ttf.png").
Proof.
  rewrite (open_failure_after_loop Sample2.unwritable Sample.all_args
             Sample.start (Exception "Is a directory"));
    [|right; reflexivity | reflexivity].
  split; [reflexivity|]. split; [vm_compute; reflexivity|].
  vm_compute. eauto.
Defined.

(** ** font-renderer.py: the command line *)

Lemma keeps_files_ret {A} (a : A) : keeps_files (mret a : M A).
Proof. by intros s. Qed.

Lemma keeps_files_print line : keeps_files (print line).
Proof. by intros s. Qed.

Lemma keeps_files_bind {A B} (m : M A) (f : A → M B) :
  keeps_files m → (∀ a, keeps_files (f a)) → keeps_files (m ≫= f).
Proof.
  intros Hm Hf s. run. specialize (Hm s). destruct (m s) as [a s1].
  cbn [snd] in Hm. rewrite <- Hm. apply Hf.
Qed.

Lemma keeps_files_print_lines lines : keeps_files (RendererCLI.print_lines lines).
Proof.
  induction lines as [|line rest IH]; cbn [RendererCLI.print_lines].
  - apply keeps_files_ret.
  - apply keeps_files_bind; [apply keeps_files_print | intros _; exact IH].
Qed.

Lemma keeps_files_inspect_char_metrics env font_path char :
  keeps_files (RendererCLI.inspect_char_metrics env font_path char).
Proof.
  unfold RendererCLI.inspect_char_metrics.
  destruct (RendererCLI.inspect_char_metrics_body env font_path char);
    [apply keeps_files_print_lines | apply keeps_files_print].
Qed.

Lemma keeps_files_print_attr label attr :
  keeps_files (RendererCLI.print_attr label attr).
Proof.
  unfold RendererCLI.print_attr. destruct attr; [|apply keeps_files_ret].
  apply keeps_files_bind; [apply keeps_files_print | intros _; apply keeps_files_ret].
Qed.

Lemma keeps_files_and_then m k :
  keeps_files m → keeps_files k → keeps_files (RendererCLI.and_then m k).
Proof.
  intros Hm Hk. unfold RendererCLI.and_then.
  apply keeps_files_bind; [exact Hm|]. intros [[]|e]; [exact Hk|apply keeps_files_ret].
Qed.

Lemma keeps_files_inspect_glyph_bbox env venv font_path char :
  keeps_files (RendererCLI.inspect_glyph_bbox env venv font_path char).
Proof.
  unfold RendererCLI.inspect_glyph_bbox.
  destruct (RendererCLI.find_glyph env venv font_path char) as [[glyph|]|e];
    [|apply keeps_files_print..].
  apply keeps_files_bind.
  - repeat (apply keeps_files_and_then; [|]);
      try apply keeps_files_print_attr.
    apply keeps_files_bind; [apply keeps_files_print | intros _; apply keeps_files_ret].
  - intros [[]|e]; [apply keeps_files_ret | apply keeps_files_print].
Qed.

(** X22. An inspection flag wins over everything else: with [--inspect]
    or [--inspect-glyph-bbox] given a non-empty string, [main] of the
    renderer renders nothing, writes no file and launches no viewer,
    whatever the other arguments. *)
Theorem inspection_renders_nothing env venv args s :
  RendererCLI.given (RendererCLI.inspect args) ≠ None ∨
  RendererCLI.given (RendererCLI.inspect_glyph_bbox_ args) ≠ None →
  (RendererCLI.main env venv args s).1 = Ok [] ∧
  files (RendererCLI.main env venv args s).2 = files s.
Proof.
  intros Hgiven. unfold RendererCLI.main.
  destruct (RendererCLI.given (RendererCLI.inspect args)) as [char|].
  - run.
    pose proof (keeps_files_inspect_char_metrics env (RendererCLI.font args) char s).
    by destruct (RendererCLI.inspect_char_metrics env (RendererCLI.font args) char s).
  - destruct (RendererCLI.given (RendererCLI.inspect_glyph_bbox_ args)) as [char|];
      [|by destruct Hgiven].
    run.
    pose proof (keeps_files_inspect_glyph_bbox env venv (RendererCLI.font args)
                  char s).
    by destruct (RendererCLI.inspect_glyph_bbox env venv (RendererCLI.font args)
                   char s).
Qed.

Lemma inspection_renders_nothing_witness :
  (RendererCLI.main Sample2.env Sample2.venv_eog
     (Sample2.cli (Some Sample2.letter_A) None "fonts/good.ttf" "out.png" true)
     Sample.start).1 = Ok [] ∧
  files (RendererCLI.main Sample2.env Sample2.venv_eog
           (Sample2.cli (Some Sample2.letter_A) None "fonts/good.ttf" "out.png" true)
           Sample.start).2 = files Sample.start.
Proof.
  apply (inspection_renders_nothing Sample2.env Sample2.venv_eog
           (Sample2.cli (Some Sample2.letter_A) None "fonts/good.ttf" "out.png" true)
           Sample.start).
  left. vm_compute. discriminate.
Defined.

(** Without inspection flag, a font file that does not exist is
    reported in one line, and nothing else happens. *)
Theorem missing_font_reported env venv args s :
  RendererCLI.given (RendererCLI.inspect args) = None →
  RendererCLI.given (RendererCLI.inspect_glyph_bbox_ args) = None →
  exists_ env (RendererCLI.font args) = false →
  RendererCLI.main env venv args s
  = (Ok [],
     {| console := console s
                   ++ ["Error: Font file not found at " +:+ RendererCLI.font args];
        files := files s |}).
Proof.
  intros Hinspect Hbbox Hexists. unfold RendererCLI.main.
  by rewrite Hinspect, Hbbox, Hexists.
Qed.

Lemma missing_font_reported_witness :
  RendererCLI.main Sample2.env Sample2.venv_eog
    (Sample2.cli None None "fonts/nowhere.ttf" "out.png" true) Sample.start
  = (Ok [],
     {| console := ["Error: Font file not found at fonts/nowhere.ttf"];
        files := ∅ |}).
Proof.
  apply (missing_font_reported Sample2.env Sample2.venv_eog
           (Sample2.cli None None "fonts/nowhere.ttf" "out.png" true) Sample.start);
    reflexivity.
Defined.

(** X23. The viewer is launched at most once, as [eog <output>], only
    with [--preview], and only on an image that this run has just
    written at the output path. *)
Theorem viewer_only_after_render env venv args s cmd cmds :
  (RendererCLI.main env venv args s).1 = Ok (cmd :: cmds) →
  cmd = ["eog"; RendererCLI.output args] ∧ cmds = [] ∧
  RendererCLI.preview args = true ∧
  exists_ env (RendererCLI.font args) = true ∧
  ∃ img,
    FontRenderer.render_image env (RendererCLI.text args) (RendererCLI.font args)
      (RendererCLI.font_size args) = Ok img ∧
    files (RendererCLI.main env venv args s).2 !! RendererCLI.output args
    = Some (ImageFile "PNG" img).
Proof.
  unfold RendererCLI.main.
  destruct (RendererCLI.given (RendererCLI.inspect args)) as [char|].
  { run. by destruct (RendererCLI.inspect_char_metrics _ _ _ s). }
  destruct (RendererCLI.given (RendererCLI.inspect_glyph_bbox_ args)) as [char|].
  { run. by destruct (RendererCLI.inspect_glyph_bbox _ _ _ _ s). }
  destruct (exists_ env (RendererCLI.font args)); cbn [negb]; [|discriminate].
  run.
  destruct (renderer_render_text_frame env (RendererCLI.text args)
              (RendererCLI.font args) (RendererCLI.output args)
              (RendererCLI.font_size args) s) as [(img & Himg & ->) | (e & ->)];
    [|discriminate].
  destruct (RendererCLI.preview args); [|discriminate].
  destruct (subprocess_run venv _); run; [|discriminate..].
  intros [= <- <-]. repeat split. exists img. split; [exact Himg|].
  apply lookup_insert_eq.
Qed.

Lemma viewer_only_after_render_witness :
  ∃ img,
    files (RendererCLI.main Sample2.env Sample2.venv_eog
             (Sample2.cli None None "fonts/good.ttf" "out.png" true)
             Sample.start).2 !! "out.png"
    = Some (ImageFile "PNG" img).
Proof.
  destruct (viewer_only_after_render Sample2.env Sample2.venv_eog
              (Sample2.cli None None "fonts/good.ttf" "out.png" true)
              Sample.start ["eog"; "out.png"] [])
    as (_ & _ & _ & _ & img & _ & Hfile); [vm_compute; reflexivity|].
  by exists img.
Defined.

Lemma print_lines_console lines s :
  RendererCLI.print_lines lines s
  = (tt, {| console := console s ++ lines; files := files s |}).
Proof.
  revert s. induction lines as [|line rest IH]; intros s;
    cbn [RendererCLI.print_lines]; run.
  - rewrite app_nil_r. by destruct s.
  - rewrite IH. cbn [console files]. by rewrite <- app_assoc.
Qed.

(** X24. [--inspect] on one character, for a font that opens with a
    character map that is not empty: a character that is not in the map
    is reported as not found; one that is there, with an advance width
    and units per em to read, gets three lines with these two numbers. *)
Theorem inspect_char_metrics_lines env font_path font cmap char point s :
  open_font env font_path = Ok font →
  getBestCmap font = Ok (Some cmap) → cmap ≠ ∅ →
  points char = [point] →
  (cmap !! point = None →
   RendererCLI.inspect_char_metrics env font_path char s
   = (tt, {| console := console s ++ [RendererCLI.not_found char];
             files := files s |})) ∧
  (∀ glyph_name hm w lsb upm,
     cmap !! point = Some glyph_name →
     hmtx font = Ok hm → hm !! glyph_name = Some (w, lsb) →
     unitsPerEm font = Ok upm →
     RendererCLI.inspect_char_metrics env font_path char s
     = (tt, {| console :=
                 console s ++
                 [ "Metrics for character '" +:+ shown char +:+ "' in "
                     +:+ basename font_path +:+ ":";
                   "  Advance Width: " +:+ pretty w;
                   "  Units Per Em: " +:+ pretty upm ];
               files := files s |})).
Proof.
  intros Hopen Hcmap Hne Hpoint.
  unfold RendererCLI.inspect_char_metrics, RendererCLI.inspect_char_metrics_body,
    RendererCLI.lookup_char, ord_str. run.
  rewrite Hopen, Hcmap, Hpoint. destruct (decide (cmap = ∅)); [done|]. split.
  - intros ->. apply print_lines_console.
  - intros glyph_name hm w lsb upm -> -> Hw ->. unfold getitem. rewrite Hw.
    apply print_lines_console.
Qed.

Lemma inspect_char_metrics_lines_witness :
  RendererCLI.inspect_char_metrics Sample.env "fonts/good.ttf" Sample2.letter_A
    Sample.start
  = (tt, {| console := [ "Metrics for character 'A' in good.ttf:";
                         "  Advance Width: 600";
                         "  Units Per Em: 1000" ];
            files := ∅ |}).
Proof.
  assert (Hne : Sample.cmap_of Sample.alnum_and_space ≠ ∅).
  { intros H. apply (f_equal (λ m : gmap Z string, m !! 65)) in H.
    vm_compute in H. discriminate H. }
  destruct (inspect_char_metrics_lines Sample.env "fonts/good.ttf" Sample.good
              (Sample.cmap_of Sample.alnum_and_space) Sample2.letter_A 65
              Sample.start eq_refl eq_refl Hne eq_refl) as [_ Hfound].
  apply (Hfound "A" (Sample.hmtx_of Sample.alnum_and_space Sample.regular) 600 0
           1000); vm_compute; reflexivity.
Defined.

(** X25. [--inspect] on a string that is not one character long raises
    inside [ord]: the error is printed, unless the character map is
    missing or empty, in which case the test stops before [ord] and the
    string is reported as not found. *)
Theorem inspect_string_not_a_char env font_path font char s :
  open_font env font_path = Ok font →
  length (points char) ≠ 1%nat →
  (getBestCmap font = Ok None ∨ getBestCmap font = Ok (Some ∅) →
   RendererCLI.inspect_char_metrics env font_path char s
   = (tt, {| console := console s ++ [RendererCLI.not_found char];
             files := files s |})) ∧
  (∀ cmap, getBestCmap font = Ok (Some cmap) → cmap ≠ ∅ →
   RendererCLI.inspect_char_metrics env font_path char s
   = (tt, {| console :=
               console s ++
               [ "Could not inspect metrics for " +:+ font_path +:+ ": "
                   +:+ "ord() expected a character, but string of length "
                   +:+ pretty (length (points char)) +:+ " found" ];
             files := files s |})).
Proof.
  intros Hopen Hlen.
  unfold RendererCLI.inspect_char_metrics, RendererCLI.inspect_char_metrics_body,
    RendererCLI.lookup_char. run. rewrite Hopen. split.
  - intros [-> | ->]; [apply print_lines_console|].
    destruct (decide (∅ = ∅)); [apply print_lines_console | done].
  - intros cmap -> Hne. destruct (decide (cmap = ∅)); [done|].
    unfold ord_str. destruct (points char) as [|p [|q rest]] eqn:Hpoints;
      [reflexivity | by destruct Hlen | reflexivity].
Qed.

Lemma inspect_string_not_a_char_witness :
  RendererCLI.inspect_char_metrics Sample.env "fonts/good.ttf"
    {| shown := "AB"; points := [65; 66] |} Sample.start
  = (tt, {| console :=
              [ "Could not inspect metrics for fonts/good.ttf: "
                  +:+ "ord() expected a character, but string of length 2 found" ];
            files := ∅ |}).
Proof.
  assert (Hne : Sample.cmap_of Sample.alnum_and_space ≠ ∅).
  { intros H. apply (f_equal (λ m : gmap Z string, m !! 65)) in H.
    vm_compute in H. discriminate H. }
  assert (Hlen : length (points {| shown := "AB"; points := [65; 66] |}) ≠ 1%nat)
    by (cbn [points length]; lia).
  destruct (inspect_string_not_a_char Sample.env "fonts/good.ttf" Sample.good
              {| shown := "AB"; points := [65; 66] |} Sample.start eq_refl Hlen)
    as [_ Herror].
  apply (Herror (Sample.cmap_of Sample.alnum_and_space) eq_refl Hne).
Defined.

(** ** Two fonts of the same file name *)

(** X26. When two fonts share a thumbnail path and both are listed, the
    second rendering overwrites the first: after the two iterations the
    one file holds the image of the second font, for both rows. *)
Theorem thumbnail_overwritten env args st first second s :
  let r1 := loop_body env args st first s in
  let r2 := loop_body env args r1.1 second r1.2 in
  thumbnail_path args first = thumbnail_path args second →
  total_processed_fonts r2.1 = S (S (total_processed_fonts st)) →
  ∃ img,
    FontIndexer.render_image env (text args) second (font_size args) = Ok img ∧
    files r2.2 !! thumbnail_path args first = Some (ImageFile "PNG" img).
Proof.
  cbv zeta. intros Hsame Htotal.
  assert (Hfirst : (total_processed_fonts (loop_body env args st first s).1
                    ≤ S (total_processed_fonts st))%nat).
  { destruct (loop_body_cases env args st first s) as [-> | (info & _ & _ & ->)];
      simpl; lia. }
  destruct (loop_body_cases env args (loop_body env args st first s).1 second
              (loop_body env args st first s).2)
    as [Hleft | (info & s_in & Hrender & _)].
  - rewrite Hleft in Htotal. lia.
  - apply indexer_render_text_true in Hrender as (img & Himg & Hfile).
    exists img. by rewrite Hsame.
Qed.

Lemma thumbnail_overwritten_witness :
  ∃ img,
    FontIndexer.render_image Sample2.env "Hi" "b/good.ttf" 24 = Ok img ∧
    files (loop Sample2.env Sample.all_args initial ["a/good.ttf"; "b/good.ttf"]
             Sample.start).2 !! "renders/good.ttf.png"
    = Some (ImageFile "PNG" img).
Proof.
  destruct (thumbnail_overwritten Sample2.env Sample.all_args initial
              "a/good.ttf" "b/good.ttf" Sample.start) as (img & Himg & Hfile);
    [reflexivity | vm_compute; reflexivity |].
  exists img. split; [exact Himg|].
  rewrite !loop_cons. exact Hfile.
Defined.

(** ** The width of the space *)

(** Over characters that all pass, the loop ends with the widths of those
    that are in the character map. *)
Lemma scan_widths_all_pass cmap hm upm chars :
  (∀ c, In c (chars_of chars) → passes_widths cmap hm upm c) →
  scan_widths cmap hm upm chars [] = Ok (inr (present_widths cmap hm chars)).
Proof.
  intros Hpass.
  destruct (scan_widths_passes cmap hm upm chars EmptyString [] Hpass)
    as (ws & Hscan & _).
  rewrite append_nil_r in Hscan. cbn [scan_widths] in Hscan.
  pose proof Hscan as Hdone. apply scan_widths_done in Hdone as [_ Hws].
  rewrite app_nil_l in Hws, Hscan. by rewrite Hscan, Hws.
Qed.

(** X27. For a font that gets through the loop over the required
    characters and has the space with an advance width, the verdict is
    that of the last test: the font fails with [Space character is
    excessively wide] when the width of the space is above three times
    the mean of the widths collected (computed in binary64), and passes
    otherwise. *)
Theorem space_width_verdict env font_path font cmap hm upm space_glyph_name
    space_advance_width lsb :
  open_font env font_path = Ok font →
  getBestCmap font = Ok (Some cmap) →
  hmtx font = Ok hm → unitsPerEm font = Ok upm →
  (∀ c, required c → passes_widths cmap hm upm c) →
  (∃ c, required c ∧ is_Some (cmap !! ord c)) →
  cmap !! ord " " = Some space_glyph_name →
  hm !! space_glyph_name = Some (space_advance_width, lsb) →
  check_font_metrics env font_path
  = (if int_gt_float space_advance_width
          (fmul (truediv (sum (present_widths cmap hm required_chars))
                   (Z.of_nat (length (present_widths cmap hm required_chars))))
             (float_of_int 3))
     then (false, "Space character is excessively wide")
     else (true, EmptyString)).
Proof.
  intros Hopen Hcmap Hhmtx Hupm Hpass (c & Hreq & Hsome) Hspace Hw.
  assert (Hne : cmap ≠ ∅).
  { intros ->. by rewrite lookup_empty in Hspace. }
  rewrite check_font_metrics_value. unfold check_font_metrics_body. run.
  rewrite Hopen, Hcmap. destruct (decide (cmap = ∅)); [done|].
  rewrite Hhmtx, Hupm, (scan_widths_all_pass cmap hm upm required_chars Hpass).
  pose proof (present_widths_nonempty cmap hm upm required_chars c Hpass Hreq Hsome)
    as Hnonempty.
  destruct (present_widths cmap hm required_chars) as [|w0 ws0];
    [by destruct Hnonempty|].
  rewrite Hspace. unfold getitem. rewrite Hw. run.
  by destruct (int_gt_float space_advance_width _).
Qed.

Lemma space_width_verdict_witness :
  check_font_metrics Sample2.env "fonts/widespace.ttf"
  = (false, "Space character is excessively wide").
Proof.
  assert (Hpass : ∀ c, required c →
            passes_widths (Sample.cmap_of Sample.alnum_and_space)
              (Sample.hmtx_of Sample.alnum_and_space
                 (Sample.with_width " " 2000 Sample.regular)) 1000 c).
  { intros c Hc glyph_name Hg. exists 600, 0.
    unfold required in Hc. simpl in Hc.
    repeat (destruct Hc as [<- | Hc];
            [vm_compute in Hg; injection Hg as <-;
             (split; [vm_compute; reflexivity | lia])|]).
    destruct Hc. }
  assert (Hsome : ∃ c, required c ∧
            is_Some (Sample.cmap_of Sample.alnum_and_space !! ord c)).
  { exists "A"%char. split; [unfold required; simpl; auto|]. vm_compute. eauto. }
  assert (Hspace : Sample.cmap_of Sample.alnum_and_space !! ord " " = Some " ")
    by (vm_compute; reflexivity).
  assert (Hw : Sample.hmtx_of Sample.alnum_and_space
                 (Sample.with_width " " 2000 Sample.regular) !! " "
               = Some (2000, 0)) by (vm_compute; reflexivity).
  rewrite (space_width_verdict Sample2.env "fonts/widespace.ttf" Sample2.widespace
             _ _ 1000 " " 2000 0 eq_refl eq_refl eq_refl eq_refl Hpass Hsome
             Hspace Hw).
  vm_compute. reflexivity.
Defined.
